(** * Pomodoro focus timer: session state machine and statistics engine

    A shallow embedding of [pomodoro_timer.py]: the interruptible countdown
    ([run_timer], [run_timer_simple]), the session log ([log_session]), the
    Pomodoro rotation ([run_pomodoro_cycle]), the duration prompt of
    [screen_focus_session] and the statistics engine ([compute_stats]);
    further the configuration files and screen ([load_config],
    [save_config], [screen_config]), the charts ([render_weekly_heatmap],
    [render_bar_chart], [render_hourly_chart]), the statistics screen and
    the menu loop of [main].

    Conventions of the embedding.
    - Python floats are rationals ([Q]); Python ints are [Z].  Rounding error
      of binary floating point is not modelled.
    - A calendar date is its proleptic Gregorian ordinal ([date.toordinal()]),
      so [timedelta(days=1)] is [1] and the lexicographic order of the ISO
      strings [YYYY-MM-DD] is the order of [Z].  A timestamp written by
      [datetime.now().isoformat()] is kept parsed: [started_at[:10]] is
      [dt_date] and [int(started_at[11:13])] is [dt_hour].
    - The outside world (wall clock, SIGINT, standard input, the two JSON
      files) is an explicit [World] threaded through the program.
    - Terminal output is not part of the world: of a screen the embedding
      keeps what it reads, what it writes to the files, what it returns and
      the values it computes for display.  The clock moves in the countdown
      loops only. *)

From Stdlib Require Import ZArith QArith Qround Qabs Lqa String Ascii.
From stdpp Require Import gmap sorting list strings.

Open Scope Z_scope.

(** ** Python exceptions and results *)

Inductive pyexn := ZeroDivisionError | ValueError.

Inductive result (A : Type) :=
| Ok (a : A)
| Raise (e : pyexn).
Arguments Ok {A} a.
Arguments Raise {A} e.

Definition rbind {A B} (m : result A) (k : A → result B) : result B :=
  match m with
  | Ok a => k a
  | Raise e => Raise e
  end.

(** [a / b] on numbers: [ZeroDivisionError] when [b] is zero. *)
Definition py_truediv (a b : Q) : result Q :=
  if Qeq_bool b 0 then Raise ZeroDivisionError else Ok (a / b)%Q.

(** [a > b] on numbers. *)
Definition Qgt_bool (a b : Q) : bool := negb (Qle_bool a b).

(** [a % b] on ints: the sign follows the divisor, as [Z.modulo] does. *)
Definition py_mod (a b : Z) : result Z :=
  if b =? 0 then Raise ZeroDivisionError else Ok (a mod b).

(** ** Calendar (CPython's [datetime]) *)

Definition is_leap (year : Z) : bool :=
  (year mod 4 =? 0) && (negb (year mod 100 =? 0) || (year mod 400 =? 0)).

Definition days_before_year (year : Z) : Z :=
  let y := year - 1 in
  y * 365 + y / 4 - y / 100 + y / 400.

Definition DAYS_BEFORE_MONTH : list Z :=
  [0; 0; 31; 59; 90; 120; 151; 181; 212; 243; 273; 304; 334].

Definition days_before_month (year month : Z) : Z :=
  nth (Z.to_nat month) DAYS_BEFORE_MONTH 0
  + (if (2 <? month) && is_leap year then 1 else 0).

(** [date(year, month, day).toordinal()]. *)
Definition ymd2ord (year month day : Z) : Z :=
  days_before_year year + days_before_month year month + day.

(** ** Data model *)

Record datetime := {
  dt_date : Z;
  dt_hour : Z;
  dt_minute : Z;
  dt_second : Z
}.

(** One entry of [sessions.json], as [log_session] writes it. *)
Record SessionRecord := {
  type : string;
  planned_minutes : Q;
  actual_minutes : Q;
  completed : bool;
  label : string;
  started_at : datetime
}.

(** A value of the [daily] dictionary. *)
Record DailyBucket := {
  d_sessions : Z;
  d_minutes : Q;
  d_completed : Z
}.

(** A value of the [hourly] dictionary. *)
Record HourlyBucket := {
  h_sessions : Z;
  h_minutes : Q
}.

(** ** Statistics engine *)

Definition is_focus (s : SessionRecord) : Prop := type s = "focus"%string.

Definition focus_of (sessions : list SessionRecord) : list SessionRecord :=
  filter is_focus sessions.

Definition completed_of (focus_sessions : list SessionRecord) : list SessionRecord :=
  filter (λ s, completed s = true) focus_sessions.

(** [sum(s["actual_minutes"] for s in l)]. *)
Definition sum_actual (l : list SessionRecord) : Q :=
  foldl (λ acc s, acc + actual_minutes s)%Q 0%Q l.

Definition daily_default : DailyBucket :=
  {| d_sessions := 0; d_minutes := 0; d_completed := 0 |}.

(** One pass of the loop that fills [daily]; the [defaultdict] supplies
    [daily_default] on the first access of a date. *)
Definition daily_step (daily : gmap Z DailyBucket) (s : SessionRecord)
  : gmap Z DailyBucket :=
  let d := dt_date (started_at s) in
  let b := default daily_default (daily !! d) in
  <[d := {| d_sessions := d_sessions b + 1;
            d_minutes := (d_minutes b + actual_minutes s)%Q;
            d_completed := if completed s then d_completed b + 1
                           else d_completed b |}]> daily.

Definition build_daily (focus_sessions : list SessionRecord) : gmap Z DailyBucket :=
  foldl daily_step ∅ focus_sessions.

Definition hourly_default : HourlyBucket :=
  {| h_sessions := 0; h_minutes := 0 |}.

Definition hourly_step (hourly : gmap Z HourlyBucket) (s : SessionRecord)
  : gmap Z HourlyBucket :=
  let hour := dt_hour (started_at s) in
  let b := default hourly_default (hourly !! hour) in
  <[hour := {| h_sessions := h_sessions b + 1;
               h_minutes := (h_minutes b + actual_minutes s)%Q |}]> hourly.

Definition build_hourly (focus_sessions : list SessionRecord) : gmap Z HourlyBucket :=
  foldl hourly_step ∅ focus_sessions.

(** [sorted(daily.keys())]. *)
Definition sorted_days (daily : gmap Z DailyBucket) : list Z :=
  merge_sort Z.le (map_to_list daily).*1.

(** [daily[day]["completed"]]. *)
Definition completed_on (daily : gmap Z DailyBucket) (day : Z) : Z :=
  d_completed (default daily_default (daily !! day)).

(** The loop [for i, day in enumerate(sorted_days)]: [days] is the whole
    list, [todo] what is left of it from index [i] on.  Returns the final
    [(streak, best_streak)]. *)
Fixpoint best_streak_loop (daily : gmap Z DailyBucket) (days : list Z)
    (i : nat) (todo : list Z) (streak best_streak : Z) : Z * Z :=
  match todo with
  | [] => (streak, best_streak)
  | day :: todo' =>
      if 0 <? completed_on daily day then
        let streak' :=
          if (i =? 0)%nat then 1
          else
            let prev := nth (i - 1)%nat days 0 in
            let expected_prev := day - 1 in
            if prev =? expected_prev then streak + 1 else 1 in
        best_streak_loop daily days (S i) todo' streak' (Z.max best_streak streak')
      else
        best_streak_loop daily days (S i) todo' 0 best_streak
  end.

Definition best_streak_of (daily : gmap Z DailyBucket) : Z :=
  let days := sorted_days daily in
  (best_streak_loop daily days 0 days 0 0).2.

(** The loop [for _ in range(365)] that walks backwards from today; [n]
    is the number of iterations left. *)
Fixpoint current_streak_loop (n : nat) (daily : gmap Z DailyBucket)
    (check_date : Z) (current_streak : Z) : Z :=
  match n with
  | O => current_streak
  | S n' =>
      match daily !! check_date with
      | Some b =>
          if 0 <? d_completed b
          then current_streak_loop n' daily (check_date - 1) (current_streak + 1)
          else current_streak
      | None => current_streak
      end
  end.

Definition current_streak_of (daily : gmap Z DailyBucket) (today : Z) : Z :=
  current_streak_loop 365 daily today 0.

(** Keys of [daily] in insertion order (the order in which a Python dict
    iterates): dates by first occurrence in the focus sessions. *)
Definition insertion_order (focus_sessions : list SessionRecord) : list Z :=
  foldl (λ keys s,
           let d := dt_date (started_at s) in
           if decide (d ∈ keys) then keys else keys ++ [d])
        [] focus_sessions.

(** [max(items, key=lambda x: x[1]["minutes"])]: the first item whose key
    is maximal; [None] stands for the pair [(None, None)] of an empty
    [daily]. *)
Definition best_day_of (daily : gmap Z DailyBucket) (keys : list Z)
  : option (Z * DailyBucket) :=
  foldl (λ best d,
           let b := default daily_default (daily !! d) in
           match best with
           | None => Some (d, b)
           | Some (d0, b0) =>
               if Qle_bool (d_minutes b) (d_minutes b0) then Some (d0, b0)
               else Some (d, b)
           end)
        None keys.

(** The loop [for i in range(7)] of the weekly totals. *)
Definition week_step (daily : gmap Z DailyBucket) (today : Z)
    (acc : Q * Z) (i : Z) : Q * Z :=
  let d := today - i in
  match daily !! d with
  | Some b => ((acc.1 + d_minutes b)%Q, acc.2 + d_sessions b)
  | None => acc
  end.

Definition week_totals (daily : gmap Z DailyBucket) (today : Z) : Q * Z :=
  foldl (week_step daily today) (0%Q, 0) (seqZ 0 7).

Record StatsReport := {
  total_focus_minutes : Q;
  total_completed_minutes : Q;
  total_focus_sessions : Z;
  completed_focus_sessions : Z;
  completion_rate : Q;
  current_streak : Z;
  best_streak : Z;
  daily : gmap Z DailyBucket;
  hourly : gmap Z HourlyBucket;
  best_day : option (Z * DailyBucket);
  week_minutes : Q;
  week_sessions : Z;
  first_session_date : option Z
}.

(** What [compute_stats] returns: the empty dictionary [{}] or the report. *)
Inductive Stats :=
| EmptyStats
| Report (r : StatsReport).

Definition len {A} (l : list A) : Z := Z.of_nat (length l).

Definition completion_rate_of (focus_sessions completed_focus : list SessionRecord)
  : result Q :=
  match focus_sessions with
  | [] => Ok 0%Q
  | _ :: _ =>
      rbind (py_truediv (inject_Z (len completed_focus)) (inject_Z (len focus_sessions)))
            (λ q, Ok (q * 100)%Q)
  end.

(** [compute_stats(sessions)], with [date.today()] as the parameter [today]. *)
Definition compute_stats (sessions : list SessionRecord) (today : Z) : result Stats :=
  match sessions with
  | [] => Ok EmptyStats
  | first :: _ =>
      let focus_sessions := focus_of sessions in
      let completed_focus := completed_of focus_sessions in
      rbind (completion_rate_of focus_sessions completed_focus) (λ rate,
      let daily := build_daily focus_sessions in
      let hourly := build_hourly focus_sessions in
      let week := week_totals daily today in
      Ok (Report {|
        total_focus_minutes := sum_actual focus_sessions;
        total_completed_minutes := sum_actual completed_focus;
        total_focus_sessions := len focus_sessions;
        completed_focus_sessions := len completed_focus;
        completion_rate := rate;
        current_streak := current_streak_of daily today;
        best_streak := best_streak_of daily;
        daily := daily;
        hourly := hourly;
        best_day := best_day_of daily (insertion_order focus_sessions);
        week_minutes := week.1;
        week_sessions := week.2;
        first_session_date := Some (dt_date (started_at first))
      |}))
  end.

(** ** The outside world *)

(** What the environment does during one iteration of a countdown loop:
    the iteration (frame and [time.sleep(1)]) takes [d] seconds, or SIGINT
    arrives [d] seconds into it and the handler raises [TimerInterrupt]. *)
Inductive tick :=
| Sleep (d : Q)
| CtrlC (d : Q).

(** Which branch the loop of [run_pomodoro_cycle] took, with the value of
    [session_count] at the head of the loop.  Ghost data: the program does
    not store it; the embedding records it to state properties of runs. *)
Inductive cycle_event :=
| LongBreakOffer (session_count : Z)
| FocusRun (session_count : Z) (finished : bool).

Record World := {
  clock : Q;                              (* time.time(), local seconds *)
  ticks : list tick;                      (* the coming loop iterations *)
  stdin : list string;                    (* the coming lines of input() *)
  sessions_json : list SessionRecord;     (* ~/.pomodoro/sessions.json *)
  config_json : option (gmap string Z);   (* ~/.pomodoro/config.json *)
  cycle_trace : list cycle_event          (* ghost *)
}.

Inductive outcome (A : Type) :=
| Done (a : A) (w : World)
| Crash (e : pyexn) (w : World)
| OutOfFuel.
Arguments Done {A} a w.
Arguments Crash {A} e w.
Arguments OutOfFuel {A}.

(** Programs that read and change the world. *)
Definition M (A : Type) : Type := World → outcome A.

Definition ret {A} (a : A) : M A := λ w, Done a w.

Definition bind {A B} (m : M A) (k : A → M B) : M B :=
  λ w, match m w with
       | Done a w' => k a w'
       | Crash e w' => Crash e w'
       | OutOfFuel => OutOfFuel
       end.

Notation "x <- m ;; k" := (bind m (λ x, k))
  (at level 100, m at next level, right associativity).
Notation "m ;;; k" := (bind m (λ _, k))
  (at level 100, right associativity).

Definition lift {A} (r : result A) : M A :=
  λ w, match r with
       | Ok a => Done a w
       | Raise e => Crash e w
       end.

(** [time.time()]. *)
Definition time_time : M Q := λ w, Done (clock w) w.

Definition set_clock_ticks (t : Q) (tk : list tick) (w : World) : World :=
  {| clock := t; ticks := tk; stdin := stdin w;
     sessions_json := sessions_json w; config_json := config_json w;
     cycle_trace := cycle_trace w |}.

Definition set_stdin (l : list string) (w : World) : World :=
  {| clock := clock w; ticks := ticks w; stdin := l;
     sessions_json := sessions_json w; config_json := config_json w;
     cycle_trace := cycle_trace w |}.

Definition set_sessions (l : list SessionRecord) (w : World) : World :=
  {| clock := clock w; ticks := ticks w; stdin := stdin w;
     sessions_json := l; config_json := config_json w;
     cycle_trace := cycle_trace w |}.

Definition set_cycle_trace (l : list cycle_event) (w : World) : World :=
  {| clock := clock w; ticks := ticks w; stdin := stdin w;
     sessions_json := sessions_json w; config_json := config_json w;
     cycle_trace := l |}.

Definition observe (e : cycle_event) : M unit :=
  λ w, Done tt (set_cycle_trace (cycle_trace w ++ [e]) w).

(** ** Strings: [str.strip], [str.lower], [int(str)] on ASCII input *)

Definition is_space (c : ascii) : bool :=
  let n := nat_of_ascii c in
  (((9 <=? n) && (n <=? 13)) || ((28 <=? n) && (n <=? 32)))%nat.

Fixpoint lstrip (s : string) : string :=
  match s with
  | String c s' => if is_space c then lstrip s' else s
  | EmptyString => EmptyString
  end.

Fixpoint rstrip (s : string) : string :=
  match s with
  | String c s' =>
      match rstrip s' with
      | EmptyString => if is_space c then EmptyString else String c EmptyString
      | r => String c r
      end
  | EmptyString => EmptyString
  end.

Definition strip (s : string) : string := rstrip (lstrip s).

Definition lower_ascii (c : ascii) : ascii :=
  let n := nat_of_ascii c in
  if ((65 <=? n) && (n <=? 90))%nat then ascii_of_nat (n + 32) else c.

Fixpoint lower (s : string) : string :=
  match s with
  | String c s' => String (lower_ascii c) (lower s')
  | EmptyString => EmptyString
  end.

Definition digit_of (c : ascii) : option Z :=
  let n := nat_of_ascii c in
  if ((48 <=? n) && (n <=? 57))%nat then Some (Z.of_nat n - 48) else None.

(** Decimal digits with single underscores between them; [after_digit]
    tells whether the previous character was a digit. *)
Fixpoint parse_digits (s : string) (acc : Z) (after_digit : bool) : option Z :=
  match s with
  | EmptyString => if after_digit then Some acc else None
  | String c s' =>
      match digit_of c with
      | Some d => parse_digits s' (10 * acc + d) true
      | None =>
          if (nat_of_ascii c =? 95)%nat && after_digit then
            match s' with
            | String c' _ =>
                match digit_of c' with
                | Some _ => parse_digits s' acc false
                | None => None
                end
            | EmptyString => None
            end
          else None
      end
  end.

(** [int(s)] for a string: surrounding whitespace, an optional sign, then
    decimal digits; anything else is a [ValueError].  (ASCII only: the
    Unicode digits and spaces that Python also accepts are not modelled.) *)
Definition py_int (s : string) : result Z :=
  let body := strip s in
  let parsed :=
    match body with
    | String "-"%char rest => Z.opp <$> parse_digits rest 0 false
    | String "+"%char rest => parse_digits rest 0 false
    | _ => parse_digits body 0 false
    end in
  match parsed with
  | Some n => Ok n
  | None => Raise ValueError
  end.

(** [input_prompt(...)]: the next line of standard input, stripped; the
    empty string at end of input or on Ctrl+C. *)
Definition input_prompt : M string :=
  λ w, match stdin w with
       | [] => Done EmptyString w
       | line :: rest => Done (strip line) (set_stdin rest w)
       end.

(** ** Data layer *)

Definition DEFAULT_CONFIG : gmap string Z :=
  {[ "focus_minutes"%string := 25;
     "short_break_minutes"%string := 5;
     "long_break_minutes"%string := 20;
     "sessions_before_long_break"%string := 4;
     "daily_goal_sessions"%string := 8 ]}.

(** [load_config()]: [{**DEFAULT_CONFIG, **json.load(f)}], or the defaults
    when there is no file.  (The boolean key [motivational_quotes] is left
    out: the embedded code does not read it.) *)
Definition config_of (w : World) : gmap string Z :=
  match config_json w with
  | Some persisted => persisted ∪ DEFAULT_CONFIG
  | None => DEFAULT_CONFIG
  end.

Definition load_config : M (gmap string Z) := λ w, Done (config_of w) w.

(** [config[key]] for a key of [DEFAULT_CONFIG]. *)
Definition config_get (config : gmap string Z) (key : string) : Z :=
  config !!! key.

(** [round(x)] to the nearest integer, ties to even. *)
Definition py_round (x : Q) : Z :=
  let f := Qfloor x in
  match (x - inject_Z f ?= 1 # 2)%Q with
  | Lt => f
  | Gt => f + 1
  | Eq => if Z.even f then f else f + 1
  end.

(** [round(x, 2)]. *)
Definition round2 (x : Q) : Q := py_round (x * 100) # 100.

(** [datetime.now()] at clock reading [t] (seconds since 1970-01-01, whose
    ordinal is 719163). *)
Definition datetime_now (t : Q) : datetime :=
  let s := Qfloor t in
  {| dt_date := 719163 + s / 86400;
     dt_hour := (s / 3600) mod 24;
     dt_minute := (s / 60) mod 60;
     dt_second := s mod 60 |}.

Inductive session_kind := Focus | ShortBreak | LongBreak.

(** The keys of [SESSION_TYPES]. *)
Definition token (k : session_kind) : string :=
  match k with
  | Focus => "focus"
  | ShortBreak => "short"
  | LongBreak => "long"
  end.

Definition log_session (session_type : session_kind) (planned actual : Q)
    (done_ : bool) (lbl : string) : M unit :=
  λ w, Done tt
    (set_sessions
       (sessions_json w ++
          [{| type := token session_type;
              planned_minutes := planned;
              actual_minutes := round2 actual;
              completed := done_;
              label := lbl;
              started_at := datetime_now (clock w) |}])
       w).

(** ** Timer engine *)

(** The countdown loop once no more events are scheduled: every iteration
    sleeps one second.  [n] bounds the number of iterations; [countdown]
    supplies the number of whole seconds left, which always suffices
    ([free_countdown_expired]).  Returns the clock at the [break]. *)
Fixpoint free_countdown (n : nat) (total_seconds start_time t : Q) : Q :=
  match n with
  | O => t
  | S n' =>
      let elapsed := (t - start_time)%Q in
      let remaining := (total_seconds - elapsed)%Q in
      if Qle_bool remaining 0 then t
      else free_countdown n' total_seconds start_time (t + 1)%Q
  end.

(** The loop [while True] of [run_timer] and [run_timer_simple], started at
    clock [t] with the scheduled events [tk]: returns [interrupted], the
    clock when the loop is left and the events still to come. *)
Fixpoint countdown_loop (total_seconds start_time : Q) (tk : list tick) (t : Q)
  : bool * Q * list tick :=
  match tk with
  | [] =>
      let remaining := (total_seconds - (t - start_time))%Q in
      (false,
       free_countdown (Z.to_nat (Qceiling remaining)) total_seconds start_time t,
       [])
  | ev :: tk' =>
      let elapsed := (t - start_time)%Q in
      let remaining := (total_seconds - elapsed)%Q in
      if Qle_bool remaining 0 then (false, t, tk)
      else
        match ev with
        | Sleep d => countdown_loop total_seconds start_time tk' (t + d)%Q
        | CtrlC d => (true, (t + d)%Q, tk')
        end
  end.

(** The [try] block around the loop: the result is [interrupted]. *)
Definition countdown (total_seconds start_time : Q) : M bool :=
  λ w,
    let '(interrupted, t, tk) :=
      countdown_loop total_seconds start_time (ticks w) (clock w) in
    Done interrupted (set_clock_ticks t tk w).

(** [run_timer_simple(session_type, minutes, label)]. *)
Definition run_timer_simple (session_type : session_kind) (minutes : Q)
    (lbl : string) : M bool :=
  let total_seconds := (minutes * 60)%Q in
  start_time <- time_time;;
  interrupted <- countdown total_seconds start_time;;
  now <- time_time;;
  let actual := ((now - start_time) / 60)%Q in
  if interrupted then
    log_session session_type minutes actual false lbl;;;
    input_prompt;;;
    ret false
  else
    log_session session_type minutes actual true lbl;;;
    input_prompt;;;
    ret true.

(** [run_timer(session_type, minutes, label)]; [fuel] bounds the depth of
    the recursion through "Restart timer from scratch". *)
Fixpoint run_timer_rec (fuel : nat) (session_type : session_kind) (minutes : Q)
    (lbl : string) : M bool :=
  match fuel with
  | O => λ _, OutOfFuel
  | S fuel' =>
      let total_seconds := (minutes * 60)%Q in
      start_time <- time_time;;
      interrupted <- countdown total_seconds start_time;;
      now <- time_time;;
      let actual_minutes := ((now - start_time) / 60)%Q in
      if negb interrupted then
        log_session session_type minutes actual_minutes true lbl;;;
        input_prompt;;;
        ret true
      else
        choice <- input_prompt;;
        if String.eqb choice "1" then
          let remaining_minutes := ((total_seconds - actual_minutes * 60) / 60)%Q in
          if Qgt_bool remaining_minutes (1 # 10)
          then run_timer_simple session_type remaining_minutes lbl
          else ret true
        else if String.eqb choice "2" then
          run_timer_rec fuel' session_type minutes lbl
        else
          log_session session_type minutes actual_minutes false lbl;;;
          input_prompt;;;
          ret false
  end.

(** Every restart follows a SIGINT, so the scheduled events bound the
    depth of the recursion ([run_timer_returns]). *)
Definition run_timer (session_type : session_kind) (minutes : Q) (lbl : string)
  : M bool :=
  λ w, run_timer_rec (S (length (ticks w))) session_type minutes lbl w.

(** ** Screens *)

(** The [try]/[except ValueError] block of [screen_focus_session] that
    chooses the planned minutes. *)
Definition planned_minutes_of (duration : string) (config : gmap string Z)
  : result Z :=
  let body :=
    rbind (if String.eqb duration EmptyString
           then Ok (config_get config "focus_minutes")
           else py_int duration)
          (λ minutes,
             if minutes <=? 0 then Ok (config_get config "focus_minutes")
             else Ok minutes) in
  match body with
  | Raise ValueError => Ok (config_get config "focus_minutes")
  | r => r
  end.

Definition screen_focus_session : M bool :=
  config <- load_config;;
  lbl <- input_prompt;;
  duration <- input_prompt;;
  minutes <- lift (planned_minutes_of duration config);;
  input_prompt;;;
  run_timer Focus (inject_Z minutes) lbl.

(** ** Pomodoro cycle *)

(** [session_count > 0 and session_count % long_break_every == 0]. *)
Definition long_break_due (session_count long_break_every : Z) : result bool :=
  if 0 <? session_count then
    rbind (py_mod session_count long_break_every) (λ r, Ok (r =? 0))
  else Ok false.

Definition answered (choice : string) (answers : list string) : bool :=
  bool_decide (lower choice ∈ answers).

(** The loop [while True] of [run_pomodoro_cycle]; [fuel] bounds the number
    of iterations. *)
Fixpoint cycle_loop (fuel : nat) (config : gmap string Z) (session_count : Z)
  : M unit :=
  match fuel with
  | O => λ _, OutOfFuel
  | S fuel' =>
      let long_break_every := config_get config "sessions_before_long_break" in
      due <- lift (long_break_due session_count long_break_every);;
      if (due : bool) then
        observe (LongBreakOffer session_count);;;
        choice <- input_prompt;;
        (if answered choice ["y"%string]
         then run_timer LongBreak
                (inject_Z (config_get config "long_break_minutes")) EmptyString
         else ret false);;;
        cycle_loop fuel' config 0
      else
        lbl <- input_prompt;;
        finished <- run_timer Focus
                      (inject_Z (config_get config "focus_minutes")) lbl;;
        observe (FocusRun session_count finished);;;
        if (finished : bool) then
          let session_count := session_count + 1 in
          choice <- input_prompt;;
          (if answered choice ["y"%string]
           then run_timer ShortBreak
                  (inject_Z (config_get config "short_break_minutes")) EmptyString
           else ret false);;;
          choice <- input_prompt;;
          if answered choice ["n"; "q"; EmptyString]%string then ret tt
          else cycle_loop fuel' config session_count
        else
          choice <- input_prompt;;
          if negb (answered choice ["y"%string]) then ret tt
          else cycle_loop fuel' config session_count
  end.

(** Every iteration reads a line; after the end of input every answer is
    the empty string and the loop is left within two iterations
    ([run_pomodoro_cycle_returns]). *)
Definition run_pomodoro_cycle : M unit :=
  config <- load_config;;
  (λ w, cycle_loop (length (stdin w) + 2) config 0 w).

(** ** Vocabulary of the specification *)

(** The records of [l] started on calendar date [d]. *)
Definition on_day (d : Z) (l : list SessionRecord) : list SessionRecord :=
  filter (λ s, dt_date (started_at s) = d) l.

(** Date [d] contains at least one completed focus session of the log. *)
Definition active_day (sessions : list SessionRecord) (d : Z) : Prop :=
  Exists (λ s, is_focus s ∧ completed s = true ∧ dt_date (started_at s) = d)
         sessions.

(** The bucket of date [d] has [completed > 0]; a date without a bucket
    has none. *)
Definition streak_day (daily : gmap Z DailyBucket) (d : Z) : Prop :=
  0 < completed_on daily d.

(** The [k] dates that end at [d] are all active. *)
Definition active_run (sessions : list SessionRecord) (d k : Z) : Prop :=
  ∀ i, 0 ≤ i < k → active_day sessions (d - i).

(** Exactly [k] consecutive streak days end at [p]: [k = 0] says that [p]
    itself is not one. *)
Definition is_run (daily : gmap Z DailyBucket) (p k : Z) : Prop :=
  0 ≤ k ∧ (∀ i, 0 ≤ i < k → streak_day daily (p - i)) ∧ ¬ streak_day daily (p - k).

(** The record started on one of the seven calendar dates ending today. *)
Definition in_week (today : Z) (s : SessionRecord) : Prop :=
  today - 6 ≤ dt_date (started_at s) ≤ today.

(** [b["minutes"]] and [b["sessions"]] of the bucket of [d], zero when
    [daily] has no bucket for [d]. *)
Definition bucket_minutes (daily : gmap Z DailyBucket) (d : Z) : Q :=
  d_minutes (default daily_default (daily !! d)).

Definition bucket_sessions (daily : gmap Z DailyBucket) (d : Z) : Z :=
  d_sessions (default daily_default (daily !! d)).

Definition Qsum (l : list Q) : Q := foldr Qplus 0%Q l.

Definition Zsum (l : list Z) : Z := foldr Z.add 0 l.

(** The seven calendar dates of the weekly window, today first. *)
Definition week_dates (today : Z) : list Z := (λ i, today - i) <$> seqZ 0 7.

#[global] Instance streak_day_dec daily d : Decision (streak_day daily d).
Proof. unfold streak_day. apply _. Defined.

#[global] Instance active_day_dec sessions d : Decision (active_day sessions d).
Proof. unfold active_day, is_focus. apply _. Defined.

(** The dates that contain a completed focus session. *)
Definition active_dates (sessions : list SessionRecord) : gset Z :=
  list_to_set ((λ s, dt_date (started_at s)) <$> completed_of (focus_of sessions)).

(** ** Sample logs *)

Definition sample_record (kind : string) (date hour : Z) (spent : Q) (done_ : bool)
  : SessionRecord :=
  {| type := kind; planned_minutes := 25; actual_minutes := spent;
     completed := done_; label := EmptyString;
     started_at := {| dt_date := date; dt_hour := hour;
                      dt_minute := 0; dt_second := 0 |} |}.

(** Completed focus sessions on 2024-01-01, 01-02 and 01-03, a break on
    01-04. *)
Definition january_log : list SessionRecord :=
  [ sample_record "focus" (ymd2ord 2024 1 1) 9 25 true;
    sample_record "focus" (ymd2ord 2024 1 2) 23 25 true;
    sample_record "focus" (ymd2ord 2024 1 3) 0 25 true;
    sample_record "short" (ymd2ord 2024 1 4) 10 5 true ].

(** Completed focus sessions on five consecutive days, none on the sixth,
    then on two more days; an abandoned one on the sixth. *)
Definition gap_log : list SessionRecord :=
  [ sample_record "focus" 100 9 25 true;
    sample_record "focus" 101 9 25 true;
    sample_record "focus" 102 9 25 true;
    sample_record "focus" 103 9 25 true;
    sample_record "focus" 104 9 25 true;
    sample_record "focus" 105 9 (25 # 2) false;
    sample_record "focus" 106 9 25 true;
    sample_record "focus" 107 9 25 true ].

(** Only breaks. *)
Definition breaks_log : list SessionRecord :=
  [ sample_record "short" 100 9 5 true;
    sample_record "long" 100 11 20 true ].

(** ** Sample worlds *)

(** 2024-01-01, nine o'clock; no files yet. *)
Definition sample_world (events : list tick) (lines : list string) : World :=
  {| clock := 1704099600; ticks := events; stdin := lines;
     sessions_json := []; config_json := None; cycle_trace := [] |}.

(** Ctrl+C after 30 seconds, then "1" (resume) at the menu. *)
Definition resume_world : World :=
  sample_world (replicate 30 (Sleep 1) ++ [CtrlC 0]) ["1"%string].

(** Ctrl+C after 55 seconds, then "1" (resume) at the menu. *)
Definition near_end_world : World :=
  sample_world (replicate 55 (Sleep 1) ++ [CtrlC 0]) ["1"%string].

(** The trace of a Pomodoro cycle that starts with [session_count = count],
    for [long_break_every = every]: at each loop head a long break is
    offered exactly if the counter is a positive multiple of [every];
    after the offer the counter is zero; a focus session that finished
    adds one to the counter and any other leaves it as it is. *)
Fixpoint cycle_trace_ok (every count : Z) (trace : list cycle_event) : Prop :=
  match trace with
  | [] => True
  | LongBreakOffer c :: trace' =>
      c = count ∧ (0 < c ∧ (every | c)) ∧ cycle_trace_ok every 0 trace'
  | FocusRun c finished :: trace' =>
      c = count ∧ ¬ (0 < c ∧ (every | c))
      ∧ cycle_trace_ok every (if finished then c + 1 else c) trace'
  end.

(** How a run of the cycle from [w] with counter [count] may end: it
    returns, or it stops on the division by a zero [long_break_every];
    the events it added to the trace are well formed. *)
Definition cycle_post (every count : Z) (w : World) (o : outcome unit) : Prop :=
  match o with
  | Done _ w' =>
      ∃ trace, cycle_trace w' = cycle_trace w ++ trace
               ∧ cycle_trace_ok every count trace
  | Crash e w' =>
      e = ZeroDivisionError ∧ every = 0
      ∧ ∃ trace, cycle_trace w' = cycle_trace w ++ trace
                 ∧ cycle_trace_ok every count trace
  | OutOfFuel => False
  end.

(** A cycle with a long break every second focus session and focus
    sessions of one minute.  The first session is interrupted at once and
    abandoned ("3"); three sessions complete; the long break offered after
    the second of them is declined. *)
Definition cycle_world : World :=
  {| clock := 1704099600;
     ticks := [CtrlC 0];
     stdin := [ "a"; "3"; EmptyString; "y";
                "b"; EmptyString; "n"; "y";
                "c"; EmptyString; "n"; "y";
                "n";
                "d"; EmptyString; "n"; "n" ]%string;
     sessions_json := [];
     config_json := Some {[ "sessions_before_long_break"%string := 2;
                            "focus_minutes"%string := 1 ]};
     cycle_trace := [] |}.

(** A cycle with a long break after every focus session and focus
    sessions of one minute.  The countdown of the first session ("a") is
    stopped by Ctrl+C after 55 seconds and the menu is answered "1"
    (resume); the short break is declined and the cycle continued; the
    long break is declined; a second session ("q") runs to its end and
    the cycle is left. *)
Definition unfinished_world : World :=
  {| clock := 1704099600;
     ticks := replicate 55 (Sleep 1) ++ [CtrlC 0];
     stdin := [ "a"; "1"; "n"; "y";
                "n";
                "q"; EmptyString; "n"; "n" ]%string;
     sessions_json := [];
     config_json := Some {[ "sessions_before_long_break"%string := 1;
                            "focus_minutes"%string := 1 ]};
     cycle_trace := [] |}.

(** What a record would be if the segments of a resumed session were
    accumulated: the planned duration of the whole session, the sum of
    the elapsed seconds of all segments up to one polling interval (one
    second), and the outcome of the last segment. *)
Definition accumulated_record (planned : Q) (segments : list Q) (finished : bool)
    (r : SessionRecord) : Prop :=
  (planned_minutes r == planned)%Q
  ∧ (Qabs (actual_minutes r - Qsum segments / 60) <= 1 # 60)%Q
  ∧ completed r = finished.

(** The event is a SIGINT. *)
Definition is_interrupt (ev : tick) : Prop :=
  match ev with CtrlC _ => True | Sleep _ => False end.

(** What a call of the timer engine may change: it appends [recs] to the
    session log and consumes input and scheduled events. *)
Definition timer_frame (w w' : World) (recs : list SessionRecord) : Prop :=
  sessions_json w' = sessions_json w ++ recs
  ∧ config_json w' = config_json w
  ∧ cycle_trace w' = cycle_trace w
  ∧ (length (stdin w') ≤ length (stdin w))%nat
  ∧ (length (ticks w') ≤ length (ticks w))%nat.

(** The invariant of the loop that computes the best streak, after the
    sorted dates [pre] have been visited. *)
Definition streak_inv (daily : gmap Z DailyBucket) (pre : list Z)
    (streak best : Z) : Prop :=
  match last pre with
  | None => streak = 0
  | Some p => is_run daily p streak
  end
  ∧ 0 ≤ best
  ∧ (∀ p, p ∈ pre → ∃ k, is_run daily p k ∧ k ≤ best)
  ∧ (best = 0 ∨ ∃ p, p ∈ pre ∧ is_run daily p best).

(** ** Data layer, timer frames and configuration screen *)

(** No SIGINT is scheduled and no iteration takes longer than a second. *)
Definition quiet (tk : list tick) : Prop :=
  Forall (λ ev, ∃ d, ev = Sleep d ∧ (d <= 1)%Q) tk.

Definition set_config (config : gmap string Z) (w : World) : World :=
  {| clock := clock w; ticks := ticks w; stdin := stdin w;
     sessions_json := sessions_json w; config_json := Some config;
     cycle_trace := cycle_trace w |}.

(** [save_config(config)]. *)
Definition save_config (config : gmap string Z) : M unit :=
  λ w, Done tt (set_config config w).

(** [load_sessions()]. *)
Definition load_sessions : M (list SessionRecord) :=
  λ w, Done (sessions_json w) w.

(** [int(x)] for a float: rounding towards zero. *)
Definition py_trunc (x : Q) : Z :=
  if Qle_bool 0 x then Qfloor x else Qceiling x.

(** A cell of a bar drawn with block characters: a full block or a light
    shade. *)
Inductive cell := FullBlock | LightShade.

(** [c * n] for a one-character string [c]: empty when [n] is negative. *)
Definition repeat_cell (c : cell) (n : Z) : list cell := replicate (Z.to_nat n) c.

(** The numbers of one frame of the countdown display. *)
Record Frame := {
  fr_mins : Z;
  fr_secs : Z;
  fr_filled : Z;
  fr_empty : Z;
  fr_pulse : list cell;
  fr_percent : Z;
  fr_e_mins : Z;
  fr_e_secs : Z
}.

(** The body of the loop of [run_timer] between the test of [remaining]
    and the printing: what the frame shows for the given elapsed time. *)
Definition render_frame (total_seconds elapsed : Q) : result Frame :=
  let remaining := (total_seconds - elapsed)%Q in
  let mins := py_trunc remaining / 60 in
  let secs := py_trunc remaining mod 60 in
  rbind (py_truediv remaining total_seconds) (λ ratio,
    let progress := (1 - ratio)%Q in
    let bar_width := 40 in
    let filled := py_trunc (inject_Z bar_width * progress) in
    let empty := bar_width - filled in
    Ok {| fr_mins := mins;
          fr_secs := secs;
          fr_filled := filled;
          fr_empty := empty;
          fr_pulse := repeat_cell FullBlock filled ++ repeat_cell LightShade empty;
          fr_percent := py_trunc (progress * 100);
          fr_e_mins := py_trunc elapsed / 60;
          fr_e_secs := py_trunc elapsed mod 60 |}).

(** The keys of the list [keys] of [screen_config], in its order. *)
Definition CONFIG_KEYS : list string :=
  [ "focus_minutes"; "short_break_minutes"; "long_break_minutes";
    "sessions_before_long_break"; "daily_goal_sessions" ]%string.

(** [config.get("motivational_quotes", True)]; the boolean is kept as the
    integer it is in Python, [1] for [True]. *)
Definition quotes_on (config : gmap string Z) : Z :=
  default 1 (config !! "motivational_quotes"%string).

(** The loop [while True] of [screen_config]; [fuel] bounds the number of
    iterations.  The pauses [time.sleep(0.6)] are not modelled. *)
Fixpoint config_loop (fuel : nat) (config : gmap string Z) : M unit :=
  match fuel with
  | O => λ _, OutOfFuel
  | S fuel' =>
      choice <- input_prompt;;
      if String.eqb choice "0" || String.eqb choice EmptyString then ret tt
      else if String.eqb choice "6" then
        let config :=
          <["motivational_quotes"%string :=
              if quotes_on config =? 0 then 1 else 0]> config in
        save_config config;;;
        config_loop fuel' config
      else
        match py_int choice with
        | Ok n =>
            let idx := n - 1 in
            if (0 <=? idx) && (idx <? len CONFIG_KEYS) then
              match CONFIG_KEYS !! Z.to_nat idx with
              | Some key =>
                  val <- input_prompt;;
                  match py_int val with
                  | Ok v =>
                      let config := <[key := v]> config in
                      save_config config;;;
                      config_loop fuel' config
                  | Raise ValueError => config_loop fuel' config
                  | Raise e => lift (Raise e)
                  end
              | None => config_loop fuel' config
              end
            else config_loop fuel' config
        | Raise ValueError => config_loop fuel' config
        | Raise e => lift (Raise e)
        end
  end.

(** Every iteration reads a line and the end of input leaves the loop. *)
Definition screen_config : M unit :=
  config <- load_config;;
  (λ w, config_loop (S (length (stdin w))) config w).

(** A record as the Pomodoro cycle writes it: a focus session, or a break
    without a label. *)
Definition cycle_record (r : SessionRecord) : Prop :=
  type r = "focus"%string
  ∨ ((type r = "short"%string ∨ type r = "long"%string) ∧ label r = EmptyString).

(** From [w] to [w'] the session log has only grown, by records of the
    cycle, and the configuration file is the same. *)
Definition log_grows (w w' : World) : Prop :=
  ∃ recs, sessions_json w' = sessions_json w ++ recs
          ∧ config_json w' = config_json w
          ∧ Forall cycle_record recs.

(** ** ASCII charts *)

(** [a < b] on numbers. *)
Definition Qlt_bool (a b : Q) : bool := negb (Qle_bool b a).

(** [min(a, b)]: the first of the smallest. *)
Definition py_min (a b : Q) : Q := if Qlt_bool b a then b else a.

(** The colours of a heatmap block. *)
Inductive heat_band := DarkGray | DarkGreen | MediumGreen | BrightGreen | Green.

(** The [if]/[elif] chain of [render_weekly_heatmap]: colour and block of
    a day with [minutes] of focus. *)
Definition heat_block (minutes : Q) : heat_band * list cell :=
  let max_minutes := 120%Q in
  let intensity := py_min (minutes / max_minutes) 1 in
  let shaded (full : Z) :=
    let block := repeat_cell FullBlock full in
    block ++ repeat_cell LightShade (20 - len block) in
  if Qeq_bool minutes 0 then (DarkGray, repeat_cell LightShade 20)
  else if Qlt_bool intensity (1 # 4) then
    (DarkGreen, shaded (py_trunc (intensity * 20 / (1 # 4))))
  else if Qlt_bool intensity (1 # 2) then
    (MediumGreen, shaded (py_trunc (intensity * 20 / (1 # 2))))
  else if Qlt_bool intensity (3 # 4) then
    (BrightGreen, shaded (py_trunc (intensity * 20 / (3 # 4))))
  else (Green, repeat_cell FullBlock 20).

Definition day_names : list string :=
  ["Mon"; "Tue"; "Wed"; "Thu"; "Fri"; "Sat"; "Sun"]%string.

(** [date.weekday()] of a proleptic Gregorian ordinal: Monday is 0. *)
Definition weekday (ordinal : Z) : Z := (ordinal + 6) mod 7.

(** One line of the heatmap. *)
Record HeatRow := {
  hr_date : Z;
  hr_day_name : string;
  hr_block_color : heat_band;
  hr_block : list cell;
  hr_minutes : Q;
  hr_completed : Z;
  hr_today : bool
}.

Definition heat_row (daily : gmap Z DailyBucket) (today i : Z) : HeatRow :=
  let d := today - i in
  let minutes := bucket_minutes daily d in
  let colour_block := heat_block minutes in
  {| hr_date := d;
     hr_day_name := default EmptyString (day_names !! Z.to_nat (weekday d));
     hr_block_color := colour_block.1;
     hr_block := colour_block.2;
     hr_minutes := minutes;
     hr_completed := completed_on daily d;
     hr_today := i =? 0 |}.

(** [render_weekly_heatmap(daily)], with [date.today()] as the parameter
    [today]: the seven lines below the title, for [i] in
    [range(6, -1, -1)]. *)
Definition render_weekly_heatmap (daily : gmap Z DailyBucket) (today : Z)
  : list HeatRow :=
  heat_row daily today <$> [6; 5; 4; 3; 2; 1; 0].

#[global] Instance cell_eq_dec : EqDecision cell.
Proof. solve_decision. Defined.

(** The number of full cells of a block. *)
Definition full_cells (block : list cell) : Z :=
  len (filter (λ c, c = FullBlock) block).

(** [items[start:]], for a negative [start] counted from the end. *)
Definition py_slice_from {A} (start : Z) (l : list A) : list A :=
  if start <? 0 then drop (Z.to_nat (len l + start)) l
  else drop (Z.to_nat start) l.

(** [max] of a list that is not empty: the first of the largest. *)
Definition py_max (first : Q) (rest : list Q) : Q :=
  foldl (λ m v, if Qgt_bool v m then v else m) first rest.

Fixpoint rmapM {A B} (f : A → result B) (l : list A) : result (list B) :=
  match l with
  | [] => Ok []
  | x :: l' => rbind (f x) (λ y, rbind (rmapM f l') (λ ys, Ok (y :: ys)))
  end.

(** One line of a bar chart: label, bar and value. *)
Record BarRow (K : Type) := {
  bar_label : K;
  bar : list cell;
  bar_value : Q
}.
Arguments bar_label {K} _.
Arguments bar {K} _.
Arguments bar_value {K} _.

(** What [render_bar_chart] prints below the title. *)
Inductive Chart (K : Type) :=
| NoData
| Bars (rows : list (BarRow K)).
Arguments NoData {K}.
Arguments Bars {K} rows.

(** [render_bar_chart(data, title, labels, value_key, max_bars, width)];
    [value] reads the field [value_key] of a bucket. *)
Definition render_bar_chart {K V} `{Countable K} (data : gmap K V) (value : V → Q)
    (labels : list K) (max_bars width : Z) : result (Chart K) :=
  let val lbl := from_option value 0%Q (data !! lbl) in
  let items :=
    (λ lbl, (lbl, val lbl)) <$> filter (λ lbl, Qgt_bool (val lbl) 0 = true) labels in
  let items := py_slice_from (- max_bars) items in
  match items with
  | [] => Ok NoData
  | first :: rest =>
      let max_val := py_max first.2 rest.*2 in
      rbind (rmapM (λ item : K * Q,
                      rbind (if Qgt_bool max_val 0
                             then rbind (py_truediv item.2 max_val)
                                    (λ q, Ok (py_trunc (q * inject_Z width)))
                             else Ok 0)
                        (λ bar_len,
                           Ok {| bar_label := item.1;
                                 bar := repeat_cell FullBlock bar_len;
                                 bar_value := item.2 |}))
                   items)
            (λ rows, Ok (Bars rows))
  end.

Definition digit_char (d : Z) : ascii := ascii_of_nat (48 + Z.to_nat d).

(** [f"{h:02d}:00"] for an hour of the day. *)
Definition hour_label (h : Z) : string :=
  String (digit_char (h / 10)) (String (digit_char (h mod 10)) ":00").

(** [render_hourly_chart(hourly)].  The keys of [hourly] are the integers
    that [compute_stats] made of the hours, the labels are strings: a
    Python dictionary holds both, so the chart's dictionary has keys of
    either kind. *)
Definition render_hourly_chart (hourly : gmap Z HourlyBucket)
  : result (Chart (Z + string)) :=
  let labels := (λ h, inr (hour_label h)) <$> seqZ 0 24 in
  render_bar_chart (kmap inl hourly) h_minutes labels 24 24.

(** ** Screens and main loop *)

(** [date.today()]. *)
Definition date_today : M Z := λ w, Done (dt_date (datetime_now (clock w))) w.


(** [screen_stats()]: the figures, the heatmap and the hourly chart are
    computed for the output; then one line is read. *)
Definition screen_stats : M unit :=
  sessions <- load_sessions;;
  today <- date_today;;
  stats <- lift (compute_stats sessions today);;
  match stats with
  | EmptyStats => input_prompt;;; ret tt
  | Report r =>
      let heatmap := render_weekly_heatmap (daily r) today in
      hourly_chart <- lift (render_hourly_chart (hourly r));;
      input_prompt;;;
      ret tt
  end.





(** * Data layer: sample values *)

Example calendar_samples :
  ymd2ord 1 1 1 = 1
  ∧ ymd2ord 1970 1 1 = 719163
  ∧ ymd2ord 2024 1 1 = 738886
  ∧ ymd2ord 2024 3 1 = 738946
  ∧ datetime_now 1704099600
    = {| dt_date := ymd2ord 2024 1 1; dt_hour := 9; dt_minute := 0; dt_second := 0 |}.
Proof. by repeat split. Qed.

Example round2_samples :
  round2 (1 # 2) = 0.50%Q
  ∧ round2 (1 # 8) = 0.12%Q
  ∧ round2 (3 # 8) = 0.38%Q
  ∧ round2 (55 # 60) = 0.92%Q
  ∧ round2 (- (1 # 8)) = (-12 # 100)%Q.
Proof. by repeat split. Qed.

(** * Statistics engine: proofs *)

Section daily_buckets.

Lemma sum_actual_snoc l s :
  sum_actual (l ++ [s]) = (sum_actual l + actual_minutes s)%Q.
Proof. unfold sum_actual. by rewrite foldl_app. Qed.

Lemma build_daily_snoc l s :
  build_daily (l ++ [s]) = daily_step (build_daily l) s.
Proof. unfold build_daily. by rewrite foldl_app. Qed.

Lemma on_day_snoc_same d l s :
  dt_date (started_at s) = d → on_day d (l ++ [s]) = on_day d l ++ [s].
Proof.
  intros Hd. unfold on_day. rewrite filter_app. f_equal.
  rewrite filter_cons_True; [done | exact Hd].
Qed.

Lemma on_day_snoc_other d l s :
  dt_date (started_at s) ≠ d → on_day d (l ++ [s]) = on_day d l.
Proof.
  intros Hd. unfold on_day. rewrite filter_app.
  rewrite (filter_cons_False _ s []); [| exact Hd].
  by rewrite filter_nil, app_nil_r.
Qed.

Lemma len_snoc {A} (l : list A) x : len (l ++ [x]) = len l + 1.
Proof. unfold len. rewrite length_app. simpl. lia. Qed.

(** What the bucket of date [d] holds after the loop over the focus
    sessions [l]. *)
Lemma build_daily_lookup l d :
  match build_daily l !! d with
  | None => on_day d l = []
  | Some b =>
      on_day d l ≠ []
      ∧ d_sessions b = len (on_day d l)
      ∧ d_completed b = len (completed_of (on_day d l))
      ∧ (d_minutes b == sum_actual (on_day d l))%Q
  end.
Proof.
  induction l as [| s l IH] using rev_ind; [done |].
  rewrite build_daily_snoc. unfold daily_step.
  destruct (decide (dt_date (started_at s) = d)) as [<- | Hne].
  - rewrite lookup_insert_eq. rewrite on_day_snoc_same by done. simpl.
    unfold completed_of in *. rewrite filter_app, sum_actual_snoc, len_snoc.
    split; [intros [_ ?]%app_eq_nil; done |].
    destruct (build_daily l !! dt_date (started_at s)) as [b |]; simpl.
    + destruct IH as (_ & -> & -> & ->). split; [done |]. split; [| done].
      destruct (completed s) eqn:Hc.
      * rewrite filter_cons_True by done. by rewrite filter_nil, len_snoc.
      * rewrite filter_cons_False by (by rewrite Hc). by rewrite filter_nil, app_nil_r.
    + rewrite IH. split; [done |]. split; [| done].
      destruct (completed s) eqn:Hc.
      * by rewrite filter_cons_True, filter_nil by done.
      * by rewrite filter_cons_False, filter_nil by (by rewrite Hc).
  - by rewrite lookup_insert_ne, on_day_snoc_other.
Qed.

End daily_buckets.

Section best_streak.

Context (daily : gmap Z DailyBucket).

Lemma sorted_days_elem d : d ∈ sorted_days daily ↔ is_Some (daily !! d).
Proof.
  unfold sorted_days. rewrite merge_sort_Permutation, list_elem_of_fmap.
  split.
  - intros [[k b] [-> Hkb]]. apply elem_of_map_to_list in Hkb. by exists b.
  - intros [b Hb]. exists (d, b). split; [done |]. by apply elem_of_map_to_list.
Qed.

Lemma strictly_sorted (l : list Z) :
  StronglySorted Z.le l → NoDup l → StronglySorted Z.lt l.
Proof.
  induction 1 as [| x l Hl IH Hx]; intros Hnd; [constructor |].
  apply NoDup_cons in Hnd as [Hx' Hnd]. constructor; [by apply IH |].
  rewrite Forall_forall in Hx |- *. intros y Hy.
  assert (x ≠ y) by (intros ->; done). specialize (Hx y Hy). lia.
Qed.

Lemma sorted_days_strict : StronglySorted Z.lt (sorted_days daily).
Proof.
  apply strictly_sorted.
  - unfold sorted_days. apply (StronglySorted_merge_sort Z.le).
  - unfold sorted_days. rewrite merge_sort_Permutation.
    apply NoDup_fst_map_to_list.
Qed.

Lemma streak_day_in_days d : streak_day daily d → d ∈ sorted_days daily.
Proof.
  unfold streak_day, completed_on. intros H. apply sorted_days_elem.
  destruct (daily !! d); [by eexists | simpl in H; lia].
Qed.

(** In a strictly sorted list that holds every streak day, an active
    eve of [day] is the entry just before [day]. *)
Lemma eve_is_previous pre day todo :
  StronglySorted Z.lt (pre ++ day :: todo) →
  (∀ d, streak_day daily d → d ∈ pre ++ day :: todo) →
  streak_day daily (day - 1) →
  last pre = Some (day - 1).
Proof.
  intros Hs Hall Heve. apply Hall in Heve.
  apply StronglySorted_app in Hs as (Hlt & Hpre & Hpost).
  apply StronglySorted_cons in Hpost as [Hday _].
  rewrite Forall_forall in Hday.
  apply elem_of_app in Heve as [Hin | Hin].
  - destruct (last pre) as [p |] eqn:Hlast.
    + apply last_Some in Hlast as [pre' ->].
      assert (p < day) by (apply Hlt; [apply elem_of_app; right; left | left]).
      apply elem_of_app in Hin as [Hin | Hin].
      * apply StronglySorted_app in Hpre as (Hlt' & _ & _).
        assert (day - 1 < p) by (apply Hlt'; [done | left]). lia.
      * apply list_elem_of_singleton in Hin. by rewrite Hin.
    + apply last_None in Hlast. subst. by apply elem_of_nil in Hin.
  - apply elem_of_cons in Hin as [Hin | Hin]; [lia |].
    specialize (Hday _ Hin). lia.
Qed.

Lemma previous_entry (pre : list Z) p day todo :
  nth (length (pre ++ [p]) - 1) ((pre ++ [p]) ++ day :: todo) 0 = p.
Proof.
  rewrite length_app. simpl.
  replace (length pre + 1 - 1)%nat with (length pre) by lia.
  rewrite <- app_assoc. simpl.
  apply nth_lookup_Some. by rewrite list_lookup_middle.
Qed.

Lemma is_run_zero day : ¬ streak_day daily day → is_run daily day 0.
Proof.
  intros H. split; [done |]. split; [intros; lia |]. by rewrite Z.sub_0_r.
Qed.

Lemma is_run_one day :
  streak_day daily day → ¬ streak_day daily (day - 1) → is_run daily day 1.
Proof.
  intros H1 H2. split; [done |]. split; [| done].
  intros i Hi. by replace (day - i) with day by lia.
Qed.

Lemma is_run_succ day k :
  streak_day daily day → is_run daily (day - 1) k → is_run daily day (k + 1).
Proof.
  intros H1 (Hk & Hrun & Hend). split; [lia |]. split.
  - intros i Hi. destruct (decide (i = 0)) as [-> | ?].
    + by rewrite Z.sub_0_r.
    + replace (day - i) with (day - 1 - (i - 1)) by lia. apply Hrun. lia.
  - by replace (day - (k + 1)) with (day - 1 - k) by lia.
Qed.

(** A run that ends at [p] is at least as long as any stretch of streak
    days that ends at [p]. *)
Lemma is_run_longest p k n :
  is_run daily p k → (∀ i, 0 ≤ i < n → streak_day daily (p - i)) → n ≤ k.
Proof.
  intros (Hk & _ & Hend) Hn. destruct (decide (n ≤ k)); [done |].
  exfalso. apply Hend, Hn. lia.
Qed.

(** Extending the invariant by the next day once its streak is known. *)
Lemma streak_inv_snoc pre streak best day streak' :
  streak_inv daily pre streak best →
  is_run daily day streak' →
  streak_inv daily (pre ++ [day]) streak' (Z.max best streak').
Proof.
  intros (_ & Hb & Hall & Hmax) Hrun. unfold streak_inv.
  rewrite last_snoc. split; [done |]. split; [lia |]. split.
  - intros p [Hp | Hp%list_elem_of_singleton]%elem_of_app.
    + destruct (Hall p Hp) as (k & ? & ?). exists k. split; [done | lia].
    + subst. exists streak'. split; [done | lia].
  - destruct (Z.max_spec best streak') as [[? ->] | [? ->]].
    + right. exists day. split; [apply elem_of_app; right; left | done].
    + destruct Hmax as [-> | (p & ? & ?)].
      * left. done.
      * right. exists p. split; [apply elem_of_app; by left | done].
Qed.

Lemma best_streak_loop_inv todo : ∀ pre streak best,
  StronglySorted Z.lt (pre ++ todo) →
  (∀ d, streak_day daily d → d ∈ pre ++ todo) →
  streak_inv daily pre streak best →
  ∃ streak',
    streak_inv daily (pre ++ todo) streak'
      (best_streak_loop daily (pre ++ todo) (length pre) todo streak best).2.
Proof.
  induction todo as [| day todo IH]; intros pre streak best Hs Hall Hinv.
  { rewrite app_nil_r. by exists streak. }
  assert (pre ++ day :: todo = (pre ++ [day]) ++ todo) as Heq
    by (by rewrite <- app_assoc).
  assert (S (length pre) = length (pre ++ [day])) as Hlen
    by (rewrite length_app; simpl; lia).
  cbn [best_streak_loop]. rewrite Hlen, Heq.
  destruct (Z.ltb_spec 0 (completed_on daily day)) as [Hact | Hact].
  - match goal with |- context [Z.max best ?s] => set (streak' := s) end.
    assert (is_run daily day streak') as Hrun.
    { subst streak'. destruct Hinv as (Hlast & _).
      destruct (last pre) as [p |] eqn:Hp.
      - apply last_Some in Hp as [pre' ->].
        destruct (Nat.eqb_spec (length (pre' ++ [p])) 0) as [H0 | _].
        { rewrite length_app in H0. simpl in H0. lia. }
        rewrite <- Heq, previous_entry.
        destruct (Z.eqb_spec p (day - 1)) as [-> | Hne].
        + by apply is_run_succ.
        + apply is_run_one; [done |]. intros Heve.
          eapply eve_is_previous in Heve; [| done..].
          rewrite last_snoc in Heve. congruence.
      - apply last_None in Hp as ->. simpl.
        apply is_run_one; [done |]. intros Heve.
        by eapply (eve_is_previous []) in Heve. }
    rewrite Heq in Hs, Hall.
    apply IH; [done.. |]. by apply (streak_inv_snoc _ streak).
  - assert (is_run daily day 0) as Hrun
      by (apply is_run_zero; unfold streak_day; lia).
    rewrite Heq in Hs, Hall.
    apply IH; [done.. |].
    replace best with (Z.max best 0) at 1
      by (destruct Hinv as (_ & ? & _); lia).
    by apply (streak_inv_snoc _ streak).
Qed.

Lemma best_streak_of_inv :
  ∃ streak, streak_inv daily (sorted_days daily) streak (best_streak_of daily).
Proof.
  unfold best_streak_of.
  apply (best_streak_loop_inv (sorted_days daily) [] 0 0).
  - apply sorted_days_strict.
  - apply streak_day_in_days.
  - split; [done |]. split; [done |]. split; [| by left].
    intros p Hp. by apply elem_of_nil in Hp.
Qed.

(** The best streak is an upper bound of every stretch of streak days... *)
Lemma best_streak_upper d k :
  0 < k → (∀ i, 0 ≤ i < k → streak_day daily (d - i)) → k ≤ best_streak_of daily.
Proof.
  intros Hk Hrun. destruct best_streak_of_inv as (s & _ & _ & Hall & _).
  destruct (Hall d) as (k' & Hk' & Hle).
  { apply streak_day_in_days. rewrite <- (Z.sub_0_r d). apply Hrun. lia. }
  pose proof (is_run_longest _ _ _ Hk' Hrun). lia.
Qed.

(** ... and is the length of one of them. *)
Lemma best_streak_attained :
  best_streak_of daily = 0
  ∨ ∃ d, is_run daily d (best_streak_of daily).
Proof.
  destruct best_streak_of_inv as (s & _ & _ & _ & [? | (p & _ & ?)]);
    [by left | right; by exists p].
Qed.

Lemma best_streak_nonneg : 0 ≤ best_streak_of daily.
Proof. by destruct best_streak_of_inv as (s & _ & ? & _). Qed.

End best_streak.

Section streaks_and_log.

Lemma streak_day_bucket daily d :
  streak_day daily d ↔ ∃ b, daily !! d = Some b ∧ 0 < d_completed b.
Proof.
  unfold streak_day, completed_on. destruct (daily !! d) as [b |]; simpl.
  - split; [by exists b | by intros (? & [= <-] & ?)].
  - split; [lia | by intros (? & ? & _)].
Qed.

Lemma len_pos {A} (l : list A) : 0 < len l ↔ l ≠ [].
Proof. unfold len. destruct l; simpl; split; intros; try done; lia. Qed.

(** A bucket counts a completed session exactly when the log has a
    completed focus session on that date. *)
Lemma streak_day_active sessions d :
  streak_day (build_daily (focus_of sessions)) d ↔ active_day sessions d.
Proof.
  unfold streak_day, completed_on, active_day.
  pose proof (build_daily_lookup (focus_of sessions) d) as H.
  rewrite Exists_exists.
  destruct (build_daily (focus_of sessions) !! d) as [b |]; simpl.
  - destruct H as (_ & _ & -> & _). rewrite len_pos. split.
    + intros Hne. destruct (completed_of _) as [| s l] eqn:Hl; [done |].
      assert (s ∈ completed_of (on_day d (focus_of sessions))) as Hs
        by (rewrite Hl; left).
      unfold completed_of, on_day, focus_of in Hs.
      rewrite !list_elem_of_filter in Hs. exists s. tauto.
    + intros (s & Hs & Hf & Hc & Hd) Hnil.
      assert (s ∈ completed_of (on_day d (focus_of sessions))) as Hin.
      { unfold completed_of, on_day, focus_of. rewrite !list_elem_of_filter. tauto. }
      rewrite Hnil in Hin. by apply elem_of_nil in Hin.
  - split; [lia |]. intros (s & Hs & Hf & Hc & Hd).
    assert (s ∈ on_day d (focus_of sessions)) as Hin.
    { unfold on_day, focus_of. rewrite !list_elem_of_filter. tauto. }
    rewrite H in Hin. by apply elem_of_nil in Hin.
Qed.

Lemma current_streak_loop_spec daily n : ∀ d c,
  ∃ k, current_streak_loop n daily d c = c + k
       ∧ 0 ≤ k ≤ Z.of_nat n
       ∧ (∀ i, 0 ≤ i < k → streak_day daily (d - i))
       ∧ (k < Z.of_nat n → ¬ streak_day daily (d - k)).
Proof.
  induction n as [| n IH]; intros d c.
  { exists 0. simpl. repeat split; try lia. }
  cbn [current_streak_loop].
  destruct (decide (streak_day daily d)) as [Hd | Hd].
  - pose proof Hd as Hd'. apply streak_day_bucket in Hd' as (b & -> & Hb).
    destruct (Z.ltb_spec 0 (d_completed b)); [| lia].
    destruct (IH (d - 1) (c + 1)) as (k & -> & Hk & Hrun & Hend).
    exists (k + 1). split; [lia |]. split; [lia |]. split.
    + intros i Hi. destruct (decide (i = 0)) as [-> | ?].
      * by rewrite Z.sub_0_r.
      * replace (d - i) with (d - 1 - (i - 1)) by lia. apply Hrun. lia.
    + intros Hlt. replace (d - (k + 1)) with (d - 1 - k) by lia.
      apply Hend. lia.
  - exists 0. rewrite Z.sub_0_r, Z.add_0_r.
    split; [| split; [lia | split; [intros; lia | done]]].
    rewrite streak_day_bucket in Hd.
    destruct (daily !! d) as [b |]; [| done].
    destruct (Z.ltb_spec 0 (d_completed b)); [| done].
    exfalso. apply Hd. by exists b.
Qed.

Lemma current_streak_spec daily today :
  let c := current_streak_of daily today in
  0 ≤ c ≤ 365
  ∧ (∀ i, 0 ≤ i < c → streak_day daily (today - i))
  ∧ (c < 365 → ¬ streak_day daily (today - c)).
Proof.
  unfold current_streak_of.
  destruct (current_streak_loop_spec daily 365 today 0) as (k & -> & ? & ? & ?).
  simpl. rewrite Z.add_0_l in *. split; [lia |]. split; [done |]. intros; auto with lia.
Qed.

Lemma current_le_best daily today :
  current_streak_of daily today ≤ best_streak_of daily.
Proof.
  destruct (current_streak_spec daily today) as (Hc & Hrun & _).
  destruct (decide (current_streak_of daily today = 0)) as [-> | ?].
  - apply best_streak_nonneg.
  - apply (best_streak_upper daily today); [lia | done].
Qed.

End streaks_and_log.

Section weekly_window.

Lemma sum_actual_from (l : list SessionRecord) : ∀ x : Q,
  (foldl (λ acc s, acc + actual_minutes s) x l == x + sum_actual l)%Q.
Proof.
  unfold sum_actual. induction l as [| s l IH]; intros x; simpl.
  - ring.
  - rewrite (IH (x + actual_minutes s)%Q), (IH (0 + actual_minutes s)%Q). ring.
Qed.

Lemma sum_actual_cons s l :
  (sum_actual (s :: l) == actual_minutes s + sum_actual l)%Q.
Proof.
  unfold sum_actual at 1. simpl. rewrite sum_actual_from. ring.
Qed.

Lemma len_cons {A} (x : A) l : len (x :: l) = 1 + len l.
Proof. unfold len. simpl length. lia. Qed.

Lemma bucket_minutes_log focus d :
  (bucket_minutes (build_daily focus) d == sum_actual (on_day d focus))%Q.
Proof.
  unfold bucket_minutes. pose proof (build_daily_lookup focus d) as H.
  destruct (build_daily focus !! d) as [b |]; simpl.
  - by destruct H as (_ & _ & _ & ->).
  - by rewrite H.
Qed.

Lemma bucket_sessions_log focus d :
  bucket_sessions (build_daily focus) d = len (on_day d focus).
Proof.
  unfold bucket_sessions. pose proof (build_daily_lookup focus d) as H.
  destruct (build_daily focus !! d) as [b |]; simpl.
  - by destruct H as (_ & -> & _).
  - by rewrite H.
Qed.

(** The loop adds up the buckets of the dates [today - i]. *)
Lemma week_loop_sums daily today (l : list Z) : ∀ acc,
  let r := foldl (week_step daily today) acc l in
  (r.1 == acc.1 + Qsum (bucket_minutes daily <$> ((λ i, today - i)%Z <$> l)))%Q
  ∧ r.2 = acc.2 + Zsum (bucket_sessions daily <$> ((λ i, today - i) <$> l)).
Proof.
  induction l as [| i l IH]; intros acc; simpl.
  - split; [ring | lia].
  - destruct (IH (week_step daily today acc i)) as [IH1 IH2].
    rewrite IH1, IH2. unfold week_step, bucket_minutes, bucket_sessions.
    destruct (daily !! (today - i)) as [b |]; simpl; unfold fmap; split;
      solve [ring | lia].
Qed.

Lemma week_totals_buckets daily today :
  ((week_totals daily today).1 == Qsum (bucket_minutes daily <$> week_dates today))%Q
  ∧ (week_totals daily today).2 = Zsum (bucket_sessions daily <$> week_dates today).
Proof.
  unfold week_totals, week_dates.
  destruct (week_loop_sums daily today (seqZ 0 7) (0%Q, 0)) as [H1 H2].
  split; [rewrite H1; simpl; ring | rewrite H2; simpl; lia].
Qed.

Lemma elem_of_week_dates today d :
  d ∈ week_dates today ↔ today - 6 ≤ d ≤ today.
Proof.
  unfold week_dates. rewrite list_elem_of_fmap. setoid_rewrite elem_of_seqZ.
  split; [intros (i & -> & ?); lia |].
  intros ?. exists (today - d). lia.
Qed.

Lemma Qsum_cons x l : Qsum (x :: l) = (x + Qsum l)%Q.
Proof. done. Qed.

Lemma Zsum_cons x l : Zsum (x :: l) = x + Zsum l.
Proof. done. Qed.

Lemma on_day_cons d s l :
  on_day d (s :: l)
  = if decide (dt_date (started_at s) = d) then s :: on_day d l else on_day d l.
Proof. unfold on_day. by rewrite filter_cons. Qed.

(** Adding a session to the log changes the sums over the dates [ds] by
    that session when its date is one of [ds], and not at all otherwise. *)
Lemma sums_over_dates_cons (ds : list Z) s l :
  NoDup ds →
  let hit := bool_decide (dt_date (started_at s) ∈ ds) in
  (Qsum ((λ d, sum_actual (on_day d (s :: l))) <$> ds)
   == (if hit then actual_minutes s else 0)
      + Qsum ((λ d, sum_actual (on_day d l)) <$> ds))%Q
  ∧ Zsum ((λ d, len (on_day d (s :: l))) <$> ds)
    = (if hit then 1 else 0) + Zsum ((λ d, len (on_day d l)) <$> ds).
Proof.
  induction ds as [| d ds IH]; intros Hnd hit; subst hit.
  { rewrite bool_decide_eq_false_2 by apply not_elem_of_nil.
    split; [rewrite !fmap_nil; simpl; ring | done]. }
  apply NoDup_cons in Hnd as [Hd Hnd]. destruct (IH Hnd) as [IH1 IH2].
  rewrite !fmap_cons, !Qsum_cons, !Zsum_cons, IH1, IH2, on_day_cons.
  destruct (decide (dt_date (started_at s) = d)) as [Heq | Hne].
  - rewrite sum_actual_cons, len_cons.
    rewrite (bool_decide_eq_true_2 (_ ∈ d :: ds)) by (rewrite Heq; left).
    rewrite (bool_decide_eq_false_2 (_ ∈ ds)) by (by rewrite Heq).
    split; [ring | lia].
  - destruct (decide (dt_date (started_at s) ∈ ds)) as [Hel | Hel].
    + rewrite (bool_decide_eq_true_2 (_ ∈ d :: ds)) by (by right).
      rewrite (bool_decide_eq_true_2 (_ ∈ ds)) by done.
      split; [ring | lia].
    + rewrite (bool_decide_eq_false_2 (_ ∈ d :: ds))
        by (by apply not_elem_of_cons).
      rewrite (bool_decide_eq_false_2 (_ ∈ ds)) by done.
      split; [ring | lia].
Qed.

Lemma sums_over_dates (ds : list Z) (l : list SessionRecord) :
  NoDup ds →
  (Qsum ((λ d, sum_actual (on_day d l)) <$> ds)
   == sum_actual (filter (λ s, dt_date (started_at s) ∈ ds) l))%Q
  ∧ Zsum ((λ d, len (on_day d l)) <$> ds)
    = len (filter (λ s, dt_date (started_at s) ∈ ds) l).
Proof.
  intros Hnd. induction l as [| s l [IH1 IH2]].
  { rewrite filter_nil. clear Hnd. induction ds as [| d ds [IHd1 IHd2]]; [done |].
    rewrite !fmap_cons, Qsum_cons, Zsum_cons, IHd1, IHd2.
    split; [unfold sum_actual; simpl; ring | done]. }
  destruct (sums_over_dates_cons ds s l Hnd) as [-> ->]. rewrite IH1, IH2.
  rewrite filter_cons. destruct (decide (dt_date (started_at s) ∈ ds)).
  - rewrite bool_decide_eq_true_2 by done.
    rewrite sum_actual_cons, len_cons. split; [reflexivity | done].
  - rewrite bool_decide_eq_false_2 by done. split; [ring | lia].
Qed.

Lemma NoDup_week_dates today : NoDup (week_dates today).
Proof.
  unfold week_dates. apply NoDup_fmap_2_strong; [| apply NoDup_seqZ].
  intros; lia.
Qed.

Lemma bucket_sums_log focus (ds : list Z) :
  (Qsum (bucket_minutes (build_daily focus) <$> ds)
   == Qsum ((λ d, sum_actual (on_day d focus)) <$> ds))%Q
  ∧ Zsum (bucket_sessions (build_daily focus) <$> ds)
    = Zsum ((λ d, len (on_day d focus)) <$> ds).
Proof.
  induction ds as [| d ds [IH1 IH2]]; [done |].
  rewrite !fmap_cons, !Qsum_cons, !Zsum_cons, IH1, IH2.
  by rewrite bucket_minutes_log, bucket_sessions_log.
Qed.

(** The weekly totals are those of the focus sessions whose calendar date
    is one of the seven dates ending today. *)
Lemma week_totals_log focus today :
  ((week_totals (build_daily focus) today).1
   == sum_actual (filter (in_week today) focus))%Q
  ∧ (week_totals (build_daily focus) today).2 = len (filter (in_week today) focus).
Proof.
  destruct (week_totals_buckets (build_daily focus) today) as [H1 H2].
  destruct (sums_over_dates (week_dates today) focus (NoDup_week_dates today))
    as [S1 S2].
  assert (filter (in_week today) focus
          = filter (λ s, dt_date (started_at s) ∈ week_dates today) focus) as ->.
  { apply list_filter_iff. intros s. by rewrite elem_of_week_dates. }
  destruct (bucket_sums_log focus (week_dates today)) as [B1 B2].
  by rewrite <- S1, <- S2, H1, H2, B1, B2.
Qed.

End weekly_window.

Section report.

Lemma completion_rate_of_ok focus done_ :
  ∃ rate, completion_rate_of focus done_ = Ok rate
          ∧ (focus = [] → rate = 0%Q)
          ∧ (focus ≠ [] →
             rate = (inject_Z (len done_) / inject_Z (len focus) * 100)%Q).
Proof.
  destruct focus as [| s focus].
  { exists 0%Q. by repeat split. }
  unfold completion_rate_of, py_truediv.
  destruct (Qeq_bool (inject_Z (len (s :: focus))) 0) eqn:E.
  { apply Qeq_bool_iff in E. unfold Qeq, len in E. simpl in E. lia. }
  simpl. eexists. split; [done |]. split; [done |]. done.
Qed.

(** On a log that is not empty [compute_stats] returns a report; its
    fields are the values of the loops of the function. *)
Lemma compute_stats_returns sessions today :
  sessions ≠ [] →
  ∃ r, compute_stats sessions today = Ok (Report r)
       ∧ daily r = build_daily (focus_of sessions)
       ∧ hourly r = build_hourly (focus_of sessions)
       ∧ current_streak r = current_streak_of (daily r) today
       ∧ best_streak r = best_streak_of (daily r)
       ∧ week_minutes r = (week_totals (daily r) today).1
       ∧ week_sessions r = (week_totals (daily r) today).2
       ∧ completion_rate_of (focus_of sessions) (completed_of (focus_of sessions))
         = Ok (completion_rate r).
Proof.
  intros Hne. destruct sessions as [| first rest]; [done |].
  unfold compute_stats.
  destruct (completion_rate_of_ok (focus_of (first :: rest))
              (completed_of (focus_of (first :: rest)))) as (rate & -> & _).
  simpl. eexists. split; [done |]. by repeat split.
Qed.

Lemma compute_stats_empty today : compute_stats [] today = Ok EmptyStats.
Proof. done. Qed.

End report.

(** C4. On the empty log [compute_stats] returns the empty result and no
    report; on any other log it returns a report whose completion rate is
    [completed / total * 100] over the focus sessions, and [0] when the log
    has no focus session.  No input makes the division raise
    [ZeroDivisionError]. *)
Theorem compute_stats_completion_rate sessions today :
  match compute_stats sessions today with
  | Ok EmptyStats => sessions = []
  | Ok (Report r) =>
      sessions ≠ []
      ∧ completion_rate r
        = (if decide (filter is_focus sessions = []) then 0
           else inject_Z (len (filter (λ s, completed s = true ∧ is_focus s) sessions))
                / inject_Z (len (filter is_focus sessions)) * 100)%Q
  | Raise _ => False
  end.
Proof.
  destruct sessions as [| first rest]; [done |].
  destruct (compute_stats_returns (first :: rest) today) as (r & -> & Hr); [done |].
  split; [done |].
  destruct Hr as (_ & _ & _ & _ & _ & _ & Hrate).
  destruct (completion_rate_of_ok (focus_of (first :: rest))
              (completed_of (focus_of (first :: rest)))) as (rate & Hrate' & H0 & H1).
  rewrite Hrate in Hrate'. injection Hrate' as ->.
  unfold completed_of, focus_of in *. rewrite list_filter_filter in H1.
  destruct (decide (filter is_focus (first :: rest) = [])); auto.
Qed.

(** C5. The current streak counts the consecutive calendar days, walking
    backwards from today, whose bucket has [completed > 0]: it stops at the
    first date without a bucket or with no completed session, never visits
    more than 365 dates, and is [0] when the log has no completed focus
    session today.  (The empty log has no report, hence no streak.) *)
Theorem current_streak_walk sessions today :
  sessions ≠ [] →
  ∃ r, compute_stats sessions today = Ok (Report r)
       ∧ 0 ≤ current_streak r ≤ 365
       ∧ (∀ i, 0 ≤ i < current_streak r →
            ∃ b, daily r !! (today - i) = Some b ∧ 0 < d_completed b)
       ∧ (current_streak r < 365 →
            match daily r !! (today - current_streak r) with
            | None => True
            | Some b => d_completed b ≤ 0
            end)
       ∧ (∀ d, (∃ b, daily r !! d = Some b ∧ 0 < d_completed b)
               ↔ active_day sessions d)
       ∧ (¬ active_day sessions today → current_streak r = 0).
Proof.
  intros Hne.
  destruct (compute_stats_returns sessions today Hne)
    as (r & Hr & Hd & _ & Hc & _).
  exists r. split; [done |].
  destruct (current_streak_spec (daily r) today) as (Hb & Hrun & Hend).
  rewrite <- Hc in Hb, Hrun, Hend.
  assert (∀ d, (∃ b, daily r !! d = Some b ∧ 0 < d_completed b)
               ↔ active_day sessions d) as Hact.
  { intros d. by rewrite <- streak_day_bucket, Hd, streak_day_active. }
  split; [done |]. split; [| split; [| split; [done |]]].
  - intros i Hi. apply streak_day_bucket, Hrun, Hi.
  - intros Hlt. specialize (Hend Hlt). rewrite streak_day_bucket in Hend.
    destruct (daily r !! (today - current_streak r)) as [b |]; [| done].
    destruct (decide (d_completed b ≤ 0)); [done |].
    exfalso. apply Hend. exists b. split; [done | lia].
  - intros Hna. destruct (decide (current_streak r = 0)); [done |].
    exfalso. apply Hna, Hact, streak_day_bucket.
    rewrite <- (Z.sub_0_r today). apply Hrun. lia.
Qed.

(** C9. On every log that is not empty, the best streak is at least the
    current streak. *)
Theorem best_streak_ge_current sessions today :
  sessions ≠ [] →
  ∃ r, compute_stats sessions today = Ok (Report r)
       ∧ current_streak r ≤ best_streak r.
Proof.
  intros Hne.
  destruct (compute_stats_returns sessions today Hne)
    as (r & Hr & _ & _ & Hc & Hb & _).
  exists r. split; [done |]. rewrite Hc, Hb. apply current_le_best.
Qed.

Lemma elem_of_active_dates sessions d :
  d ∈ active_dates sessions ↔ active_day sessions d.
Proof.
  unfold active_dates, active_day, completed_of, focus_of.
  rewrite elem_of_list_to_set, list_elem_of_fmap, Exists_exists.
  setoid_rewrite list_elem_of_filter. split.
  - intros (s & Hd & ? & [? ?]%list_elem_of_filter). subst d. by exists s.
  - intros (s & ? & ? & ? & Hd). subst d. exists s.
    split; [done |]. split; [done |]. by apply list_elem_of_filter.
Qed.

(** C6. The best streak is the length of the longest run of consecutive
    calendar days that each contain a completed focus session: no such run
    is longer, and one has that length.  With completed sessions on five
    consecutive days, a day without, and two more days, it is 5.  With
    completed sessions on 2024-01-01, 01-02 and 01-03 only and today
    2024-01-05, the current streak is 0 and the best streak at least 3. *)
Theorem best_streak_longest_run sessions today :
  sessions ≠ [] →
  ∃ r, compute_stats sessions today = Ok (Report r)
       ∧ (∀ d k, 0 < k → active_run sessions d k → k ≤ best_streak r)
       ∧ (best_streak r = 0 ∨ ∃ d, active_run sessions d (best_streak r))
       ∧ 0 ≤ best_streak r
       ∧ (∀ d0, active_dates sessions = list_to_set (seqZ d0 5 ++ seqZ (d0 + 6) 2) →
            best_streak r = 5)
       ∧ (active_dates sessions
          = {[ymd2ord 2024 1 1; ymd2ord 2024 1 2; ymd2ord 2024 1 3]} →
          today = ymd2ord 2024 1 5 →
          current_streak r = 0 ∧ 3 ≤ best_streak r).
Proof.
  intros Hne.
  destruct (compute_stats_returns sessions today Hne)
    as (r & Hr & Hd & _ & Hc & Hb & _).
  exists r. split; [done |].
  assert (∀ d, streak_day (daily r) d ↔ active_day sessions d) as Hact
    by (intros d; by rewrite Hd, streak_day_active).
  assert (∀ d k, 0 < k → active_run sessions d k → k ≤ best_streak r) as Hup.
  { intros d k Hk Hrun. rewrite Hb. apply (best_streak_upper _ d); [done |].
    intros i Hi. apply Hact, Hrun, Hi. }
  assert (best_streak r = 0 ∨ ∃ d, active_run sessions d (best_streak r)) as Hatt.
  { rewrite Hb. destruct (best_streak_attained (daily r)) as [? | (d & _ & Hrun & _)];
      [by left | right]. exists d. intros i Hi. apply Hact, Hrun, Hi. }
  split; [done |]. split; [done |].
  split; [rewrite Hb; apply best_streak_nonneg |]. split.
  - intros d0 Hset.
    assert (∀ d, active_day sessions d ↔ d0 ≤ d ≤ d0 + 4 ∨ d0 + 6 ≤ d ≤ d0 + 7)
      as Hdays.
    { intros d. rewrite <- elem_of_active_dates, Hset, elem_of_list_to_set,
        elem_of_app, !elem_of_seqZ. lia. }
    assert (5 ≤ best_streak r) as Hge.
    { apply (Hup (d0 + 4)); [done |]. intros i Hi. apply Hdays. lia. }
    destruct Hatt as [H0 | (d & Hrun)]; [lia |].
    destruct (decide (best_streak r ≤ 5)); [lia |]. exfalso.
    pose proof (proj1 (Hdays _) (Hrun 0 ltac:(lia))).
    pose proof (proj1 (Hdays _) (Hrun 1 ltac:(lia))).
    pose proof (proj1 (Hdays _) (Hrun 2 ltac:(lia))).
    pose proof (proj1 (Hdays _) (Hrun 3 ltac:(lia))).
    pose proof (proj1 (Hdays _) (Hrun 4 ltac:(lia))).
    pose proof (proj1 (Hdays _) (Hrun 5 ltac:(lia))).
    lia.
  - change (ymd2ord 2024 1 1) with 738886. change (ymd2ord 2024 1 2) with 738887.
    change (ymd2ord 2024 1 3) with 738888. change (ymd2ord 2024 1 5) with 738890.
    intros Hset ->.
    assert (∀ d, active_day sessions d ↔ 738886 ≤ d ≤ 738888) as Hdays.
    { intros d. rewrite <- elem_of_active_dates, Hset.
      rewrite !elem_of_union, !elem_of_singleton. lia. }
    split.
    + destruct (current_streak_spec (daily r) 738890) as (Hcb & Hrun & _).
      rewrite <- Hc in Hcb, Hrun.
      destruct (decide (current_streak r = 0)); [done |]. exfalso.
      assert (streak_day (daily r) (738890 - 0)) as Ht by (apply Hrun; lia).
      apply Hact, Hdays in Ht. lia.
    + apply (Hup 738888); [done |]. intros i Hi. apply Hdays. lia.
Qed.

Lemma best_streak_longest_run_witness :
  (∃ r, compute_stats january_log (ymd2ord 2024 1 5) = Ok (Report r)
        ∧ current_streak r = 0 ∧ 3 ≤ best_streak r)
  ∧ (∃ r, compute_stats gap_log 107 = Ok (Report r) ∧ best_streak r = 5).
Proof.
  split.
  - destruct (best_streak_longest_run january_log (ymd2ord 2024 1 5))
      as (r & Hr & _ & _ & _ & _ & Hjan); [done |].
    exists r. split; [exact Hr |]. apply Hjan; [vm_compute; reflexivity | reflexivity].
  - destruct (best_streak_longest_run gap_log 107)
      as (r & Hr & _ & _ & _ & Hgap & _); [done |].
    exists r. split; [exact Hr |]. apply (Hgap 100). vm_compute; reflexivity.
Defined.

(** C7. The weekly totals are the sums of the [minutes] and [sessions]
    fields of the seven daily buckets of today and the six preceding
    calendar dates; that is, of the focus sessions whose calendar date is
    one of these seven, whatever their time of day. *)
Theorem weekly_totals_by_calendar_date sessions today :
  sessions ≠ [] →
  ∃ r, compute_stats sessions today = Ok (Report r)
       ∧ (week_minutes r == Qsum (bucket_minutes (daily r) <$> week_dates today))%Q
       ∧ week_sessions r = Zsum (bucket_sessions (daily r) <$> week_dates today)
       ∧ (∀ d, d ∈ week_dates today ↔ today - 6 ≤ d ≤ today)
       ∧ NoDup (week_dates today)
       ∧ (week_minutes r
          == sum_actual (filter (in_week today) (filter is_focus sessions)))%Q
       ∧ week_sessions r
         = len (filter (in_week today) (filter is_focus sessions)).
Proof.
  intros Hne.
  destruct (compute_stats_returns sessions today Hne)
    as (r & Hr & Hd & _ & _ & _ & Hwm & Hws & _).
  exists r. split; [done |]. rewrite Hwm, Hws.
  destruct (week_totals_buckets (daily r) today) as [B1 B2].
  split; [done |]. split; [done |].
  split; [apply elem_of_week_dates |]. split; [apply NoDup_week_dates |].
  rewrite Hd. apply week_totals_log.
Qed.

Lemma weekly_totals_by_calendar_date_witness :
  ∃ r, compute_stats january_log (ymd2ord 2024 1 8) = Ok (Report r)
       ∧ (week_minutes r == 50)%Q ∧ week_sessions r = 2.
Proof.
  destruct (weekly_totals_by_calendar_date january_log (ymd2ord 2024 1 8))
    as (r & Hr & _ & _ & _ & _ & Hm & Hs); [done |].
  exists r. split; [exact Hr |]. split; [rewrite Hm | rewrite Hs]; reflexivity.
Defined.

Lemma focus_of_none sessions :
  Forall (λ s, type s ≠ "focus"%string) sessions → focus_of sessions = [].
Proof.
  unfold focus_of. induction 1 as [| s l Hs _ IH]; [done |].
  by rewrite filter_cons_False.
Qed.

(** C10. A log that is not empty and has no record of type "focus" gets a
    full report, not the empty result: completion rate 0, current and best
    streak 0, no daily and no hourly bucket, weekly sums 0.  The empty
    result is returned for the empty log only. *)
Theorem log_without_focus_sessions sessions today :
  sessions ≠ [] →
  Forall (λ s, type s ≠ "focus"%string) sessions →
  (∃ r, compute_stats sessions today = Ok (Report r)
        ∧ completion_rate r = 0%Q
        ∧ current_streak r = 0
        ∧ best_streak r = 0
        ∧ daily r = ∅
        ∧ hourly r = ∅
        ∧ week_minutes r = 0%Q
        ∧ week_sessions r = 0
        ∧ best_day r = None
        ∧ total_focus_sessions r = 0
        ∧ total_focus_minutes r = 0%Q)
  ∧ (∀ log day, compute_stats log day = Ok EmptyStats ↔ log = []).
Proof.
  intros Hne Hnf. split.
  - destruct sessions as [| first rest]; [done |].
    unfold compute_stats. rewrite (focus_of_none _ Hnf).
    eexists. split; [reflexivity |]. simpl.
    repeat split.
  - intros log day. split; [| by intros ->].
    destruct log as [| first rest]; [done |]. intros H.
    destruct (compute_stats_returns (first :: rest) day) as (r & Hr & _); [done |].
    congruence.
Qed.

Lemma log_without_focus_sessions_witness :
  ∃ r, compute_stats breaks_log 100 = Ok (Report r)
       ∧ completion_rate r = 0%Q ∧ current_streak r = 0 ∧ best_streak r = 0
       ∧ daily r = ∅ ∧ hourly r = ∅.
Proof.
  destruct (log_without_focus_sessions breaks_log 100)
    as [(r & Hr & H1 & H2 & H3 & H4 & H5 & _) _].
  - done.
  - unfold breaks_log. repeat constructor; done.
  - exists r. by repeat split.
Defined.

Lemma current_streak_walk_witness :
  ∃ r, compute_stats january_log (ymd2ord 2024 1 3) = Ok (Report r)
       ∧ 0 ≤ current_streak r ≤ 365.
Proof.
  destruct (current_streak_walk january_log (ymd2ord 2024 1 3))
    as (r & Hr & Hb & _); [done |].
  exists r. by split.
Defined.

Lemma best_streak_ge_current_witness :
  ∃ r, compute_stats january_log (ymd2ord 2024 1 3) = Ok (Report r)
       ∧ current_streak r ≤ best_streak r.
Proof. apply (best_streak_ge_current january_log (ymd2ord 2024 1 3)). done. Defined.

Example january_streaks :
  ∃ r, compute_stats january_log (ymd2ord 2024 1 3) = Ok (Report r)
       ∧ current_streak r = 3 ∧ best_streak r = 3
       ∧ (completion_rate r == 100)%Q
       ∧ total_focus_sessions r = 3
       ∧ first_session_date r = Some 738886.
Proof. eexists. split; [vm_compute; reflexivity |]. by repeat split. Qed.

Example gap_streaks :
  ∃ r, compute_stats gap_log 107 = Ok (Report r)
       ∧ current_streak r = 2 ∧ best_streak r = 5
       ∧ (completion_rate r == 175 # 2)%Q
       ∧ (week_minutes r == 325 # 2)%Q ∧ week_sessions r = 7.
Proof. eexists. split; [vm_compute; reflexivity |]. by repeat split. Qed.

(** * Timer engine: proofs *)

Section countdown.

Lemma Qceiling_pred (x : Q) n :
  Qceiling x ≤ n + 1 → Qceiling (x - 1) ≤ n.
Proof.
  intros H.
  assert (x - 1 <= inject_Z n)%Q as Hle.
  { pose proof (Qle_ceiling x) as Hx.
    assert (inject_Z (Qceiling x) <= inject_Z (n + 1))%Q as Hn
      by (by rewrite <- Zle_Qle).
    rewrite inject_Z_plus in Hn. change (inject_Z 1) with 1%Q in Hn. lra. }
  apply Qceiling_resp_le in Hle. by rewrite Qceiling_Z in Hle.
Qed.

(** With the whole seconds left as bound, the free countdown leaves the
    loop through its [break]: the remaining time is used up. *)
Lemma free_countdown_expired n : ∀ total_seconds start_time t,
  Qceiling (total_seconds - (t - start_time)) ≤ Z.of_nat n →
  (total_seconds - (free_countdown n total_seconds start_time t - start_time) <= 0)%Q.
Proof.
  induction n as [| n IH]; intros total start t Hn; cbn [free_countdown].
  - eapply Qle_trans; [apply Qle_ceiling |].
    change 0%Q with (inject_Z 0). rewrite <- Zle_Qle. lia.
  - destruct (Qle_bool (total - (t - start)) 0) eqn:E.
    + by apply Qle_bool_iff in E.
    + apply IH.
      rewrite (Qceiling_comp _ (total - (t - start) - 1)) by ring.
      apply Qceiling_pred. lia.
Qed.

(** How the loop is left: either the time is used up and no SIGINT was
    taken, or a SIGINT was taken from the schedule. *)
Lemma countdown_loop_exit total_seconds start_time tk : ∀ t,
  match countdown_loop total_seconds start_time tk t with
  | (false, t', tk') =>
      (total_seconds - (t' - start_time) <= 0)%Q
      ∧ (length tk' ≤ length tk)%nat
  | (true, t', tk') => (length tk' < length tk)%nat
  end.
Proof.
  induction tk as [| ev tk IH]; intros t; cbn [countdown_loop].
  - split; [| done]. apply free_countdown_expired.
    lia.
  - destruct (Qle_bool (total_seconds - (t - start_time)) 0) eqn:E.
    + split; [by apply Qle_bool_iff in E | done].
    + destruct ev as [d | d].
      * specialize (IH (t + d)%Q).
        destruct (countdown_loop _ _ tk _) as [[[] t'] tk']; simpl in *;
          [lia | destruct IH; split; [done | lia]].
      * simpl. lia.
Qed.

End countdown.

Ltac run_monad :=
  unfold bind, time_time, countdown, log_session, input_prompt, ret, observe,
    lift, load_config.

Section timer.

Lemma run_timer_simple_result session_type minutes lbl w :
  ∀ interrupted t tk,
  countdown_loop (minutes * 60) (clock w) (ticks w) (clock w) = (interrupted, t, tk) →
  ∃ w', run_timer_simple session_type minutes lbl w = Done (negb interrupted) w'
        ∧ timer_frame w w'
            [{| type := token session_type;
                planned_minutes := minutes;
                actual_minutes := round2 ((t - clock w) / 60);
                completed := negb interrupted;
                label := lbl;
                started_at := datetime_now t |}]
        ∧ ticks w' = tk.
Proof.
  intros interrupted t tk Hloop.
  pose proof (countdown_loop_exit (minutes * 60) (clock w) (ticks w) (clock w)) as Hexit.
  unfold run_timer_simple. run_monad. rewrite Hloop in *. cbn.
  destruct interrupted; cbn; destruct (stdin w) as [| line rest] eqn:Hin;
    cbn; eexists; (split; [reflexivity |]); unfold timer_frame; cbn;
    rewrite ?Hin; cbn; repeat split; try done; try lia.
Qed.

Lemma timer_frame_trans w1 w2 w3 recs :
  (length (ticks w2) ≤ length (ticks w1))%nat →
  (length (stdin w2) ≤ length (stdin w1))%nat →
  sessions_json w2 = sessions_json w1 →
  config_json w2 = config_json w1 →
  cycle_trace w2 = cycle_trace w1 →
  timer_frame w2 w3 recs → timer_frame w1 w3 recs.
Proof.
  intros ? ? Hs Hc Ht (? & ? & ? & ? & ?). unfold timer_frame.
  rewrite <- Hs, <- Hc, <- Ht. repeat split; try done; lia.
Qed.

Lemma input_prompt_frame w :
  ∃ choice w', input_prompt w = Done choice w'
               ∧ ticks w' = ticks w ∧ clock w' = clock w
               ∧ sessions_json w' = sessions_json w
               ∧ config_json w' = config_json w
               ∧ cycle_trace w' = cycle_trace w
               ∧ stdin w' = tail (stdin w)
               ∧ choice = strip (hd EmptyString (stdin w)).
Proof.
  unfold input_prompt. destruct (stdin w) as [| line rest] eqn:Hin; eexists _, _;
    (split; [reflexivity |]); cbn; by repeat split.
Qed.

Lemma length_tail_le {A} (l : list A) : (length (tail l) ≤ length l)%nat.
Proof. destruct l; simpl; lia. Qed.

(** With more fuel than scheduled events [run_timer_rec] returns.  It
    appends at most one record, of the type and label of the call and
    with [completed] equal to the returned value; it appends one whenever
    it returns [False], and whenever no menu was answered with "1"
    (resume). *)
Lemma run_timer_rec_returns fuel : ∀ session_type minutes lbl w,
  (length (ticks w) < fuel)%nat →
  ∃ b w' recs,
    run_timer_rec fuel session_type minutes lbl w = Done b w'
    ∧ timer_frame w w' recs
    ∧ (length recs ≤ 1)%nat
    ∧ (b = false → length recs = 1%nat)
    ∧ Forall (λ r, type r = token session_type ∧ label r = lbl ∧ completed r = b) recs
    ∧ (recs = [] → ∃ line, line ∈ stdin w ∧ strip line = "1"%string).
Proof.
  induction fuel as [| fuel IH]; intros session_type minutes lbl w Hfuel; [lia |].
  pose proof (countdown_loop_exit (minutes * 60) (clock w) (ticks w) (clock w)) as Hexit.
  cbn [run_timer_rec]. unfold bind, time_time, countdown, ret.
  destruct (countdown_loop _ _ _ _) as [[interrupted t] tk] eqn:Hloop.
  change (clock (set_clock_ticks t tk w)) with t.
  destruct interrupted; cbn [negb].
  - (* interrupted: the menu *)
    destruct (input_prompt_frame (set_clock_ticks t tk w))
      as (choice & w2 & -> & Htk & Hclk & Hs2 & Hc2 & Ht2 & Hin2 & Hchoice).
    cbn in Htk, Hclk, Hs2, Hc2, Ht2, Hin2, Hchoice.
    assert (length (ticks w2) < length (ticks w))%nat by (rewrite Htk; lia).
    assert (length (stdin w2) ≤ length (stdin w))%nat
      by (rewrite Hin2; apply length_tail_le).
    destruct (String.eqb_spec choice "1") as [Hone | _].
    + destruct (Qgt_bool _ _).
      * destruct (countdown_loop
                    ((minutes * 60 - (t - clock w) / 60 * 60) / 60 * 60)
                    (clock w2) (ticks w2) (clock w2)) as [[i2 t2] tk2] eqn:Hloop2.
        destruct (run_timer_simple_result session_type _ lbl w2 _ _ _ Hloop2)
          as (w3 & -> & Hframe & _).
        eexists _, w3, [_]. split; [reflexivity |].
        split; [apply (timer_frame_trans w w2); try done; lia |].
        split; [done |]. split; [done |].
        split; [constructor; [done | constructor] | done].
      * exists true, w2, []. split; [done |]. unfold timer_frame.
        rewrite app_nil_r. split; [repeat split; try done; lia |].
        split; [simpl; lia |]. split; [done |]. split; [constructor |].
        intros _. rewrite Hone in Hchoice.
        destruct (stdin w) as [| line rest]; [done |].
        exists line. split; [left | done].
    + destruct (String.eqb choice "2").
      * destruct (IH session_type minutes lbl w2)
          as (b & w3 & recs & -> & Hframe & Hle & Hfalse & Hall & Hnone); [lia |].
        exists b, w3, recs. split; [done |].
        split; [apply (timer_frame_trans w w2); try done; lia |].
        split; [done |]. split; [done |]. split; [done |].
        intros Hnil. destruct (Hnone Hnil) as (line & Hin & Hline).
        exists line. split; [| done]. rewrite Hin2 in Hin.
        destruct (stdin w); [done | by right].
      * unfold log_session.
        match goal with
        | |- context [input_prompt ?w0] =>
            destruct (input_prompt_frame w0)
              as (c3 & w3 & -> & Htk3 & _ & Hs3 & Hc3 & Ht3 & Hin3 & _)
        end.
        cbn in Htk3, Hs3, Hc3, Ht3, Hin3.
        pose proof (length_tail_le (stdin w2)).
        eexists false, w3, [_]. split; [reflexivity |]. split.
        { unfold timer_frame. rewrite Hs3, Hc3, Ht3, Hin3, Htk3, Hs2, Hc2, Ht2.
          repeat split; try done; lia. }
        split; [done |]. split; [done |].
        split; [constructor; [done | constructor] | done].
  - (* completed *)
    destruct Hexit as [_ Hlen]. unfold log_session.
    match goal with
    | |- context [input_prompt ?w0] =>
        destruct (input_prompt_frame w0)
          as (c3 & w3 & -> & Htk3 & _ & Hs3 & Hc3 & Ht3 & Hin3 & _)
    end.
    cbn in Htk3, Hs3, Hc3, Ht3, Hin3.
    pose proof (length_tail_le (stdin w)).
    eexists true, w3, [_]. split; [reflexivity |]. split.
    { unfold timer_frame. rewrite Hs3, Hc3, Ht3, Hin3, Htk3.
      repeat split; try done; lia. }
    split; [done |]. split; [done |].
    split; [constructor; [done | constructor] | done].
Qed.

(** [run_timer] always returns. *)
Lemma run_timer_returns session_type minutes lbl w :
  ∃ b w' recs,
    run_timer session_type minutes lbl w = Done b w'
    ∧ timer_frame w w' recs
    ∧ (length recs ≤ 1)%nat
    ∧ (b = false → length recs = 1%nat)
    ∧ Forall (λ r, type r = token session_type ∧ label r = lbl ∧ completed r = b) recs
    ∧ (recs = [] → ∃ line, line ∈ stdin w ∧ strip line = "1"%string).
Proof. apply run_timer_rec_returns. lia. Qed.

End timer.

Section resume.

(** An interrupted loop has taken its SIGINT from the schedule, after
    iterations that all went to their end. *)
Lemma countdown_loop_interrupted total_seconds start_time tk : ∀ t t' tk',
  countdown_loop total_seconds start_time tk t = (true, t', tk') →
  ∃ pre d, tk = pre ++ CtrlC d :: tk' ∧ Forall (λ ev, ¬ is_interrupt ev) pre.
Proof.
  induction tk as [| ev tk IH]; intros t t' tk'; cbn [countdown_loop]; [done |].
  destruct (Qle_bool _ 0); [done |]. destruct ev as [d | d].
  - intros (pre & d' & -> & Hpre)%IH. exists (Sleep d :: pre), d'.
    split; [done |]. constructor; [by intros [] | done].
  - intros [= <- <-]. exists [], d. by split.
Qed.

End resume.

(** C1, as the code has it.  When the countdown of [run_timer] is
    interrupted, the user chooses "1" (resume) and more than 0.1 minute
    remains, the rest runs in [run_timer_simple], which cannot be resumed
    again.  Exactly one record is appended.  Its planned duration is the
    time that remained at the interruption (planned minus elapsed), its
    actual duration the elapsed time of the resumed countdown alone,
    rounded to two decimals, and it is completed if and only if the resumed
    countdown used up its time without a SIGINT. *)
Theorem resumed_session_record session_type minutes lbl w t1 rest line lines
    interrupted2 t2 rest2 :
  let elapsed_minutes := ((t1 - clock w) / 60)%Q in
  let remaining_minutes := ((minutes * 60 - elapsed_minutes * 60) / 60)%Q in
  countdown_loop (minutes * 60) (clock w) (ticks w) (clock w) = (true, t1, rest) →
  stdin w = line :: lines →
  strip line = "1"%string →
  (1 # 10 < remaining_minutes)%Q →
  countdown_loop (remaining_minutes * 60) t1 rest t1 = (interrupted2, t2, rest2) →
  ∃ w' r,
    run_timer session_type minutes lbl w = Done (negb interrupted2) w'
    ∧ sessions_json w' = sessions_json w ++ [r]
    ∧ type r = token session_type
    ∧ label r = lbl
    ∧ planned_minutes r = remaining_minutes
    ∧ (remaining_minutes == minutes - (t1 - clock w) / 60)%Q
    ∧ actual_minutes r = round2 ((t2 - t1) / 60)
    ∧ completed r = negb interrupted2
    ∧ (interrupted2 = false → (remaining_minutes * 60 - (t2 - t1) <= 0)%Q)
    ∧ (interrupted2 = true →
       ∃ pre d, rest = pre ++ CtrlC d :: rest2
                ∧ Forall (λ ev, ¬ is_interrupt ev) pre).
Proof.
  intros elapsed_minutes remaining_minutes Hloop Hin Hline Hrem Hloop2.
  unfold run_timer. cbn [run_timer_rec]. unfold bind, time_time, countdown, ret.
  rewrite Hloop. cbn [negb]. unfold input_prompt at 1. cbn [stdin set_clock_ticks].
  rewrite Hin, Hline. cbn [String.eqb Ascii.eqb Bool.eqb].
  change (clock (set_clock_ticks t1 rest w)) with t1.
  fold elapsed_minutes. fold remaining_minutes.
  assert (Qgt_bool remaining_minutes (1 # 10) = true) as ->.
  { unfold Qgt_bool. destruct (Qle_bool remaining_minutes (1 # 10)) eqn:E; [| done].
    apply Qle_bool_iff in E. lra. }
  set (w2 := set_stdin lines (set_clock_ticks t1 rest w)).
  destruct (run_timer_simple_result session_type remaining_minutes lbl w2
              interrupted2 t2 rest2 Hloop2) as (w3 & -> & (Hs & _) & _).
  eexists w3, _. split; [done |]. split; [exact Hs |].
  cbn. split; [done |]. split; [done |]. split; [done |].
  split; [subst remaining_minutes elapsed_minutes; field |].
  split; [done |]. split; [done |]. split.
  - intros ->.
    pose proof (countdown_loop_exit (remaining_minutes * 60) t1 rest t1) as Hexit.
    rewrite Hloop2 in Hexit. by destruct Hexit.
  - intros ->. by apply countdown_loop_interrupted in Hloop2.
Qed.

Lemma resumed_session_record_witness :
  ∃ w' r, run_timer Focus 1 EmptyString resume_world = Done true w'
          ∧ sessions_json w' = [r]
          ∧ (planned_minutes r == 1 # 2)%Q
          ∧ (actual_minutes r == 1 # 2)%Q
          ∧ completed r = true.
Proof.
  destruct (resumed_session_record Focus 1 EmptyString resume_world
              (1704099630 # 1) [] "1" [] false (1704099660 # 1) [])
    as (w' & r & Hrun & Hs & _ & _ & Hp & _ & Ha & Hc & _).
  - vm_compute. reflexivity.
  - reflexivity.
  - reflexivity.
  - vm_compute. reflexivity.
  - vm_compute. reflexivity.
  - exists w', r. split; [exact Hrun |]. split; [exact Hs |].
    rewrite Hp, Ha, Hc. split; [reflexivity |]. split; reflexivity.
Defined.

(** C1 as stated fails on a one-minute focus session that is interrupted
    after 30 seconds, resumed, and runs to its end.  The two segments of
    30 seconds add up to the planned minute, but the only record has
    [planned_minutes = 0.5] and [actual_minutes = 0.5]: it is not the
    accumulated record. *)
Lemma resumed_record_counterexample :
  ∃ w' r, run_timer Focus 1 EmptyString resume_world = Done true w'
          ∧ sessions_json w' = [r]
          ∧ (planned_minutes r == 1 # 2)%Q
          ∧ (actual_minutes r == 1 # 2)%Q
          ∧ ¬ accumulated_record 1 [30; 30]%Q true r
          ∧ ¬ (planned_minutes r == 1)%Q
          ∧ ¬ (Qabs (actual_minutes r - Qsum [30; 30]%Q / 60) <= 1 # 60)%Q.
Proof.
  eexists _, _. split; [vm_compute; reflexivity |]. split; [reflexivity |].
  split; [reflexivity |]. split; [reflexivity |].
  assert (¬ (1800 # 3600 == 1)%Q) as Hplanned by (vm_compute; congruence).
  split; [by intros [? _] |]. split; [done |].
  vm_compute. congruence.
Qed.

(** C2, where the code departs from it: a one-minute focus session
    interrupted after 55 seconds and resumed.  Less than 0.1 minute
    remains, so [run_timer] returns [True] at once and the session log is
    left as it was. *)
Theorem resume_near_end_logs_nothing :
  ∃ w', run_timer Focus 1 EmptyString near_end_world = Done true w'
        ∧ sessions_json w' = sessions_json near_end_world
        ∧ sessions_json w' = [].
Proof. eexists. split; [vm_compute; reflexivity |]. by split. Qed.

(** * Screens: proofs *)

Section screens.

Lemma input_prompt_eq w :
  input_prompt w
  = Done (strip (hd EmptyString (stdin w))) (set_stdin (tail (stdin w)) w).
Proof. unfold input_prompt, set_stdin. by destruct w as [? ? [| line rest] ? ? ?]. Qed.

(** The [try] block yields the configured focus length for an empty,
    an unparsable and a non-positive answer, and the parsed number
    otherwise; it never lets an exception through. *)
Lemma planned_minutes_of_cases duration config :
  let default := config_get config "focus_minutes" in
  planned_minutes_of duration config
  = Ok (if String.eqb duration EmptyString then default
        else match py_int duration with
             | Ok n => if n <=? 0 then default else n
             | Raise _ => default
             end).
Proof.
  unfold planned_minutes_of. destruct (String.eqb duration EmptyString).
  - cbn. by destruct (_ <=? 0).
  - unfold py_int. destruct (match strip duration with
                             | EmptyString => _ | String _ _ => _ end) as [n |];
      cbn; [by destruct (n <=? 0) | done].
Qed.

Lemma py_int_raises_ValueError s e : py_int s = Raise e → e = ValueError.
Proof.
  unfold py_int. destruct (match strip s with
                           | EmptyString => _ | String _ _ => _ end); congruence.
Qed.

End screens.

(** C8. In [screen_focus_session] an empty, unparsable or non-positive
    answer to the duration prompt makes the session run with the
    configured [focus_minutes]; a positive number is taken as it is.  The
    screen returns in every case: the [ValueError] of [int] is caught. *)
Theorem focus_duration_fallback w :
  let lbl := strip (hd EmptyString (stdin w)) in
  let duration := strip (hd EmptyString (tail (stdin w))) in
  let default := config_get (config_of w) "focus_minutes" in
  let w' := set_stdin (tail (tail (tail (stdin w)))) w in
  (∃ b w'', screen_focus_session w = Done b w'')
  ∧ (duration = EmptyString
     ∨ py_int duration = Raise ValueError
     ∨ (∃ n, py_int duration = Ok n ∧ n ≤ 0) →
     planned_minutes_of duration (config_of w) = Ok default
     ∧ screen_focus_session w = run_timer Focus (inject_Z default) lbl w')
  ∧ (∀ n, duration ≠ EmptyString → py_int duration = Ok n → 0 < n →
     screen_focus_session w = run_timer Focus (inject_Z n) lbl w').
Proof.
  intros lbl duration default w'.
  assert (∀ minutes, planned_minutes_of duration (config_of w) = Ok minutes →
            screen_focus_session w = run_timer Focus (inject_Z minutes) lbl w') as Hrun.
  { intros minutes Hm. unfold screen_focus_session, bind, load_config, lift.
    rewrite !input_prompt_eq. fold lbl. cbn [stdin set_stdin].
    fold duration. rewrite Hm. rewrite input_prompt_eq. done. }
  pose proof (planned_minutes_of_cases duration (config_of w)) as Hcases.
  cbv zeta in Hcases. fold default in Hcases.
  split; [| split].
  - rewrite (Hrun _ Hcases).
    destruct (run_timer_returns Focus (inject_Z
                (if String.eqb duration EmptyString then default
                 else match py_int duration with
                      | Ok n => if n <=? 0 then default else n
                      | Raise _ => default
                      end)) lbl w') as (b & w'' & _ & -> & _).
    by exists b, w''.
  - intros Hbad.
    assert (planned_minutes_of duration (config_of w) = Ok default) as Hd.
    { rewrite Hcases. f_equal. destruct Hbad as [-> | [-> | (n & -> & Hn)]].
      - done.
      - by destruct (String.eqb duration EmptyString).
      - destruct (String.eqb duration EmptyString); [done |].
        by destruct (Z.leb_spec n 0); [| lia]. }
    split; [done | by apply Hrun].
  - intros n Hne Hn Hpos. apply Hrun. rewrite Hcases, Hn. f_equal.
    destruct (String.eqb_spec duration EmptyString); [done |].
    by destruct (Z.leb_spec n 0); [lia |].
Qed.

Lemma focus_duration_fallback_witness :
  screen_focus_session (sample_world [] ["thesis"; "abc"; EmptyString]%string)
  = run_timer Focus 25 "thesis" (sample_world [] [])
  ∧ screen_focus_session (sample_world [] ["thesis"; "-5"; EmptyString]%string)
    = run_timer Focus 25 "thesis" (sample_world [] []).
Proof.
  split.
  - destruct (focus_duration_fallback (sample_world [] ["thesis"; "abc"; EmptyString]%string))
      as (_ & Hbad & _).
    destruct Hbad as [_ Hrun]; [right; left; vm_compute; reflexivity |].
    exact Hrun.
  - destruct (focus_duration_fallback (sample_world [] ["thesis"; "-5"; EmptyString]%string))
      as (_ & Hbad & _).
    destruct Hbad as [_ Hrun];
      [right; right; exists (-5); split; [vm_compute; reflexivity | lia] |].
    exact Hrun.
Defined.

Example py_int_samples :
  py_int <$> ["25"; "abc"; "-5"; "2.5"; "1_000"; EmptyString; " 7 "; "+3"; "1__0"; "0"]%string
  = [Ok 25; Raise ValueError; Ok (-5); Raise ValueError; Ok 1000;
     Raise ValueError; Ok 7; Ok 3; Raise ValueError; Ok 0].
Proof. reflexivity. Qed.

(** * Pomodoro cycle: proofs *)

Section cycle.

Lemma bind_Done {A B} (m : M A) (k : A → M B) w a w' :
  m w = Done a w' → bind m k w = k a w'.
Proof. unfold bind. by intros ->. Qed.

Lemma long_break_due_spec count every :
  match long_break_due count every with
  | Ok true => 0 < count ∧ (every | count)
  | Ok false => ¬ (0 < count ∧ (every | count))
  | Raise e => e = ZeroDivisionError ∧ every = 0 ∧ 0 < count
  end.
Proof.
  unfold long_break_due, py_mod.
  destruct (Z.ltb_spec 0 count) as [Hpos | Hpos]; [| lia].
  destruct (Z.eqb_spec every 0) as [-> | Hne]; cbn; [done |].
  destruct (Z.eqb_spec (count mod every) 0) as [Hmod | Hmod].
  - split; [done |]. by apply Z.mod_divide.
  - intros [_ Hdiv]. by apply Z.mod_divide in Hdiv.
Qed.

(** A prompt takes one line if there is one; an answer that is not empty
    was a line. *)
Lemma prompt_consumes w :
  ∃ choice w', input_prompt w = Done choice w'
               ∧ cycle_trace w' = cycle_trace w
               ∧ length (stdin w') = Nat.pred (length (stdin w))
               ∧ (choice ≠ EmptyString → (0 < length (stdin w))%nat).
Proof.
  rewrite input_prompt_eq. eexists _, _. split; [done |]. cbn.
  destruct (stdin w) as [| line rest]; cbn; repeat split; try done; lia.
Qed.

Lemma optional_break (wanted : bool) session_type minutes w :
  ∃ r w', (if wanted then run_timer session_type minutes EmptyString else ret false) w
          = Done r w'
          ∧ cycle_trace w' = cycle_trace w
          ∧ (length (stdin w') ≤ length (stdin w))%nat.
Proof.
  destruct wanted.
  - destruct (run_timer_returns session_type minutes EmptyString w)
      as (b & w' & recs & -> & (_ & _ & ? & ? & _) & _).
    by exists b, w'.
  - by exists false, w.
Qed.

Lemma answered_nonempty choice answers :
  answered choice answers = negb (answered EmptyString answers) →
  choice ≠ EmptyString.
Proof. intros H ->. by destruct (answered EmptyString answers). Qed.

Lemma cycle_post_event every count count' ev w w2 o :
  cycle_trace w2 = cycle_trace w ++ [ev] →
  (∀ trace, cycle_trace_ok every count' trace →
            cycle_trace_ok every count (ev :: trace)) →
  cycle_post every count' w2 o → cycle_post every count w o.
Proof.
  intros Htr Hev. destruct o as [[] w' | e w' |]; cbn; [| | done].
  - intros (trace & -> & Hok). exists (ev :: trace).
    rewrite Htr, <- app_assoc. split; [done | by apply Hev].
  - intros (-> & -> & trace & -> & Hok). split; [done |]. split; [done |].
    exists (ev :: trace). rewrite Htr, <- app_assoc. split; [done | by apply Hev].
Qed.

Lemma cycle_loop_post fuel : ∀ config count w,
  (length (stdin w)
   + match long_break_due count (config_get config "sessions_before_long_break") with
     | Ok true => 2
     | _ => 1
     end ≤ fuel)%nat →
  cycle_post (config_get config "sessions_before_long_break") count w
             (cycle_loop fuel config count w).
Proof.
  induction fuel as [| fuel IH]; intros config count w Hfuel.
  { destruct (long_break_due _ _) as [[] |]; lia. }
  set (every := config_get config "sessions_before_long_break") in *.
  pose proof (long_break_due_spec count every) as Hdue.
  assert (∀ c, (match long_break_due c every with Ok true => 2 | _ => 1 end ≤ 2)%nat)
    as Hneed by (intros c; destruct (long_break_due c every) as [[] |]; lia).
  unfold every in Hneed.
  cbn [cycle_loop]. fold every. unfold bind at 1, lift.
  destruct (long_break_due count every) as [[] | e].
  - (* the long break is offered *)
    unfold bind at 1, observe.
    set (w1 := set_cycle_trace _ w).
    destruct (prompt_consumes w1) as (choice & w2 & Hp & Ht2 & Hl2 & _).
    rewrite (bind_Done _ _ _ _ _ Hp).
    destruct (optional_break (answered choice ["y"%string]) LongBreak
                (inject_Z (config_get config "long_break_minutes")) w2)
      as (r & w3 & Hb & Ht3 & Hl3).
    rewrite (bind_Done _ _ _ _ _ Hb).
    apply (cycle_post_event every count 0 (LongBreakOffer count) w w3).
    + by rewrite Ht3, Ht2.
    + intros trace Hok. cbn. split; [done |]. split; [exact Hdue | exact Hok].
    + apply IH. change (long_break_due 0 _) with (Ok (A:=bool) false).
      subst w1. cbn in Hl2 |- *. lia.
  - (* a focus session *)
    destruct (prompt_consumes w) as (lbl & w1 & Hp & Ht1 & Hl1 & _).
    rewrite (bind_Done _ _ _ _ _ Hp).
    destruct (run_timer_returns Focus (inject_Z (config_get config "focus_minutes")) lbl w1)
      as (finished & w2 & recs & Hrun & (_ & _ & Ht2 & Hl2 & _) & _).
    rewrite (bind_Done _ _ _ _ _ Hrun).
    unfold bind at 1, observe.
    set (w3 := set_cycle_trace _ w2).
    assert (cycle_trace w3 = cycle_trace w ++ [FocusRun count finished]) as Ht3
      by (subst w3; cbn; by rewrite Ht2, Ht1).
    assert (∀ trace, cycle_trace_ok every (if finished then count + 1 else count) trace →
              cycle_trace_ok every count (FocusRun count finished :: trace)) as Hev
      by (intros trace Hok; cbn; split; [done |]; split; [exact Hdue | exact Hok]).
    assert (length (stdin w3) ≤ Nat.pred (length (stdin w)))%nat as Hl3
      by (subst w3; cbn; lia).
    destruct finished.
    + destruct (prompt_consumes w3) as (c1 & w4 & Hp4 & Ht4 & Hl4 & _).
      rewrite (bind_Done _ _ _ _ _ Hp4).
      destruct (optional_break (answered c1 ["y"%string]) ShortBreak
                  (inject_Z (config_get config "short_break_minutes")) w4)
        as (r & w5 & Hb & Ht5 & Hl5).
      rewrite (bind_Done _ _ _ _ _ Hb).
      destruct (prompt_consumes w5) as (c2 & w6 & Hp6 & Ht6 & Hl6 & Hc6).
      rewrite (bind_Done _ _ _ _ _ Hp6).
      apply (cycle_post_event every count (count + 1) (FocusRun count true) w w6);
        [by rewrite Ht6, Ht5, Ht4 | done |].
      destruct (answered c2 ["n"; "q"; EmptyString]%string) eqn:Hans.
      * exists []. by rewrite app_nil_r.
      * apply IH. specialize (Hneed (count + 1)).
        assert (c2 ≠ EmptyString) as Hne by (by apply (answered_nonempty _ _ Hans)).
        specialize (Hc6 Hne). cbn in Hl4. lia.
    + destruct (prompt_consumes w3) as (c1 & w4 & Hp4 & Ht4 & Hl4 & Hc4).
      rewrite (bind_Done _ _ _ _ _ Hp4).
      apply (cycle_post_event every count count (FocusRun count false) w w4);
        [by rewrite Ht4 | done |].
      destruct (answered c1 ["y"%string]) eqn:Hans; cbn [negb].
      * apply IH. specialize (Hneed count).
        assert (c1 ≠ EmptyString) as Hne by (by apply (answered_nonempty _ _ Hans)).
        specialize (Hc4 Hne). cbn in Hc4, Hl4. lia.
      * exists []. by rewrite app_nil_r.
  - (* long_break_every is zero *)
    destruct Hdue as (-> & -> & _). split; [done |]. split; [done |].
    exists []. by rewrite app_nil_r.
Qed.

Lemma cycle_trace_ok_suffix every pre : ∀ count post,
  cycle_trace_ok every count (pre ++ post) →
  ∃ count', cycle_trace_ok every count' post.
Proof.
  induction pre as [| ev pre IH]; intros count post Hok; [by exists count |].
  destruct ev as [c | c finished]; cbn in Hok.
  - destruct Hok as (_ & _ & Hok). by apply IH in Hok.
  - destruct Hok as (_ & _ & Hok). by apply IH in Hok.
Qed.

(** [run_pomodoro_cycle] returns, or stops on the division by a zero
    [sessions_before_long_break]; its trace is well formed. *)
Lemma run_pomodoro_cycle_returns w :
  cycle_post (config_get (config_of w) "sessions_before_long_break") 0 w
             (run_pomodoro_cycle w).
Proof.
  unfold run_pomodoro_cycle, bind, load_config. apply cycle_loop_post.
  change (long_break_due 0 _) with (Ok (A:=bool) false). cbn. lia.
Qed.

End cycle.

(** The counter along a run of the Pomodoro cycle, relative to what
    [run_timer] returns: it starts at zero, goes up by one exactly after a
    focus session for which [run_timer] returned [True], stays as it is
    after one for which it returned [False], and is zero after a long
    break offer.  At the head of the loop the long break is offered
    exactly when the counter is a positive multiple of
    [sessions_before_long_break].  The run returns unless
    [sessions_before_long_break] is zero, where the modulo raises
    [ZeroDivisionError]. *)
Lemma cycle_counter_trace w :
  let every := config_get (config_of w) "sessions_before_long_break" in
  ∃ w' trace,
    (run_pomodoro_cycle w = Done tt w'
     ∨ (run_pomodoro_cycle w = Crash ZeroDivisionError w' ∧ every = 0))
    ∧ cycle_trace w' = cycle_trace w ++ trace
    ∧ cycle_trace_ok every 0 trace
    ∧ (∀ e post, trace = e :: post → ∃ b, e = FocusRun 0 b)
    ∧ (∀ pre c post, trace = pre ++ LongBreakOffer c :: post →
         0 < c ∧ (every | c))
    ∧ (∀ pre c b post, trace = pre ++ FocusRun c b :: post →
         ¬ (0 < c ∧ (every | c)))
    ∧ (∀ pre c e post, trace = pre ++ FocusRun c false :: e :: post →
         ∃ b, e = FocusRun c b)
    ∧ (∀ pre c e post, trace = pre ++ FocusRun c true :: e :: post →
         e = LongBreakOffer (c + 1) ∨ ∃ b, e = FocusRun (c + 1) b)
    ∧ (∀ pre c e post, trace = pre ++ LongBreakOffer c :: e :: post →
         ∃ b, e = FocusRun 0 b).
Proof.
  intros every. pose proof (run_pomodoro_cycle_returns w) as Hpost.
  fold every in Hpost.
  assert (∃ w' trace,
            (run_pomodoro_cycle w = Done tt w'
             ∨ (run_pomodoro_cycle w = Crash ZeroDivisionError w' ∧ every = 0))
            ∧ cycle_trace w' = cycle_trace w ++ trace
            ∧ cycle_trace_ok every 0 trace) as (w' & trace & Hrun & Htr & Hok).
  { destruct (run_pomodoro_cycle w) as [[] w' | e w' |]; cbn in Hpost; [| | done].
    - destruct Hpost as (trace & ? & ?). exists w', trace. split; [by left | done].
    - destruct Hpost as (-> & ? & trace & ? & ?). exists w', trace.
      split; [by right | done]. }
  exists w', trace. split; [done |]. split; [done |]. split; [done |].
  split; [| split; [| split; [| split; [| split]]]].
  - intros e post ->. destruct e as [c | c b]; cbn in Hok.
    + destruct Hok as (-> & [? _] & _). lia.
    + destruct Hok as (-> & _). by exists b.
  - intros pre c post ->. apply cycle_trace_ok_suffix in Hok as [count Hok].
    cbn in Hok. by destruct Hok as (_ & ? & _).
  - intros pre c b post ->. apply cycle_trace_ok_suffix in Hok as [count Hok].
    cbn in Hok. by destruct Hok as (_ & ? & _).
  - intros pre c e post ->. apply cycle_trace_ok_suffix in Hok as [count Hok].
    cbn in Hok. destruct Hok as (_ & Hnot & Hok).
    destruct e as [c' | c' b]; cbn in Hok.
    + destruct Hok as (-> & Hdue & _). done.
    + destruct Hok as (-> & _). by exists b.
  - intros pre c e post ->. apply cycle_trace_ok_suffix in Hok as [count Hok].
    cbn in Hok. destruct Hok as (_ & _ & Hok).
    destruct e as [c' | c' b]; cbn in Hok.
    + destruct Hok as (-> & _). by left.
    + destruct Hok as (-> & _). right. by exists b.
  - intros pre c e post ->. apply cycle_trace_ok_suffix in Hok as [count Hok].
    cbn in Hok. destruct Hok as (_ & _ & Hok).
    destruct e as [c' | c' b]; cbn in Hok.
    + destruct Hok as (-> & [? _] & _). lia.
    + destruct Hok as (-> & _). by exists b.
Qed.

Example cycle_world_trace :
  ∃ w', run_pomodoro_cycle cycle_world = Done tt w'
        ∧ cycle_trace w'
          = [FocusRun 0 false; FocusRun 0 true; FocusRun 1 true;
             LongBreakOffer 2; FocusRun 0 true]
        ∧ completed <$> sessions_json w' = [false; true; true; true].
Proof. eexists. split; [vm_compute; reflexivity |]. by split. Qed.

(** The early return of Resume, for every call: when the countdown is
    interrupted, the menu is answered "1" and at most 0.1 minute is
    left, [run_timer] returns [True] and only the clock, the scheduled
    events and the input have moved. *)
Lemma resume_near_end_returns_true session_type minutes lbl w t1 rest :
  countdown_loop (minutes * 60) (clock w) (ticks w) (clock w) = (true, t1, rest) →
  strip (hd EmptyString (stdin w)) = "1"%string →
  Qgt_bool ((minutes * 60 - (t1 - clock w) / 60 * 60) / 60) (1 # 10) = false →
  run_timer session_type minutes lbl w
  = Done true (set_stdin (tail (stdin w)) (set_clock_ticks t1 rest w)).
Proof.
  intros Hloop Hline Hrem.
  unfold run_timer. cbn [run_timer_rec]. unfold bind, time_time, countdown, ret.
  rewrite Hloop. cbn [negb]. rewrite input_prompt_eq.
  cbn [stdin set_clock_ticks clock]. rewrite Hline.
  cbn [String.eqb Ascii.eqb Bool.eqb]. by rewrite Hrem.
Qed.

(** C3, where the code departs from it.  The counter follows the value
    returned by [run_timer], and [run_timer] returns [True] for a session
    that is resumed with at most 0.1 minute left although its countdown
    was interrupted and is never finished.  In this run the countdown of
    the first focus session is interrupted after 55 of its 60 seconds and
    resumed: [run_timer] returns [True] and logs nothing, the counter goes
    from 0 to 1, and the next iteration offers the long break.  The only
    record in the log is the one of the second session. *)
Theorem cycle_counts_unfinished_session :
  countdown_loop (1 * 60) (clock unfinished_world) (ticks unfinished_world)
    (clock unfinished_world)
  = (true, (clock unfinished_world + 55)%Q, [])
  ∧ (∃ w1, run_timer Focus 1 "a"
             (set_stdin (tail (stdin unfinished_world)) unfinished_world)
           = Done true w1
           ∧ sessions_json w1 = [])
  ∧ ∃ w', run_pomodoro_cycle unfinished_world = Done tt w'
          ∧ cycle_trace w'
            = [FocusRun 0 true; LongBreakOffer 1; FocusRun 0 true]
          ∧ label <$> sessions_json w' = ["q"%string]
          ∧ completed <$> sessions_json w' = [true].
Proof.
  split; [vm_compute; reflexivity |]. split.
  - eexists. split; [vm_compute; reflexivity |]. reflexivity.
  - eexists. split; [vm_compute; reflexivity |]. by repeat split.
Qed.

(** * Statistics engine: further properties *)

Section report_fields.

(** The remaining fields of the report. *)
Lemma compute_stats_totals sessions today :
  sessions ≠ [] →
  ∃ r, compute_stats sessions today = Ok (Report r)
       ∧ daily r = build_daily (focus_of sessions)
       ∧ total_focus_minutes r = sum_actual (focus_of sessions)
       ∧ total_completed_minutes r = sum_actual (completed_of (focus_of sessions))
       ∧ total_focus_sessions r = len (focus_of sessions)
       ∧ completed_focus_sessions r = len (completed_of (focus_of sessions))
       ∧ best_day r = best_day_of (daily r) (insertion_order (focus_of sessions))
       ∧ first_session_date r = (λ s, dt_date (started_at s)) <$> head sessions
       ∧ completion_rate_of (focus_of sessions) (completed_of (focus_of sessions))
         = Ok (completion_rate r).
Proof.
  intros Hne. destruct sessions as [| first rest]; [done |].
  unfold compute_stats.
  destruct (completion_rate_of_ok (focus_of (first :: rest))
              (completed_of (focus_of (first :: rest)))) as (rate & -> & _).
  simpl. eexists. split; [done |]. by repeat split.
Qed.

Lemma filter_all {A} (P : A → Prop) `{∀ x, Decision (P x)} (l : list A) :
  Forall P l → filter P l = l.
Proof.
  induction 1 as [| x l Hx _ IH]; [done |].
  by rewrite filter_cons_True, IH.
Qed.

Lemma focus_dates_are_keys focus s :
  s ∈ focus → dt_date (started_at s) ∈ sorted_days (build_daily focus).
Proof.
  intros Hs. apply sorted_days_elem.
  pose proof (build_daily_lookup focus (dt_date (started_at s))) as H.
  destruct (build_daily focus !! _) as [b |]; [by eexists |].
  assert (s ∈ on_day (dt_date (started_at s)) focus) as Hin
    by (unfold on_day; by apply list_elem_of_filter).
  rewrite H in Hin. by apply elem_of_nil in Hin.
Qed.

Lemma NoDup_sorted_days daily : NoDup (sorted_days daily).
Proof.
  unfold sorted_days. rewrite merge_sort_Permutation. apply NoDup_fst_map_to_list.
Qed.

Lemma on_day_completed d l :
  completed_of (on_day d l) = on_day d (completed_of l).
Proof.
  unfold completed_of, on_day. rewrite !list_filter_filter.
  apply list_filter_iff. tauto.
Qed.

Lemma completed_on_log focus d :
  completed_on (build_daily focus) d = len (on_day d (completed_of focus)).
Proof.
  unfold completed_on. pose proof (build_daily_lookup focus d) as H.
  rewrite <- on_day_completed.
  destruct (build_daily focus !! d) as [b |]; simpl.
  - by destruct H as (_ & _ & -> & _).
  - by rewrite H.
Qed.

Lemma len_filter_le {A} (P : A → Prop) `{∀ x, Decision (P x)} (l : list A) :
  len (filter P l) ≤ len l.
Proof. unfold len. pose proof (length_filter P l). lia. Qed.

(** Sums over all the dates of [daily] are sums over all focus sessions. *)
Lemma sums_over_all_days focus (l : list SessionRecord) :
  l ⊆ focus →
  (Qsum ((λ d, sum_actual (on_day d l)) <$> sorted_days (build_daily focus))
   == sum_actual l)%Q
  ∧ Zsum ((λ d, len (on_day d l)) <$> sorted_days (build_daily focus)) = len l.
Proof.
  intros Hsub.
  destruct (sums_over_dates (sorted_days (build_daily focus)) l
              (NoDup_sorted_days _)) as [H1 H2].
  rewrite H1, H2. rewrite filter_all; [done |].
  apply Forall_forall. intros s Hs. by apply focus_dates_are_keys, Hsub.
Qed.

End report_fields.

(** X1. The daily buckets partition the focus sessions: the dates with a
    bucket are the dates of the focus sessions, and over all buckets the
    [sessions], [completed] and [minutes] fields add up to the totals of
    the report.  Every bucket counts at least one session and no more
    completed sessions than sessions. *)
Theorem daily_buckets_partition sessions today :
  sessions ≠ [] →
  ∃ r, compute_stats sessions today = Ok (Report r)
       ∧ (∀ d, is_Some (daily r !! d)
               ↔ ∃ s, s ∈ sessions ∧ is_focus s ∧ dt_date (started_at s) = d)
       ∧ Zsum (bucket_sessions (daily r) <$> sorted_days (daily r))
         = total_focus_sessions r
       ∧ Zsum (completed_on (daily r) <$> sorted_days (daily r))
         = completed_focus_sessions r
       ∧ (Qsum (bucket_minutes (daily r) <$> sorted_days (daily r))
          == total_focus_minutes r)%Q
       ∧ (∀ d b, daily r !! d = Some b →
            1 ≤ d_sessions b ∧ 0 ≤ d_completed b ≤ d_sessions b).
Proof.
  intros Hne.
  destruct (compute_stats_totals sessions today Hne)
    as (r & Hr & Hd & Htm & _ & Hts & Htc & _).
  exists r. split; [done |]. rewrite Hd, Htm, Hts, Htc.
  set (focus := focus_of sessions).
  split; [| split; [| split; [| split]]].
  - intros d. pose proof (build_daily_lookup focus d) as H. split.
    + intros [b Hb]. rewrite Hb in H. destruct H as (Hnil & _).
      destruct (on_day d focus) as [| s l] eqn:Hl; [done |].
      assert (s ∈ on_day d focus) as Hs by (rewrite Hl; left).
      unfold on_day, focus, focus_of in Hs. rewrite !list_elem_of_filter in Hs.
      exists s. tauto.
    + intros (s & Hs & Hf & Hdate).
      destruct (build_daily focus !! d) as [b |]; [by eexists |].
      assert (s ∈ on_day d focus) as Hin.
      { unfold on_day, focus, focus_of. rewrite !list_elem_of_filter. tauto. }
      rewrite H in Hin. by apply elem_of_nil in Hin.
  - destruct (bucket_sums_log focus (sorted_days (build_daily focus))) as [_ ->].
    by destruct (sums_over_all_days focus focus) as [_ ->].
  - transitivity (Zsum ((λ d, len (on_day d (completed_of focus)))
                          <$> sorted_days (build_daily focus))).
    + f_equal. apply list_fmap_ext. intros _ d _. apply completed_on_log.
    + destruct (sums_over_all_days focus (completed_of focus)) as [_ ->]; [| done].
      intros s. unfold completed_of. rewrite list_elem_of_filter. tauto.
  - destruct (bucket_sums_log focus (sorted_days (build_daily focus))) as [-> _].
    by destruct (sums_over_all_days focus focus) as [-> _].
  - intros d b Hb. pose proof (build_daily_lookup focus d) as H. rewrite Hb in H.
    destruct H as (Hnil & -> & -> & _).
    pose proof (len_filter_le (λ s, completed s = true) (on_day d focus)).
    pose proof (proj2 (len_pos (on_day d focus)) Hnil).
    unfold completed_of. unfold len in *. lia.
Qed.

Lemma daily_buckets_partition_witness :
  ∃ r, compute_stats gap_log 107 = Ok (Report r)
       ∧ Zsum (bucket_sessions (daily r) <$> sorted_days (daily r)) = 8
       ∧ Zsum (completed_on (daily r) <$> sorted_days (daily r)) = 7.
Proof.
  destruct (daily_buckets_partition gap_log 107)
    as (r & Hr & _ & Hs & Hc & _); [done |].
  exists r. split; [exact Hr |]. rewrite Hs, Hc.
  vm_compute in Hr. injection Hr as <-. by split.
Defined.

Section best_day.

Lemma insertion_order_snoc focus s :
  insertion_order (focus ++ [s])
  = let keys := insertion_order focus in
    if decide (dt_date (started_at s) ∈ keys) then keys
    else keys ++ [dt_date (started_at s)].
Proof. unfold insertion_order. by rewrite foldl_app. Qed.

(** The insertion order lists every date of the focus sessions once. *)
Lemma insertion_order_keys focus :
  NoDup (insertion_order focus)
  ∧ ∀ d, d ∈ insertion_order focus ↔ is_Some (build_daily focus !! d).
Proof.
  induction focus as [| s focus [IH1 IH2]] using rev_ind.
  { split; [constructor |]. intros d. unfold insertion_order, build_daily. cbn.
    rewrite lookup_empty. split; [by intros ?%elem_of_nil | by intros [? ?]]. }
  rewrite insertion_order_snoc, build_daily_snoc. cbv zeta. unfold daily_step.
  destruct (decide (dt_date (started_at s) ∈ insertion_order focus)) as [Hin | Hin].
  - split; [done |]. intros d.
    destruct (decide (dt_date (started_at s) = d)) as [<- | Hne].
    + rewrite lookup_insert_eq. split; [by eexists | done].
    + by rewrite lookup_insert_ne.
  - split.
    + apply NoDup_app. split; [done |]. split; [| apply NoDup_singleton].
      intros d Hd ->%list_elem_of_singleton. done.
    + intros d. rewrite elem_of_app, list_elem_of_singleton.
      destruct (decide (dt_date (started_at s) = d)) as [<- | Hne].
      * rewrite lookup_insert_eq. split; [by eexists | by right].
      * rewrite lookup_insert_ne by done. rewrite IH2. split; [| by left].
        by intros [? | ?].
Qed.

(** [max] returns the first entry whose [minutes] is largest. *)
Lemma best_day_of_first_max daily (keys : list Z) :
  match best_day_of daily keys with
  | None => keys = []
  | Some (d, b) =>
      b = default daily_default (daily !! d)
      ∧ ∃ pre post, keys = pre ++ d :: post
          ∧ Forall (λ d', (bucket_minutes daily d' < d_minutes b)%Q) pre
          ∧ Forall (λ d', (bucket_minutes daily d' <= d_minutes b)%Q) post
  end.
Proof.
  unfold best_day_of. induction keys as [| k keys IH] using rev_ind; [done |].
  rewrite foldl_app. cbn [foldl].
  destruct (foldl _ None keys) as [[d0 b0] |].
  - destruct IH as (-> & pre & post & -> & Hpre & Hpost).
    destruct (Qle_bool _ _) eqn:E.
    + apply Qle_bool_iff in E. split; [done |].
      exists pre, (post ++ [k]). rewrite <- app_assoc. split; [done |].
      split; [done |]. apply Forall_app. split; [done |].
      by constructor.
    + assert (d_minutes (default daily_default (daily !! d0))
              < d_minutes (default daily_default (daily !! k)))%Q as Hlt.
      { destruct (Qlt_le_dec (d_minutes (default daily_default (daily !! d0)))
                    (d_minutes (default daily_default (daily !! k)))) as [? | Hle];
          [done |]. apply Qle_bool_iff in Hle. congruence. }
      split; [done |]. exists (pre ++ d0 :: post), [].
      split; [done |]. split; [| constructor].
      apply Forall_app. split.
      * eapply Forall_impl; [exact Hpre |]. intros d' ?. simpl in *.
        unfold bucket_minutes in *. lra.
      * constructor; [done |].
        eapply Forall_impl; [exact Hpost |]. intros d' ?. simpl in *.
        unfold bucket_minutes in *. lra.
  - subst keys. split; [done |]. exists [], []. by repeat split.
Qed.

End best_day.

(** X2. The best day is the first date, in the order in which the dates
    first occur in the log, whose bucket has the largest [minutes]; the
    report has none exactly when the log has no focus session. *)
Theorem best_day_is_first_maximum sessions today :
  sessions ≠ [] →
  ∃ r, compute_stats sessions today = Ok (Report r)
       ∧ (best_day r = None ↔ focus_of sessions = [])
       ∧ ∀ d b, best_day r = Some (d, b) →
           daily r !! d = Some b
           ∧ (∀ d' b', daily r !! d' = Some b' → (d_minutes b' <= d_minutes b)%Q)
           ∧ ∃ pre post,
               insertion_order (focus_of sessions) = pre ++ d :: post
               ∧ Forall (λ d', (bucket_minutes (daily r) d' < d_minutes b)%Q) pre.
Proof.
  intros Hne.
  destruct (compute_stats_totals sessions today Hne)
    as (r & Hr & Hd & _ & _ & _ & _ & Hbest & _).
  exists r. split; [done |].
  set (focus := focus_of sessions) in *.
  destruct (insertion_order_keys focus) as [Hnd Hkeys].
  pose proof (best_day_of_first_max (daily r) (insertion_order focus)) as Hmax.
  rewrite <- Hbest in Hmax. split.
  - split.
    + intros Hnone. rewrite Hnone in Hmax.
      destruct focus as [| s l] eqn:Hf; [done |]. exfalso.
      assert (dt_date (started_at s) ∈ insertion_order (s :: l)) as Hin.
      { apply Hkeys, sorted_days_elem, focus_dates_are_keys. left. }
      rewrite Hmax in Hin. by apply elem_of_nil in Hin.
    + intros Hnil. rewrite Hbest, Hnil. done.
  - intros d b Hsome. rewrite Hsome in Hmax.
    destruct Hmax as (Hb & pre & post & Hio & Hpre & Hpost).
    assert (d ∈ insertion_order focus) as Hd' by (rewrite Hio; apply elem_of_app; right; left).
    apply Hkeys in Hd' as [b0 Hb0]. rewrite <- Hd in Hb0.
    rewrite Hb0 in Hb. simpl in Hb. subst b0.
    split; [done |]. split; [| by exists pre, post].
    intros d' b' Hb'.
    assert (d' ∈ insertion_order focus) as Hin
      by (apply Hkeys; rewrite <- Hd; by eexists).
    rewrite Hio in Hin.
    assert (bucket_minutes (daily r) d' = d_minutes b') as <-
      by (unfold bucket_minutes; by rewrite Hb').
    apply elem_of_app in Hin as [Hin | Hin].
    + rewrite Forall_forall in Hpre. specialize (Hpre _ Hin). lra.
    + apply elem_of_cons in Hin as [-> | Hin].
      * unfold bucket_minutes. rewrite Hb0. simpl. lra.
      * rewrite Forall_forall in Hpost. by apply Hpost.
Qed.

Lemma best_day_is_first_maximum_witness :
  ∃ r, compute_stats january_log 738890 = Ok (Report r)
       ∧ (best_day r = None ↔ focus_of january_log = []).
Proof.
  destruct (best_day_is_first_maximum january_log 738890) as (r & Hr & Hnone & _);
    [done |].
  by exists r.
Defined.

(** X3. The completion rate lies between 0 and 100, and the report never
    counts more completed focus sessions than focus sessions. *)
Theorem completion_rate_bounds sessions today :
  sessions ≠ [] →
  ∃ r, compute_stats sessions today = Ok (Report r)
       ∧ (0 <= completion_rate r <= 100)%Q
       ∧ 0 ≤ completed_focus_sessions r ≤ total_focus_sessions r.
Proof.
  intros Hne.
  destruct (compute_stats_totals sessions today Hne)
    as (r & Hr & _ & _ & _ & Hts & Htc & _ & _ & Hrate).
  exists r. split; [done |].
  assert (0 ≤ completed_focus_sessions r ≤ total_focus_sessions r) as Hle.
  { rewrite Hts, Htc. unfold completed_of.
    pose proof (len_filter_le (λ s, completed s = true) (focus_of sessions)).
    unfold len in *. lia. }
  split; [| done].
  destruct (completion_rate_of_ok (focus_of sessions)
              (completed_of (focus_of sessions))) as (rate & Hrate' & H0 & H1).
  rewrite Hrate in Hrate'. injection Hrate' as ->.
  destruct (decide (focus_of sessions = [])) as [Hf | Hf];
    [rewrite (H0 Hf); lra | rewrite (H1 Hf)].
  rewrite <- Hts, <- Htc.
  assert (0 < total_focus_sessions r) as Hpos
    by (rewrite Hts; by apply len_pos).
  assert (0 < inject_Z (total_focus_sessions r))%Q as Hq
    by (change 0%Q with (inject_Z 0); by rewrite <- Zlt_Qlt).
  assert (0 <= inject_Z (completed_focus_sessions r))%Q as Hc0
    by (change 0%Q with (inject_Z 0); rewrite <- Zle_Qle; lia).
  assert (inject_Z (completed_focus_sessions r)
          <= inject_Z (total_focus_sessions r))%Q as Hc1
    by (rewrite <- Zle_Qle; lia).
  split.
  - apply Qmult_le_0_compat; [| lra]. apply Qle_shift_div_l; [done | lra].
  - assert (inject_Z (completed_focus_sessions r)
            / inject_Z (total_focus_sessions r) <= 1)%Q
      by (apply Qle_shift_div_r; [done | lra]).
    lra.
Qed.

Lemma completion_rate_bounds_witness :
  ∃ r, compute_stats gap_log 107 = Ok (Report r)
       ∧ (0 <= completion_rate r <= 100)%Q.
Proof.
  destruct (completion_rate_bounds gap_log 107) as (r & Hr & Hb & _); [done |].
  by exists r.
Defined.

Section streak_counts.

Lemma Zsum_at_least (f : Z → Z) (ds : list Z) :
  Forall (λ d, 1 ≤ f d) ds → len ds ≤ Zsum (f <$> ds).
Proof.
  induction 1 as [| d ds Hd _ IH]; [done |].
  rewrite fmap_cons, Zsum_cons, len_cons. lia.
Qed.

(** A stretch of [k] streak days holds at least [k] completed focus
    sessions. *)
Lemma streak_needs_sessions focus d k :
  0 ≤ k →
  (∀ i, 0 ≤ i < k → streak_day (build_daily focus) (d - i)) →
  k ≤ len (completed_of focus).
Proof.
  intros Hk Hrun.
  set (ds := (λ i, d - i) <$> seqZ 0 k).
  assert (NoDup ds) as Hnd.
  { apply NoDup_fmap_2_strong; [intros; lia | apply NoDup_seqZ]. }
  destruct (sums_over_dates ds (completed_of focus) Hnd) as [_ Hsum].
  pose proof (len_filter_le (λ s, dt_date (started_at s) ∈ ds) (completed_of focus)).
  assert (len ds ≤ Zsum ((λ d, len (on_day d (completed_of focus))) <$> ds)) as Hge.
  { apply Zsum_at_least, Forall_forall. intros d' Hd'.
    apply list_elem_of_fmap in Hd' as (i & -> & Hi%elem_of_seqZ).
    rewrite <- completed_on_log. specialize (Hrun i ltac:(lia)).
    unfold streak_day in Hrun. lia. }
  assert (len ds = k) as Hlen
    by (unfold ds, len; rewrite length_fmap, length_seqZ; lia).
  lia.
Qed.

End streak_counts.

(** X4. No streak is longer than the number of completed focus sessions:
    [current_streak <= best_streak <= completed_focus_sessions]. *)
Theorem streaks_bounded_by_sessions sessions today :
  sessions ≠ [] →
  ∃ r, compute_stats sessions today = Ok (Report r)
       ∧ 0 ≤ current_streak r ≤ best_streak r
       ∧ best_streak r ≤ completed_focus_sessions r.
Proof.
  intros Hne.
  destruct (compute_stats_totals sessions today Hne)
    as (r & Hr & Hd & _ & _ & _ & Htc & _).
  destruct (compute_stats_returns sessions today Hne)
    as (r' & Hr' & _ & _ & Hc & Hb & _).
  rewrite Hr in Hr'. injection Hr' as <-.
  exists r. split; [done |]. rewrite Hc, Hb, Htc.
  destruct (current_streak_spec (daily r) today) as ([Hc0 _] & _).
  split; [split; [done | apply current_le_best] |].
  destruct (best_streak_attained (daily r)) as [-> | (d & Hk & Hrun & _)].
  - unfold len. lia.
  - rewrite Hd in *. by apply (streak_needs_sessions _ d).
Qed.

Lemma streaks_bounded_by_sessions_witness :
  ∃ r, compute_stats gap_log 107 = Ok (Report r)
       ∧ best_streak r ≤ completed_focus_sessions r.
Proof.
  destruct (streaks_bounded_by_sessions gap_log 107) as (r & Hr & _ & Hb); [done |].
  by exists r.
Defined.

Section growing_log.

Lemma active_day_app sessions more d :
  active_day sessions d → active_day (sessions ++ more) d.
Proof. unfold active_day. rewrite Exists_app. by left. Qed.

Lemma focus_of_app l1 l2 : focus_of (l1 ++ l2) = focus_of l1 ++ focus_of l2.
Proof. unfold focus_of. apply filter_app. Qed.

Lemma len_app {A} (l1 l2 : list A) : len (l1 ++ l2) = len l1 + len l2.
Proof. unfold len. rewrite length_app. lia. Qed.

End growing_log.

(** X5. Appending records to the log loses nothing: the best streak and
    the number of focus sessions do not go down, and every daily bucket
    is still there with counts at least as large. *)
Theorem appending_keeps_history sessions more today today' :
  sessions ≠ [] →
  ∃ r r', compute_stats sessions today = Ok (Report r)
          ∧ compute_stats (sessions ++ more) today' = Ok (Report r')
          ∧ best_streak r ≤ best_streak r'
          ∧ total_focus_sessions r ≤ total_focus_sessions r'
          ∧ completed_focus_sessions r ≤ completed_focus_sessions r'
          ∧ ∀ d b, daily r !! d = Some b →
              ∃ b', daily r' !! d = Some b'
                    ∧ d_sessions b ≤ d_sessions b'
                    ∧ d_completed b ≤ d_completed b'.
Proof.
  intros Hne.
  assert (sessions ++ more ≠ []) as Hne' by (by destruct sessions).
  destruct (compute_stats_totals sessions today Hne)
    as (r & Hr & Hd & _ & _ & Hts & Htc & _).
  destruct (compute_stats_returns sessions today Hne)
    as (r0 & Hr0 & _ & _ & _ & Hb & _).
  rewrite Hr in Hr0. injection Hr0 as <-.
  destruct (compute_stats_totals (sessions ++ more) today' Hne')
    as (r' & Hr' & Hd' & _ & _ & Hts' & Htc' & _).
  destruct (compute_stats_returns (sessions ++ more) today' Hne')
    as (r0 & Hr0 & _ & _ & _ & Hb' & _).
  rewrite Hr' in Hr0. injection Hr0 as <-.
  exists r, r'. split; [done |]. split; [done |].
  split; [| split; [| split]].
  - rewrite Hb, Hb'.
    destruct (best_streak_attained (daily r)) as [-> | (d & Hk & Hrun & _)];
      [apply best_streak_nonneg |].
    destruct (decide (best_streak_of (daily r) = 0)) as [-> | Hpos];
      [apply best_streak_nonneg |].
    apply (best_streak_upper _ d); [lia |]. intros i Hi.
    rewrite Hd'. apply streak_day_active, active_day_app, streak_day_active.
    rewrite <- Hd. by apply Hrun.
  - rewrite Hts, Hts', focus_of_app, len_app. unfold len. lia.
  - rewrite Htc, Htc', focus_of_app. unfold completed_of.
    rewrite filter_app, len_app. unfold len. lia.
  - intros d b Hb0. rewrite Hd in Hb0. rewrite Hd'.
    pose proof (build_daily_lookup (focus_of sessions) d) as H.
    pose proof (build_daily_lookup (focus_of (sessions ++ more)) d) as H'.
    rewrite Hb0 in H. destruct H as (Hnil & -> & -> & _).
    rewrite focus_of_app in H' |- *. unfold on_day in H'. rewrite filter_app in H'.
    fold (on_day d (focus_of sessions)) in H'. fold (on_day d (focus_of more)) in H'.
    destruct (build_daily (focus_of sessions ++ focus_of more) !! d) as [b' |].
    + destruct H' as (_ & Hs' & Hc' & _). exists b'. split; [done |].
      rewrite Hs', Hc'. unfold completed_of.
      rewrite filter_app, !len_app. unfold len. lia.
    + by apply app_eq_nil in H' as [? _].
Qed.

Lemma appending_keeps_history_witness :
  ∃ r r', compute_stats january_log 738890 = Ok (Report r)
          ∧ compute_stats (january_log ++ gap_log) 738890 = Ok (Report r')
          ∧ best_streak r ≤ best_streak r'.
Proof.
  destruct (appending_keeps_history january_log gap_log 738890 738890)
    as (r & r' & Hr & Hr' & Hb & _); [done |].
  by exists r, r'.
Defined.

(** X6. After [log_session] has logged a completed focus session, the
    statistics of the log for the date of the logging show a current
    streak and a best streak of at least one day, and a bucket for that
    date with a completed session. *)
Theorem logged_focus_session_starts_streak w planned actual lbl :
  let today := dt_date (datetime_now (clock w)) in
  ∃ w' r,
    log_session Focus planned actual true lbl w = Done tt w'
    ∧ compute_stats (sessions_json w') today = Ok (Report r)
    ∧ 1 ≤ current_streak r
    ∧ 1 ≤ best_streak r
    ∧ ∃ b, daily r !! today = Some b ∧ 1 ≤ d_completed b.
Proof.
  intros today. unfold log_session. eexists _. cbn [sessions_json set_sessions].
  set (rec := {| type := token Focus; planned_minutes := planned;
                 actual_minutes := round2 actual; completed := true;
                 label := lbl; started_at := datetime_now (clock w) |}).
  assert (sessions_json w ++ [rec] ≠ []) as Hne by (by destruct (sessions_json w)).
  destruct (compute_stats_returns (sessions_json w ++ [rec]) today Hne)
    as (r & Hr & Hd & _ & Hc & Hb & _).
  exists r. split; [done |]. split; [done |].
  assert (streak_day (daily r) today) as Hday.
  { rewrite Hd. apply streak_day_active. unfold active_day.
    rewrite Exists_app. right. constructor. done. }
  destruct (current_streak_spec (daily r) today) as (Hc0 & _ & Hend).
  assert (1 ≤ current_streak r) as Hc1.
  { rewrite Hc. destruct (decide (current_streak_of (daily r) today = 0)) as [H0 | ?];
      [| lia].
    exfalso. apply Hend; [lia |]. by rewrite H0, Z.sub_0_r. }
  split; [done |]. split.
  - pose proof (current_le_best (daily r) today). rewrite Hc in Hc1. rewrite Hb. lia.
  - apply streak_day_bucket in Hday as (b & ? & ?). exists b. split; [done | lia].
Qed.

(** * Timer engine: further properties *)

Section rounding.

Lemma py_round_error (x : Q) :
  (x - (1 # 2) <= inject_Z (py_round x) <= x + (1 # 2))%Q.
Proof.
  unfold py_round. pose proof (Qfloor_le x) as Hlo. pose proof (Qlt_floor x) as Hhi.
  rewrite inject_Z_plus in Hhi. change (inject_Z 1) with 1%Q in Hhi.
  destruct (x - inject_Z (Qfloor x) ?= 1 # 2)%Q eqn:E.
  - apply Qeq_alt in E. destruct (Z.even (Qfloor x)).
    + lra.
    + rewrite inject_Z_plus. change (inject_Z 1) with 1%Q. lra.
  - apply Qlt_alt in E. lra.
  - apply Qgt_alt in E. rewrite inject_Z_plus. change (inject_Z 1) with 1%Q. lra.
Qed.

(** Rounding to two decimals moves a number by at most 0.005. *)
Lemma round2_error (x : Q) : (x - (1 # 200) <= round2 x <= x + (1 # 200))%Q.
Proof.
  unfold round2. pose proof (py_round_error (x * 100)) as H.
  assert (py_round (x * 100) # 100 == inject_Z (py_round (x * 100)) / 100)%Q as ->.
  { rewrite Qmake_Qdiv. reflexivity. }
  split.
  - apply Qle_shift_div_l; [reflexivity |]. lra.
  - apply Qle_shift_div_r; [reflexivity |]. lra.
Qed.

End rounding.

Section uninterrupted.

Lemma free_countdown_overshoot n : ∀ total_seconds start_time t,
  (t - start_time < total_seconds + 1)%Q →
  (free_countdown n total_seconds start_time t - start_time < total_seconds + 1)%Q.
Proof.
  induction n as [| n IH]; intros total start t Ht; cbn [free_countdown]; [done |].
  destruct (Qle_bool (total - (t - start)) 0) eqn:E; [done |].
  apply IH.
  assert (¬ (total - (t - start) <= 0)%Q) as Hpos
    by (rewrite <- Qle_bool_iff; congruence).
  lra.
Qed.

Lemma countdown_loop_quiet total_seconds start_time tk : ∀ t,
  quiet tk →
  (t - start_time < total_seconds + 1)%Q →
  ∃ t' tk',
    countdown_loop total_seconds start_time tk t = (false, t', tk')
    ∧ (total_seconds <= t' - start_time < total_seconds + 1)%Q
    ∧ quiet tk'.
Proof.
  induction tk as [| ev tk IH]; intros t Hq Ht; cbn [countdown_loop].
  - eexists _, _. split; [done |]. split; [| done]. split.
    + pose proof (free_countdown_expired
                    (Z.to_nat (Qceiling (total_seconds - (t - start_time))))
                    total_seconds start_time t ltac:(lia)). lra.
    + by apply free_countdown_overshoot.
  - destruct (Qle_bool (total_seconds - (t - start_time)) 0) eqn:E.
    + apply Qle_bool_iff in E. eexists _, _. split; [done |].
      split; [lra | done].
    + assert (¬ (total_seconds - (t - start_time) <= 0)%Q) as Hpos
        by (rewrite <- Qle_bool_iff; congruence).
      apply Forall_cons in Hq as [(d & -> & Hd) Hq].
      apply IH; [done | lra].
Qed.

(** A run whose countdown is not interrupted: the world it leaves. *)
Lemma run_timer_quiet session_type minutes lbl w :
  (0 <= minutes)%Q →
  quiet (ticks w) →
  ∃ w',
    run_timer session_type minutes lbl w = Done true w'
    ∧ sessions_json w'
      = sessions_json w ++
        [{| type := token session_type;
            planned_minutes := minutes;
            actual_minutes := round2 ((clock w' - clock w) / 60);
            completed := true;
            label := lbl;
            started_at := datetime_now (clock w') |}]
    ∧ (minutes * 60 <= clock w' - clock w < minutes * 60 + 1)%Q
    ∧ quiet (ticks w')
    ∧ stdin w' = tail (stdin w)
    ∧ config_json w' = config_json w
    ∧ cycle_trace w' = cycle_trace w.
Proof.
  intros Hmin Hq.
  destruct (countdown_loop_quiet (minutes * 60) (clock w) (ticks w) (clock w) Hq)
    as (t' & tk' & Hloop & Ht & Hq'); [lra |].
  unfold run_timer. cbn [run_timer_rec]. unfold bind, time_time, countdown, ret.
  rewrite Hloop. cbn [negb]. unfold log_session.
  rewrite input_prompt_eq. eexists. split; [reflexivity |]. cbn.
  split; [done |]. split; [done |]. split; [done |]. by destruct (stdin w).
Qed.

End uninterrupted.

(** X7. A run of [run_timer] without SIGINT, whose iterations take at
    most a second each, returns [True] and appends one completed record
    with the planned minutes; the countdown lasts at least the planned
    time and less than a second more, so the logged [actual_minutes] is
    within a second and a rounding step of [minutes]. *)
Theorem uninterrupted_run_completes session_type minutes lbl w :
  (0 <= minutes)%Q →
  quiet (ticks w) →
  ∃ w' r,
    run_timer session_type minutes lbl w = Done true w'
    ∧ sessions_json w' = sessions_json w ++ [r]
    ∧ type r = token session_type
    ∧ label r = lbl
    ∧ planned_minutes r = minutes
    ∧ completed r = true
    ∧ actual_minutes r = round2 ((clock w' - clock w) / 60)
    ∧ (minutes * 60 <= clock w' - clock w < minutes * 60 + 1)%Q
    ∧ (minutes - (1 # 200) <= actual_minutes r
       <= minutes + (1 # 60) + (1 # 200))%Q.
Proof.
  intros Hmin Hq.
  destruct (run_timer_quiet session_type minutes lbl w Hmin Hq)
    as (w' & Hrun & Hs & Ht & _).
  eexists w', _. split; [exact Hrun |]. split; [exact Hs |]. cbn.
  split; [done |]. split; [done |]. split; [done |]. split; [done |].
  split; [done |]. split; [done |].
  pose proof (round2_error ((clock w' - clock w) / 60)) as Hr.
  assert (minutes <= (clock w' - clock w) / 60)%Q
    by (apply Qle_shift_div_l; [reflexivity | lra]).
  assert ((clock w' - clock w) / 60 <= minutes + (1 # 60))%Q
    by (apply Qle_shift_div_r; [reflexivity | lra]).
  set (x := ((clock w' - clock w) / 60)%Q) in *. lra.
Qed.

Lemma uninterrupted_run_completes_witness :
  ∃ w' r, run_timer Focus 25 "thesis" (sample_world [] []) = Done true w'
          ∧ sessions_json w' = [r]
          ∧ completed r = true.
Proof.
  destruct (uninterrupted_run_completes Focus 25 "thesis" (sample_world [] []))
    as (w' & r & Hrun & Hs & _ & _ & _ & Hc & _).
  - done.
  - constructor.
  - by exists w', r.
Defined.


Section menu.

(** The result of [run_timer_rec] does not depend on the fuel, once
    there is more of it than scheduled events. *)
Lemma run_timer_rec_fuel fuel : ∀ fuel' session_type minutes lbl w,
  (length (ticks w) < fuel)%nat →
  (length (ticks w) < fuel')%nat →
  run_timer_rec fuel session_type minutes lbl w
  = run_timer_rec fuel' session_type minutes lbl w.
Proof.
  induction fuel as [| fuel IH]; intros fuel' session_type minutes lbl w H1 H2;
    [lia |].
  destruct fuel' as [| fuel']; [lia |].
  pose proof (countdown_loop_exit (minutes * 60) (clock w) (ticks w) (clock w)) as Hexit.
  cbn [run_timer_rec]. unfold bind, time_time, countdown, ret.
  destruct (countdown_loop _ _ _ _) as [[interrupted t] tk].
  destruct interrupted; cbn [negb]; [| done].
  rewrite input_prompt_eq.
  destruct (String.eqb _ "1"); [done |].
  destruct (String.eqb _ "2"); [| done].
  apply IH; cbn; lia.
Qed.

End menu.

(** X9. Restart: when the countdown of [run_timer] is interrupted and the
    menu is answered "2", nothing is logged for the interrupted attempt
    and the call goes on like a new call of [run_timer] with the same
    planned minutes, from the time of the answer. *)
Theorem restart_discards_attempt session_type minutes lbl w t1 rest :
  countdown_loop (minutes * 60) (clock w) (ticks w) (clock w) = (true, t1, rest) →
  strip (hd EmptyString (stdin w)) = "2"%string →
  let w2 := set_stdin (tail (stdin w)) (set_clock_ticks t1 rest w) in
  run_timer session_type minutes lbl w = run_timer session_type minutes lbl w2
  ∧ sessions_json w2 = sessions_json w
  ∧ clock w2 = t1.
Proof.
  intros Hloop Hline w2. split; [| done].
  pose proof (countdown_loop_exit (minutes * 60) (clock w) (ticks w) (clock w)) as Hexit.
  rewrite Hloop in Hexit.
  unfold run_timer at 1. cbn [run_timer_rec]. unfold bind, time_time, countdown, ret.
  rewrite Hloop. cbn [negb]. rewrite input_prompt_eq.
  cbn [stdin set_clock_ticks]. rewrite Hline. cbn [String.eqb Ascii.eqb Bool.eqb].
  fold w2. unfold run_timer. apply run_timer_rec_fuel; subst w2; cbn; lia.
Qed.

Lemma restart_discards_attempt_witness :
  run_timer Focus 1 EmptyString (sample_world [Sleep 1; CtrlC (1 # 2)] ["2"; "3"]%string)
  = run_timer Focus 1 EmptyString
      (set_stdin ["3"%string]
         (set_clock_ticks (3408199203 # 2) []
            (sample_world [Sleep 1; CtrlC (1 # 2)] ["2"; "3"]%string))).
Proof.
  destruct (restart_discards_attempt Focus 1 EmptyString
              (sample_world [Sleep 1; CtrlC (1 # 2)] ["2"; "3"]%string)
              (3408199203 # 2) []) as [Hrun _].
  - vm_compute. reflexivity.
  - reflexivity.
  - exact Hrun.
Defined.

(** X10. Abandon: when the countdown of [run_timer] is interrupted and
    the menu is answered with anything but "1" or "2" (also by the end of
    input), the call returns [False] and appends one record with the
    planned minutes, the time elapsed up to the interruption and
    [completed = False]. *)
Theorem abandon_saves_partial_session session_type minutes lbl w t1 rest :
  countdown_loop (minutes * 60) (clock w) (ticks w) (clock w) = (true, t1, rest) →
  strip (hd EmptyString (stdin w)) ≠ "1"%string →
  strip (hd EmptyString (stdin w)) ≠ "2"%string →
  ∃ w',
    run_timer session_type minutes lbl w = Done false w'
    ∧ sessions_json w'
      = sessions_json w ++
        [{| type := token session_type;
            planned_minutes := minutes;
            actual_minutes := round2 ((t1 - clock w) / 60);
            completed := false;
            label := lbl;
            started_at := datetime_now t1 |}]
    ∧ ticks w' = rest
    ∧ stdin w' = tail (tail (stdin w)).
Proof.
  intros Hloop H1 H2.
  unfold run_timer. cbn [run_timer_rec]. unfold bind, time_time, countdown, ret.
  rewrite Hloop. cbn [negb]. rewrite input_prompt_eq.
  cbn [stdin set_clock_ticks].
  apply String.eqb_neq in H1, H2. rewrite H1, H2.
  unfold log_session. rewrite input_prompt_eq. eexists. split; [reflexivity |].
  by cbn.
Qed.

Lemma abandon_saves_partial_session_witness :
  ∃ w' r, run_timer Focus 1 EmptyString
            (sample_world [Sleep 1; CtrlC (1 # 2)] ["3"]%string) = Done false w'
          ∧ sessions_json w' = [r]
          ∧ completed r = false
          ∧ (planned_minutes r == 1)%Q.
Proof.
  destruct (abandon_saves_partial_session Focus 1 EmptyString
              (sample_world [Sleep 1; CtrlC (1 # 2)] ["3"]%string)
              (3408199203 # 2) []) as (w' & Hrun & Hs & _).
  - vm_compute. reflexivity.
  - vm_compute. congruence.
  - vm_compute. congruence.
  - eexists w', _. split; [exact Hrun |]. split; [exact Hs |]. by split.
Defined.

Section frames.

Lemma py_trunc_range (x : Q) (n : Z) :
  (0 <= x < inject_Z n)%Q → 0 ≤ py_trunc x < n.
Proof.
  intros [H0 Hn]. unfold py_trunc.
  destruct (Qle_bool 0 x) eqn:E; [| apply Qle_bool_iff in H0; congruence].
  pose proof (Qfloor_le x). pose proof (Qlt_floor x) as Hlt.
  split.
  - apply (Qfloor_resp_le 0 x) in H0. exact H0.
  - rewrite Zlt_Qlt. lra.
Qed.

End frames.

(** X11. While the countdown runs and the clock has not gone backwards
    ([0 <= elapsed < total_seconds]), the frame is computed without a
    division by zero, the progress bar has exactly 40 cells of which at
    most 39 are full, the percentage is between 0 and 99, and minutes and
    seconds shown are those of the whole seconds remaining. *)
Theorem progress_bar_is_forty_cells total_seconds elapsed :
  (0 <= elapsed)%Q →
  (elapsed < total_seconds)%Q →
  ∃ f, render_frame total_seconds elapsed = Ok f
       ∧ length (fr_pulse f) = 40%nat
       ∧ 0 ≤ fr_filled f ≤ 39
       ∧ fr_filled f + fr_empty f = 40
       ∧ 0 ≤ fr_percent f ≤ 99
       ∧ 0 ≤ fr_secs f < 60
       ∧ 0 ≤ fr_mins f
       ∧ fr_mins f * 60 + fr_secs f = Qfloor (total_seconds - elapsed).
Proof.
  intros H0 Hlt. unfold render_frame, py_truediv.
  destruct (Qeq_bool total_seconds 0) eqn:E.
  { apply Qeq_bool_iff in E. lra. }
  cbn [rbind]. eexists. split; [reflexivity |].
  cbn [fr_pulse fr_filled fr_empty fr_percent fr_secs fr_mins].
  set (remaining := (total_seconds - elapsed)%Q).
  assert (0 < remaining)%Q as Hrem by (unfold remaining; lra).
  assert (0 < total_seconds)%Q as Htot by lra.
  assert (0 < remaining / total_seconds <= 1)%Q as [Hq0 Hq1].
  { split.
    - by apply Qlt_shift_div_l; [| lra].
    - apply Qle_shift_div_r; [done |]. unfold remaining. lra. }
  set (ratio := (remaining / total_seconds)%Q) in *.
  assert (0 ≤ py_trunc (inject_Z 40 * (1 - ratio)) < 40) as Hf
    by (apply (py_trunc_range _ 40); change (inject_Z 40) with 40%Q; lra).
  assert (0 ≤ py_trunc ((1 - ratio) * 100) < 100) as Hp
    by (apply (py_trunc_range _ 100); change (inject_Z 100) with 100%Q; lra).
  assert (py_trunc remaining = Qfloor remaining ∧ 0 ≤ Qfloor remaining) as [Ht Hfl].
  { unfold py_trunc. destruct (Qle_bool 0 remaining) eqn:E0.
    - split; [done |]. assert (0 <= remaining)%Q as Hle by lra.
      apply (Qfloor_resp_le 0 remaining) in Hle. exact Hle.
    - assert (0 <= remaining)%Q as Hle by lra.
      apply Qle_bool_iff in Hle. congruence. }
  unfold repeat_cell. rewrite length_app, !length_replicate.
  split; [lia |]. split; [lia |]. split; [lia |]. split; [lia |].
  rewrite Ht. pose proof (Z.mod_pos_bound (Qfloor remaining) 60 ltac:(lia)).
  pose proof (Z.div_pos (Qfloor remaining) 60 Hfl ltac:(lia)).
  pose proof (Z.div_mod (Qfloor remaining) 60 ltac:(lia)).
  split; [lia |]. split; [lia |]. lia.
Qed.

Lemma progress_bar_is_forty_cells_witness :
  ∃ f, render_frame 1500 750 = Ok f
       ∧ length (fr_pulse f) = 40%nat ∧ fr_filled f = 20 ∧ fr_percent f = 50
       ∧ fr_mins f = 12 ∧ fr_secs f = 30.
Proof.
  destruct (progress_bar_is_forty_cells 1500 750) as (f & Hf & Hlen & _);
    [done | done |].
  exists f. split; [exact Hf |]. split; [exact Hlen |].
  vm_compute in Hf. injection Hf as <-. by repeat split.
Defined.

(** * Data layer and configuration screen: further properties *)

Section config.

Lemma default_keys_present (c : gmap string Z) key :
  key ∈ CONFIG_KEYS → is_Some ((c ∪ DEFAULT_CONFIG) !! key).
Proof.
  intros Hkey. apply lookup_union_is_Some. right.
  unfold CONFIG_KEYS in Hkey. rewrite !elem_of_cons in Hkey.
  destruct Hkey as [-> | [-> | [-> | [-> | [-> | Hnil]]]]];
    [by eexists.. | by apply elem_of_nil in Hnil].
Qed.

End config.

(** X12. [load_config] never lacks one of the five numeric settings: a
    persisted value wins and a missing one is the default.  Saving what
    was loaded and loading again returns the same configuration. *)
Theorem config_defaults_and_round_trip w key :
  key ∈ CONFIG_KEYS →
  is_Some (config_of w !! key)
  ∧ (∀ persisted v, config_json w = Some persisted → persisted !! key = Some v →
       config_get (config_of w) key = v)
  ∧ (∀ persisted, config_json w = Some persisted → persisted !! key = None →
       config_get (config_of w) key = config_get DEFAULT_CONFIG key)
  ∧ (config_json w = None → config_of w = DEFAULT_CONFIG)
  ∧ (save_config (config_of w);;; load_config) w
    = Done (config_of w) (set_config (config_of w) w).
Proof.
  intros Hkey. unfold config_of, config_get.
  split; [| split; [| split; [| split]]].
  - destruct (config_json w); [by apply default_keys_present |].
    rewrite <- (map_empty_union DEFAULT_CONFIG). by apply default_keys_present.
  - intros persisted v -> Hv. rewrite lookup_total_alt.
    by rewrite (lookup_union_Some_l _ _ _ _ Hv).
  - intros persisted -> Hnone. rewrite !lookup_total_alt.
    by rewrite lookup_union_r.
  - by intros ->.
  - unfold bind, save_config, load_config. cbn. do 2 f_equal.
    unfold config_of. cbn. destruct (config_json w) as [persisted |].
    + by rewrite <- (assoc_L (∪)), (idemp_L (∪)).
    + apply (idemp_L (∪)).
Qed.

Lemma config_defaults_and_round_trip_witness :
  config_get (config_of cycle_world) "sessions_before_long_break" = 2
  ∧ config_get (config_of cycle_world) "long_break_minutes" = 20.
Proof.
  destruct (config_defaults_and_round_trip cycle_world "sessions_before_long_break")
    as (_ & Hwin & _); [repeat constructor |].
  destruct (config_defaults_and_round_trip cycle_world "long_break_minutes")
    as (_ & _ & Hdef & _); [repeat constructor |].
  split.
  - by eapply Hwin.
  - by erewrite Hdef.
Defined.

(** * Pomodoro cycle: further properties *)

Section cycle_log.

Lemma log_grows_refl w : log_grows w w.
Proof. exists []. by rewrite app_nil_r. Qed.

Lemma log_grows_trans w1 w2 w3 :
  log_grows w1 w2 → log_grows w2 w3 → log_grows w1 w3.
Proof.
  intros (r1 & Hs1 & Hc1 & H1) (r2 & Hs2 & Hc2 & H2). exists (r1 ++ r2).
  rewrite Hs2, Hs1, app_assoc, Hc2, Hc1. split; [done |]. split; [done |].
  by apply Forall_app.
Qed.

Lemma log_grows_prompt w :
  ∃ choice w', input_prompt w = Done choice w' ∧ log_grows w w'.
Proof.
  rewrite input_prompt_eq. eexists _, _. split; [done |].
  exists []. by rewrite app_nil_r.
Qed.

Lemma log_grows_timer session_type minutes lbl w :
  session_type = Focus ∨ lbl = EmptyString →
  ∃ b w', run_timer session_type minutes lbl w = Done b w' ∧ log_grows w w'.
Proof.
  intros Hk.
  destruct (run_timer_returns session_type minutes lbl w)
    as (b & w' & recs & Hrun & (Hs & Hc & _) & _ & _ & Hall & _).
  exists b, w'. split; [done |]. exists recs. split; [done |]. split; [done |].
  eapply Forall_impl; [exact Hall |]. intros r (Ht & Hl & _). unfold cycle_record.
  rewrite Ht, Hl. destruct Hk as [-> | ->]; [by left |].
  destruct session_type; cbn; auto.
Qed.

Lemma log_grows_break (wanted : bool) session_type minutes w :
  ∃ r w', (if wanted then run_timer session_type minutes EmptyString else ret false) w
          = Done r w'
          ∧ log_grows w w'.
Proof.
  destruct wanted.
  - apply log_grows_timer. by right.
  - exists false, w. split; [done |]. apply log_grows_refl.
Qed.

Lemma cycle_loop_log fuel : ∀ config count w,
  match cycle_loop fuel config count w with
  | Done _ w' | Crash _ w' => log_grows w w'
  | OutOfFuel => True
  end.
Proof.
  induction fuel as [| fuel IH]; intros config count w; [done |].
  cbn [cycle_loop]. unfold bind at 1, lift.
  destruct (long_break_due count _) as [[] | e].
  - unfold bind at 1, observe. set (w1 := set_cycle_trace _ w).
    destruct (log_grows_prompt w1) as (choice & w2 & Hp & G2).
    rewrite (bind_Done _ _ _ _ _ Hp).
    destruct (log_grows_break (answered choice ["y"%string]) LongBreak
                (inject_Z (config_get config "long_break_minutes")) w2)
      as (r & w3 & Hb & G3).
    rewrite (bind_Done _ _ _ _ _ Hb).
    specialize (IH config 0 w3).
    assert (log_grows w w3) as G
      by (eapply log_grows_trans; [| exact G3];
          eapply log_grows_trans; [| exact G2];
          exists []; by rewrite app_nil_r).
    destruct (cycle_loop fuel config 0 w3); [| | done];
      by eapply log_grows_trans.
  - destruct (log_grows_prompt w) as (lbl & w1 & Hp & G1).
    rewrite (bind_Done _ _ _ _ _ Hp).
    destruct (log_grows_timer Focus (inject_Z (config_get config "focus_minutes")) lbl w1)
      as (finished & w2 & Hrun & G2); [by left |].
    rewrite (bind_Done _ _ _ _ _ Hrun).
    unfold bind at 1, observe. set (w3 := set_cycle_trace _ w2).
    assert (log_grows w w3) as G3
      by (eapply log_grows_trans; [exact G1 |];
          eapply log_grows_trans; [exact G2 |];
          exists []; by rewrite app_nil_r).
    destruct finished.
    + destruct (log_grows_prompt w3) as (c1 & w4 & Hp4 & G4).
      rewrite (bind_Done _ _ _ _ _ Hp4).
      destruct (log_grows_break (answered c1 ["y"%string]) ShortBreak
                  (inject_Z (config_get config "short_break_minutes")) w4)
        as (r & w5 & Hb & G5).
      rewrite (bind_Done _ _ _ _ _ Hb).
      destruct (log_grows_prompt w5) as (c2 & w6 & Hp6 & G6).
      rewrite (bind_Done _ _ _ _ _ Hp6).
      assert (log_grows w w6) as G
        by (eapply log_grows_trans; [exact G3 |];
            eapply log_grows_trans; [exact G4 |];
            eapply log_grows_trans; [exact G5 | exact G6]).
      destruct (answered c2 _); [exact G |].
      specialize (IH config (count + 1) w6).
      destruct (cycle_loop fuel config (count + 1) w6); [| | done];
        by eapply log_grows_trans.
    + destruct (log_grows_prompt w3) as (c1 & w4 & Hp4 & G4).
      rewrite (bind_Done _ _ _ _ _ Hp4).
      assert (log_grows w w4) as G by (by eapply log_grows_trans).
      destruct (answered c1 _); cbn [negb]; [| exact G].
      specialize (IH config count w4).
      destruct (cycle_loop fuel config count w4); [| | done];
        by eapply log_grows_trans.
  - apply log_grows_refl.
Qed.

End cycle_log.

(** X13. A run of the Pomodoro cycle, however it ends, never rewrites the
    configuration file and only appends to the session log; every record
    it appends is a focus session or a short or long break without a
    label. *)
Theorem pomodoro_cycle_only_appends w :
  ∃ w' recs,
    (run_pomodoro_cycle w = Done tt w'
     ∨ run_pomodoro_cycle w = Crash ZeroDivisionError w')
    ∧ sessions_json w' = sessions_json w ++ recs
    ∧ config_json w' = config_json w
    ∧ Forall cycle_record recs.
Proof.
  pose proof (run_pomodoro_cycle_returns w) as Hpost.
  pose proof (cycle_loop_log (length (stdin w) + 2) (config_of w) 0 w) as Hlog.
  change (cycle_loop _ _ _ w) with (run_pomodoro_cycle w) in Hlog.
  destruct (run_pomodoro_cycle w) as [[] w' | e w' |]; cbn in Hpost; [| | done].
  - destruct Hlog as (recs & ?). exists w', recs. split; [by left | done].
  - destruct Hpost as (-> & _). destruct Hlog as (recs & ?).
    exists w', recs. split; [by right | done].
Qed.



(** * Configuration screen *)

Section config_screen.

Lemma config_loop_post fuel : ∀ config w,
  (length (stdin w) < fuel)%nat →
  ∃ w', config_loop fuel config w = Done tt w'
        ∧ sessions_json w' = sessions_json w
        ∧ clock w' = clock w
        ∧ ticks w' = ticks w
        ∧ (length (stdin w') ≤ length (stdin w))%nat
        ∧ (config_json w' = config_json w
           ∨ ∃ c, config_json w' = Some c
                  ∧ ∀ key, is_Some (config !! key) → is_Some (c !! key)).
Proof.
  induction fuel as [| fuel IH]; intros config w Hfuel; [lia |].
  cbn [config_loop]. rewrite (bind_Done _ _ _ _ _ (input_prompt_eq w)).
  set (w1 := set_stdin (tail (stdin w)) w).
  destruct (String.eqb_spec (strip (hd EmptyString (stdin w))) "0") as [E0 | E0].
  { exists w1. cbn. repeat split; auto. apply length_tail_le. }
  destruct (String.eqb_spec (strip (hd EmptyString (stdin w))) EmptyString) as [E | E].
  { exists w1. cbn. repeat split; auto. apply length_tail_le. }
  cbn [orb].
  assert (length (stdin w1) < fuel)%nat as Hfuel1.
  { subst w1. cbn. destruct (stdin w) as [| line rest]; [done |]. cbn in *. lia. }
  assert (length (stdin w1) ≤ length (stdin w))%nat as Hlen1
    by (subst w1; cbn; apply length_tail_le).
  assert (∀ config' w2,
            sessions_json w2 = sessions_json w → clock w2 = clock w →
            ticks w2 = ticks w →
            (length (stdin w2) ≤ length (stdin w1))%nat →
            (config_json w2 = config_json w
             ∨ ∃ c, config_json w2 = Some c
                    ∧ ∀ key, is_Some (config !! key) → is_Some (c !! key)) →
            (∀ key, is_Some (config !! key) → is_Some (config' !! key)) →
            ∃ w', config_loop fuel config' w2 = Done tt w'
                  ∧ sessions_json w' = sessions_json w
                  ∧ clock w' = clock w
                  ∧ ticks w' = ticks w
                  ∧ (length (stdin w') ≤ length (stdin w))%nat
                  ∧ (config_json w' = config_json w
                     ∨ ∃ c, config_json w' = Some c
                            ∧ ∀ key, is_Some (config !! key) → is_Some (c !! key)))
    as Hnext.
  { intros config' w2 Hs Hc Ht Hl Hcfg Hkeys.
    destruct (IH config' w2) as (w' & Hrun & Hs' & Hc' & Ht' & Hl' & Hcfg'); [lia |].
    exists w'. split; [done |]. rewrite Hs', Hc', Ht'.
    split; [done |]. split; [done |]. split; [done |]. split; [lia |].
    destruct Hcfg' as [-> | (c & -> & Hk)]; [done |].
    right. exists c. split; [done |]. intros key Hkey. by apply Hk, Hkeys. }
  assert (∀ key v key', is_Some (config !! key') →
            is_Some (<[key := v]> config !! key')) as Hins.
  { intros key v key' Hsome. destruct (decide (key = key')) as [-> | Hne].
    - by rewrite lookup_insert_eq.
    - by rewrite lookup_insert_ne. }
  destruct (String.eqb_spec (strip (hd EmptyString (stdin w))) "6") as [E6 | E6].
  { unfold bind at 1, save_config. apply Hnext; try done.
    - right. eexists. split; [done |]. apply Hins.
    - apply Hins. }
  destruct (py_int (strip (hd EmptyString (stdin w)))) as [n | e] eqn:Hn.
  2:{ apply py_int_raises_ValueError in Hn as ->. by apply Hnext; auto. }
  destruct ((0 <=? n - 1) && (n - 1 <? len CONFIG_KEYS)); [| by apply Hnext; auto].
  destruct (CONFIG_KEYS !! Z.to_nat (n - 1)) as [key |]; [| by apply Hnext; auto].
  rewrite (bind_Done _ _ _ _ _ (input_prompt_eq w1)).
  set (w2 := set_stdin (tail (stdin w1)) w1).
  assert (length (stdin w2) ≤ length (stdin w1))%nat as Hlen2
    by (subst w2; cbn; apply length_tail_le).
  destruct (py_int (strip (hd EmptyString (stdin w1)))) as [v | e] eqn:Hv.
  2:{ apply py_int_raises_ValueError in Hv as ->. by apply Hnext; auto. }
  unfold bind at 1, save_config. apply Hnext; try done.
  - right. eexists. split; [done |]. apply Hins.
  - apply Hins.
Qed.

End config_screen.

(** X15. The configuration screen returns on every input: a choice or a
    value that is not a number is ignored, not raised.  It leaves the
    session log alone, and the configuration file is either untouched or
    rewritten with every setting that was loaded still present. *)
Theorem config_screen_returns w :
  ∃ w', screen_config w = Done tt w'
        ∧ sessions_json w' = sessions_json w
        ∧ (config_json w' = config_json w
           ∨ ∃ c, config_json w' = Some c
                  ∧ ∀ key, is_Some (config_of w !! key) → is_Some (c !! key)).
Proof.
  unfold screen_config, bind, load_config.
  destruct (config_loop_post (S (length (stdin w))) (config_of w) w)
    as (w' & Hrun & Hs & Hc & _ & _ & Hcfg); [lia |].
  by exists w'.
Qed.

Section config_edit.

Lemma numbered_choice choice n :
  py_int choice = Ok n → 1 ≤ n ≤ 5 →
  String.eqb choice "0" || String.eqb choice EmptyString = false
  ∧ String.eqb choice "6" = false.
Proof.
  intros Hn Hrange. split.
  - apply orb_false_iff. split; apply String.eqb_neq; intros ->;
      vm_compute in Hn; [injection Hn as <-; lia | done].
  - apply String.eqb_neq. intros ->. vm_compute in Hn. injection Hn as <-. lia.
Qed.

Lemma numbered_key n :
  1 ≤ n ≤ 5 →
  (0 <=? n - 1) && (n - 1 <? len CONFIG_KEYS) = true
  ∧ ∃ key, CONFIG_KEYS !! Z.to_nat (n - 1) = Some key.
Proof.
  intros Hrange. split.
  - change (len CONFIG_KEYS) with 5.
    apply andb_true_iff. split; [apply Z.leb_le | apply Z.ltb_lt]; lia.
  - apply lookup_lt_is_Some. change (length CONFIG_KEYS) with 5%nat. lia.
Qed.

End config_edit.

(** X16. Editing a setting: the choice [n] of 1 to 5 followed by any
    integer [v], then "0" or an empty line, writes the loaded
    configuration with the [n]-th setting replaced by [v].  The value is
    not checked: zero and negative numbers are saved like any other. *)
Theorem config_edit_saves_any_integer w choice val stop rest n v key :
  stdin w = choice :: val :: stop :: rest →
  py_int (strip choice) = Ok n →
  1 ≤ n ≤ 5 →
  CONFIG_KEYS !! Z.to_nat (n - 1) = Some key →
  py_int (strip val) = Ok v →
  strip stop = "0"%string ∨ strip stop = EmptyString →
  ∃ w', screen_config w = Done tt w'
        ∧ config_json w' = Some (<[key := v]> (config_of w))
        ∧ config_get (config_of w') key = v
        ∧ (∀ other, other ≠ key →
             config_of w' !! other = config_of w !! other)
        ∧ stdin w' = rest.
Proof.
  intros Hin Hn Hrange Hkey Hv Hstop.
  destruct (numbered_choice _ _ Hn Hrange) as [Hc0 Hc6].
  destruct (numbered_key n Hrange) as [Hidx _].
  unfold screen_config, bind at 1, load_config. rewrite Hin.
  cbn [length config_loop].
  rewrite (bind_Done _ _ _ _ _ (input_prompt_eq w)). rewrite Hin. cbn [hd tail].
  rewrite Hc0, Hc6, Hn, Hidx, Hkey.
  set (w1 := set_stdin _ w).
  rewrite (bind_Done _ _ _ _ _ (input_prompt_eq w1)).
  subst w1. cbn [stdin set_stdin hd tail]. rewrite Hv.
  unfold bind at 1, save_config.
  match goal with |- context [bind input_prompt _ ?w0] =>
    rewrite (bind_Done _ _ _ _ _ (input_prompt_eq w0)) end.
  cbn [stdin set_stdin set_config hd tail].
  assert (String.eqb (strip stop) "0" || String.eqb (strip stop) EmptyString = true)
    as -> by (destruct Hstop as [-> | ->]; reflexivity).
  eexists. split; [reflexivity |]. cbn.
  assert (∀ k, (<[key := v]> (config_of w) ∪ DEFAULT_CONFIG) !! k
               = <[key := v]> (config_of w) !! k) as Hsame.
  { intros k. destruct (decide (key = k)) as [<- | Hne].
    - rewrite (lookup_union_Some_l _ _ _ v); by rewrite lookup_insert_eq.
    - rewrite lookup_insert_ne by done. unfold config_of.
      destruct (config_json w) as [persisted |].
      + rewrite insert_union_l, <- (assoc_L (∪)), (idemp_L (∪)).
        rewrite <- insert_union_l. by rewrite lookup_insert_ne.
      + rewrite lookup_union. rewrite lookup_insert_ne by done.
        by destruct (DEFAULT_CONFIG !! k). }
  split; [done |]. split; [| split; [| done]].
  - unfold config_get, config_of. cbn. rewrite lookup_total_alt, Hsame.
    by rewrite lookup_insert_eq.
  - intros other Hne. unfold config_of at 1. cbn. rewrite Hsame.
    by rewrite lookup_insert_ne.
Qed.

Lemma config_edit_saves_any_integer_witness :
  ∃ w', screen_config (sample_world [] ["4"; " 0 "; "0"; "y"]%string) = Done tt w'
        ∧ config_get (config_of w') "sessions_before_long_break" = 0
        ∧ stdin w' = ["y"%string].
Proof.
  destruct (config_edit_saves_any_integer
              (sample_world [] ["4"; " 0 "; "0"; "y"]%string)
              "4" " 0 " "0" ["y"%string] 4 0 "sessions_before_long_break")
    as (w' & Hrun & _ & Hget & _ & Hin).
  - reflexivity.
  - reflexivity.
  - lia.
  - reflexivity.
  - reflexivity.
  - by left.
  - by exists w'.
Defined.

(** X17. A value that is not an integer changes nothing: after the
    choice of a setting, an answer that [int] rejects leaves the
    configuration file as it was, and the screen asks again. *)
Theorem config_invalid_value_ignored w choice val stop rest n :
  stdin w = choice :: val :: stop :: rest →
  py_int (strip choice) = Ok n →
  1 ≤ n ≤ 5 →
  py_int (strip val) = Raise ValueError →
  strip stop = "0"%string ∨ strip stop = EmptyString →
  screen_config w = Done tt (set_stdin rest w).
Proof.
  intros Hin Hn Hrange Hv Hstop.
  destruct (numbered_choice _ _ Hn Hrange) as [Hc0 Hc6].
  destruct (numbered_key n Hrange) as [Hidx [key Hkey]].
  unfold screen_config, bind at 1, load_config. rewrite Hin.
  cbn [length config_loop].
  rewrite (bind_Done _ _ _ _ _ (input_prompt_eq w)). rewrite Hin. cbn [hd tail].
  rewrite Hc0, Hc6, Hn, Hidx, Hkey.
  set (w1 := set_stdin _ w).
  rewrite (bind_Done _ _ _ _ _ (input_prompt_eq w1)).
  subst w1. cbn [stdin set_stdin hd tail]. rewrite Hv.
  match goal with |- context [bind input_prompt _ ?w0] =>
    rewrite (bind_Done _ _ _ _ _ (input_prompt_eq w0)) end.
  cbn [stdin set_stdin hd tail].
  assert (String.eqb (strip stop) "0" || String.eqb (strip stop) EmptyString = true)
    as -> by (destruct Hstop as [-> | ->]; reflexivity).
  reflexivity.
Qed.

Lemma config_invalid_value_ignored_witness :
  screen_config (sample_world [] ["1"; "twenty"; EmptyString; "y"]%string)
  = Done tt (set_stdin ["y"%string]
               (sample_world [] ["1"; "twenty"; EmptyString; "y"]%string)).
Proof.
  apply (config_invalid_value_ignored _ "1" "twenty" EmptyString ["y"%string] 1).
  - reflexivity.
  - reflexivity.
  - lia.
  - reflexivity.
  - by right.
Defined.

(** * ASCII charts *)

Section heatmap.

Lemma Qlt_bool_iff a b : Qlt_bool a b = true ↔ (a < b)%Q.
Proof.
  unfold Qlt_bool. rewrite negb_true_iff. split.
  - intros E. apply Qnot_le_lt. intros Hle. apply Qle_bool_iff in Hle. congruence.
  - intros Hlt. destruct (Qle_bool b a) eqn:E; [| done].
    apply Qle_bool_iff in E. lra.
Qed.

Lemma Qlt_bool_false a b : Qlt_bool a b = false ↔ (b <= a)%Q.
Proof.
  unfold Qlt_bool. rewrite negb_false_iff. apply Qle_bool_iff.
Qed.

Lemma py_trunc_floor x : (0 <= x)%Q → py_trunc x = Qfloor x.
Proof.
  intros H0. unfold py_trunc. apply Qle_bool_iff in H0. by rewrite H0.
Qed.

Lemma py_trunc_nonpos x : (x <= 0)%Q → py_trunc x ≤ 0.
Proof.
  intros H0. unfold py_trunc. destruct (Qle_bool 0 x) eqn:E.
  - apply Qle_bool_iff in E. apply (Qfloor_resp_le x 0). lra.
  - apply (Qceiling_resp_le x 0) in H0. exact H0.
Qed.

Lemma shaded_cells (full : Z) :
  full ≤ 20 →
  let block := repeat_cell FullBlock full in
  block ++ repeat_cell LightShade (20 - len block)
  = repeat_cell FullBlock (Z.max 0 full) ++ repeat_cell LightShade (20 - Z.max 0 full).
Proof.
  intros Hfull block. subst block. unfold repeat_cell, len.
  rewrite length_replicate. do 2 f_equal; lia.
Qed.

End heatmap.

Section heatmap_cells.

Lemma floor_below x (n : Z) : (0 <= x < inject_Z n)%Q → 0 ≤ Qfloor x < n.
Proof.
  intros [H0 Hn]. pose proof (Qfloor_le x). split.
  - apply (Qfloor_resp_le 0 x) in H0. exact H0.
  - rewrite Zlt_Qlt. lra.
Qed.

Lemma heat_block_band minutes :
  let intensity := py_min (minutes / 120) 1 in
  (intensity == (if Qlt_bool 1 (minutes / 120) then 1 else minutes / 120))%Q
  ∧ ((minutes < 120)%Q → (intensity == minutes / 120)%Q)
  ∧ ((120 <= minutes)%Q → (intensity == 1)%Q).
Proof.
  intros intensity. subst intensity. unfold py_min.
  assert (minutes / 120 * 120 == minutes)%Q as Hm by field.
  destruct (Qlt_bool 1 (minutes / 120)) eqn:E.
  - apply Qlt_bool_iff in E. split; [done |]. split; [intros; lra | done].
  - apply Qlt_bool_false in E. split; [done |]. split; [done | intros; lra].
Qed.

Lemma heat_block_form minutes :
  ∃ k, (heat_block minutes).2
       = repeat_cell FullBlock k ++ repeat_cell LightShade (20 - k)
       ∧ 0 ≤ k ≤ 20
       ∧ length (heat_block minutes).2 = 20%nat
       ∧ ((minutes <= 0)%Q → k = 0)
       ∧ ((0 < minutes < 30)%Q → k = Qfloor (minutes * (2 # 3)))
       ∧ ((30 <= minutes < 60)%Q → k = Qfloor (minutes * (1 # 3)))
       ∧ ((60 <= minutes < 90)%Q → k = Qfloor (minutes * (2 # 9)))
       ∧ ((90 <= minutes)%Q → k = 20).
Proof.
  assert (∀ k, 0 ≤ k ≤ 20 →
            length (repeat_cell FullBlock k ++ repeat_cell LightShade (20 - k)) = 20%nat)
    as Hlen.
  { intros k Hk. unfold repeat_cell. rewrite length_app, !length_replicate. lia. }
  destruct (heat_block_band minutes) as (_ & Hlow & Hhigh).
  unfold heat_block. set (intensity := py_min (minutes / 120) 1) in *.
  assert (minutes / 120 * 120 == minutes)%Q as Hm by field.
  destruct (Qeq_bool minutes 0) eqn:E0.
  { apply Qeq_bool_iff in E0. exists 0. cbn [snd].
    split; [done |]. split; [lia |]. split; [done |].
    repeat split; intros; try done; lra. }
  apply Qeq_bool_neq in E0.
  destruct (Qlt_bool intensity (1 # 4)) eqn:E1.
  { apply Qlt_bool_iff in E1.
    assert (minutes < 30)%Q as H30.
    { destruct (Qlt_le_dec minutes 120) as [Hl | Hl]; [| specialize (Hhigh Hl); lra].
      specialize (Hlow Hl). lra. }
    assert (intensity == minutes / 120)%Q as Hi by (apply Hlow; lra).
    assert (intensity * 20 / (1 # 4) == minutes * (2 # 3))%Q as Hv
      by (rewrite Hi; field).
    set (full := py_trunc (intensity * 20 / (1 # 4))).
    assert (full ≤ 19 ∧ ((0 < minutes)%Q → full = Qfloor (minutes * (2 # 3)) ∧ 0 ≤ full)
            ∧ ((minutes <= 0)%Q → full ≤ 0)) as (Hf & Hpos & Hneg).
    { subst full. destruct (Qlt_le_dec 0 minutes) as [Hp | Hn].
      - rewrite py_trunc_floor by lra. rewrite (Qfloor_comp _ _ Hv).
        pose proof (floor_below (minutes * (2 # 3)) 20) as Hb.
        destruct Hb; [change (inject_Z 20) with 20%Q; lra |].
        split; [lia |]. split; [done | intros; lra].
      - pose proof (py_trunc_nonpos (intensity * 20 / (1 # 4))) as Hb.
        specialize (Hb ltac:(lra)). split; [lia |]. split; [intros; lra | done]. }
    exists (Z.max 0 full). cbn [snd]. rewrite shaded_cells by lia.
    split; [done |]. split; [lia |]. split; [apply Hlen; lia |].
    split; [intros H; specialize (Hneg H); lia |].
    split; [intros [H _]; destruct (Hpos H); lia |].
    repeat split; intros; lra. }
  apply Qlt_bool_false in E1.
  assert (30 <= minutes)%Q as H30.
  { destruct (Qlt_le_dec minutes 120) as [Hl | Hl]; [| lra].
    specialize (Hlow Hl). lra. }
  destruct (Qlt_bool intensity (1 # 2)) eqn:E2.
  { apply Qlt_bool_iff in E2.
    assert (minutes < 60)%Q as H60.
    { destruct (Qlt_le_dec minutes 120) as [Hl | Hl]; [| specialize (Hhigh Hl); lra].
      specialize (Hlow Hl). lra. }
    assert (intensity == minutes / 120)%Q as Hi by (apply Hlow; lra).
    assert (intensity * 20 / (1 # 2) == minutes * (1 # 3))%Q as Hv
      by (rewrite Hi; field).
    set (full := py_trunc (intensity * 20 / (1 # 2))).
    assert (full = Qfloor (minutes * (1 # 3)) ∧ 0 ≤ full ≤ 19) as (Hf & Hr).
    { subst full. rewrite py_trunc_floor by lra. rewrite (Qfloor_comp _ _ Hv).
      split; [done |].
      pose proof (floor_below (minutes * (1 # 3)) 20) as Hb.
      destruct Hb; [change (inject_Z 20) with 20%Q; lra | lia]. }
    exists (Z.max 0 full). cbn [snd]. rewrite shaded_cells by lia.
    split; [done |]. split; [lia |]. split; [apply Hlen; lia |].
    split; [intros; lra |]. split; [intros; lra |].
    split; [intros; lia |]. split; intros; lra. }
  apply Qlt_bool_false in E2.
  assert (60 <= minutes)%Q as H60.
  { destruct (Qlt_le_dec minutes 120) as [Hl | Hl]; [| lra].
    specialize (Hlow Hl). lra. }
  destruct (Qlt_bool intensity (3 # 4)) eqn:E3.
  { apply Qlt_bool_iff in E3.
    assert (minutes < 90)%Q as H90.
    { destruct (Qlt_le_dec minutes 120) as [Hl | Hl]; [| specialize (Hhigh Hl); lra].
      specialize (Hlow Hl). lra. }
    assert (intensity == minutes / 120)%Q as Hi by (apply Hlow; lra).
    assert (intensity * 20 / (3 # 4) == minutes * (2 # 9))%Q as Hv
      by (rewrite Hi; field).
    set (full := py_trunc (intensity * 20 / (3 # 4))).
    assert (full = Qfloor (minutes * (2 # 9)) ∧ 0 ≤ full ≤ 19) as (Hf & Hr).
    { subst full. rewrite py_trunc_floor by lra. rewrite (Qfloor_comp _ _ Hv).
      split; [done |].
      pose proof (floor_below (minutes * (2 # 9)) 20) as Hb.
      destruct Hb; [change (inject_Z 20) with 20%Q; lra | lia]. }
    exists (Z.max 0 full). cbn [snd]. rewrite shaded_cells by lia.
    split; [done |]. split; [lia |]. split; [apply Hlen; lia |].
    split; [intros; lra |]. split; [intros; lra |]. split; [intros; lra |].
    split; [intros; lia | intros; lra]. }
  apply Qlt_bool_false in E3.
  assert (90 <= minutes)%Q as H90.
  { destruct (Qlt_le_dec minutes 120) as [Hl | Hl]; [| lra].
    specialize (Hlow Hl). lra. }
  exists 20. cbn [snd]. split; [done |]. split; [lia |]. split; [done |].
  repeat split; intros; try done; lra.
Qed.

Lemma full_cells_shaded k j :
  0 ≤ k →
  full_cells (repeat_cell FullBlock k ++ repeat_cell LightShade j) = k.
Proof.
  intros Hk. unfold full_cells, repeat_cell, len. rewrite filter_app, length_app.
  assert (∀ n, filter (λ c, c = FullBlock) (replicate n FullBlock)
               = replicate n FullBlock) as ->.
  { induction n as [| n IH]; [done |]. cbn [replicate].
    by rewrite filter_cons_True, IH. }
  assert (∀ n, filter (λ c, c = FullBlock) (replicate n LightShade) = []) as ->.
  { induction n as [| n IH]; [done |]. cbn [replicate].
    by rewrite filter_cons_False. }
  rewrite length_replicate. cbn [length]. lia.
Qed.

End heatmap_cells.

(** X18. Every block of the weekly heatmap has 20 cells, full ones
    first.  The number of full cells is computed per colour band: the
    whole two thirds of the minutes below 30 minutes, the whole third
    from 30 to 60, the whole two ninths from 60 to 90, all 20 from 90
    minutes on, and none for a day without minutes. *)
Theorem heatmap_block_cells minutes :
  ∃ k, (heat_block minutes).2
       = repeat_cell FullBlock k ++ repeat_cell LightShade (20 - k)
       ∧ 0 ≤ k ≤ 20
       ∧ length (heat_block minutes).2 = 20%nat
       ∧ ((minutes <= 0)%Q → k = 0)
       ∧ ((0 < minutes < 30)%Q → k = Qfloor (minutes * (2 # 3)))
       ∧ ((30 <= minutes < 60)%Q → k = Qfloor (minutes * (1 # 3)))
       ∧ ((60 <= minutes < 90)%Q → k = Qfloor (minutes * (2 # 9)))
       ∧ ((90 <= minutes)%Q → k = 20).
Proof. apply heat_block_form. Qed.

(** X19. The block is not monotone in the minutes: just below 30 and
    just below 60 minutes it has 19 full cells, and it falls back to 10
    or 13 when the next colour band starts, so a day with more focus time
    can show a shorter bar. *)
Theorem heatmap_block_drops_at_band_edge m1 m2 :
  ((57 # 2 <= m1 < 30)%Q ∧ (30 <= m2 < 57)%Q)
  ∨ ((57 <= m1 < 60)%Q ∧ (60 <= m2 < 171 # 2)%Q) →
  (m1 < m2)%Q
  ∧ full_cells (heat_block m1).2 = 19
  ∧ full_cells (heat_block m2).2 < 19.
Proof.
  intros Hedge.
  destruct (heat_block_form m1) as (k1 & -> & Hk1 & _ & _ & Ha1 & Hb1 & _).
  destruct (heat_block_form m2) as (k2 & -> & Hk2 & _ & _ & _ & Hb2 & Hc2 & _).
  rewrite !full_cells_shaded by lia.
  destruct Hedge as [[[Hl1 Hh1] [Hl2 Hh2]] | [[Hl1 Hh1] [Hl2 Hh2]]].
  - split; [lra |].
    rewrite (Ha1 ltac:(lra)), (Hb2 ltac:(lra)).
    pose proof (Qfloor_le (m1 * (2 # 3))). pose proof (Qlt_floor (m1 * (2 # 3))) as F1.
    pose proof (Qfloor_le (m2 * (1 # 3))). pose proof (Qlt_floor (m2 * (1 # 3))) as F2.
    rewrite inject_Z_plus in F1, F2. change (inject_Z 1) with 1%Q in F1, F2.
    split.
    + assert (18 < Qfloor (m1 * (2 # 3)) < 20); [| lia].
      rewrite !Zlt_Qlt. change (inject_Z 18) with 18%Q.
      change (inject_Z 20) with 20%Q. lra.
    + rewrite Zlt_Qlt. change (inject_Z 19) with 19%Q. lra.
  - split; [lra |].
    rewrite (Hb1 ltac:(lra)), (Hc2 ltac:(lra)).
    pose proof (Qfloor_le (m1 * (1 # 3))). pose proof (Qlt_floor (m1 * (1 # 3))) as F1.
    pose proof (Qfloor_le (m2 * (2 # 9))). pose proof (Qlt_floor (m2 * (2 # 9))) as F2.
    rewrite inject_Z_plus in F1, F2. change (inject_Z 1) with 1%Q in F1, F2.
    split.
    + assert (18 < Qfloor (m1 * (1 # 3)) < 20); [| lia].
      rewrite !Zlt_Qlt. change (inject_Z 18) with 18%Q.
      change (inject_Z 20) with 20%Q. lra.
    + rewrite Zlt_Qlt. change (inject_Z 19) with 19%Q. lra.
Qed.

Lemma heatmap_block_drops_at_band_edge_witness :
  full_cells (heat_block 29).2 = 19 ∧ full_cells (heat_block 30).2 < 19.
Proof.
  destruct (heatmap_block_drops_at_band_edge 29 30) as (_ & H1 & H2).
  - left. split; split; reflexivity || done.
  - by split.
Defined.

Section heatmap_rows.

Lemma day_name_known d : default EmptyString (day_names !! Z.to_nat (weekday d)) ∈ day_names.
Proof.
  unfold weekday. pose proof (Z.mod_pos_bound (d + 6) 7 ltac:(lia)) as Hb.
  destruct (lookup_lt_is_Some_2 day_names (Z.to_nat ((d + 6) mod 7))) as [name Hname].
  { change (length day_names) with 7%nat. lia. }
  rewrite Hname. cbn [default]. by eapply list_elem_of_lookup_2.
Qed.

Lemma heat_row_log focus today i :
  let row := heat_row (build_daily focus) today i in
  hr_date row = today - i
  ∧ (hr_minutes row == sum_actual (on_day (today - i) focus))%Q
  ∧ hr_completed row = len (on_day (today - i) (completed_of focus))
  ∧ length (hr_block row) = 20%nat
  ∧ hr_day_name row ∈ day_names.
Proof.
  cbn. split; [done |]. split; [apply bucket_minutes_log |].
  split; [apply completed_on_log |]. split; [| apply day_name_known].
  by destruct (heat_block_form (bucket_minutes (build_daily focus) (today - i)))
    as (_ & _ & _ & Hlen & _).
Qed.

End heatmap_rows.

(** X20. The weekly heatmap drawn from a report has seven lines, for the
    six days before today and today, oldest first, and only the last is
    marked as today.  Each line shows the minutes of the focus sessions
    started on its date and the number of them that completed, with a
    block of 20 cells and one of the seven day names; the minutes of the
    seven lines add up to [week_minutes] of the report. *)
Theorem heatmap_shows_the_week sessions today :
  sessions ≠ [] →
  ∃ r, compute_stats sessions today = Ok (Report r)
       ∧ hr_date <$> render_weekly_heatmap (daily r) today
         = [today - 6; today - 5; today - 4; today - 3; today - 2; today - 1; today]
       ∧ hr_today <$> render_weekly_heatmap (daily r) today
         = [false; false; false; false; false; false; true]
       ∧ Forall (λ row,
                   (hr_minutes row
                    == sum_actual (on_day (hr_date row) (focus_of sessions)))%Q
                   ∧ hr_completed row
                     = len (on_day (hr_date row) (completed_of (focus_of sessions)))
                   ∧ length (hr_block row) = 20%nat
                   ∧ hr_day_name row ∈ day_names)
                (render_weekly_heatmap (daily r) today)
       ∧ (Qsum (hr_minutes <$> render_weekly_heatmap (daily r) today)
          == week_minutes r)%Q.
Proof.
  intros Hne.
  destruct (compute_stats_returns sessions today Hne)
    as (r & Hr & Hd & _ & _ & _ & Hwm & _).
  exists r. split; [done |]. rewrite Hwm, Hd.
  split; [unfold render_weekly_heatmap; cbn; by rewrite Z.sub_0_r |].
  split; [done |]. split.
  - unfold render_weekly_heatmap. apply Forall_fmap, Forall_forall. intros i _.
    destruct (heat_row_log (focus_of sessions) today i) as (Hdate & Hm & Hc & Hl & Hn).
    cbn [compose]. by rewrite Hdate.
  - destruct (week_totals_buckets (build_daily (focus_of sessions)) today) as [-> _].
    unfold week_dates, render_weekly_heatmap.
    change (seqZ 0 7) with [0; 1; 2; 3; 4; 5; 6].
    unfold fmap, Qsum. cbn [list_fmap foldr hr_minutes heat_row]. ring.
Qed.

Lemma heatmap_shows_the_week_witness :
  ∃ r, compute_stats january_log (ymd2ord 2024 1 8) = Ok (Report r)
       ∧ hr_day_name <$> render_weekly_heatmap (daily r) (ymd2ord 2024 1 8)
         = ["Tue"; "Wed"; "Thu"; "Fri"; "Sat"; "Sun"; "Mon"]%string
       ∧ (Qsum (hr_minutes <$> render_weekly_heatmap (daily r) (ymd2ord 2024 1 8))
          == week_minutes r)%Q.
Proof.
  destruct (heatmap_shows_the_week january_log (ymd2ord 2024 1 8))
    as (r & Hr & _ & _ & _ & Hsum); [done |].
  exists r. split; [exact Hr |]. split; [| exact Hsum].
  vm_compute in Hr. injection Hr as <-. reflexivity.
Defined.

Section bar_chart.

Lemma py_max_upper first rest :
  (first <= py_max first rest)%Q
  ∧ Forall (λ v, (v <= py_max first rest)%Q) rest.
Proof.
  unfold py_max. revert first. induction rest as [| v rest IH]; intros first.
  { split; [cbn; lra | constructor]. }
  cbn [foldl]. destruct (Qgt_bool v first) eqn:E.
  - destruct (IH v) as [Hv Hrest]. unfold Qgt_bool in E.
    apply negb_true_iff in E.
    assert (¬ (v <= first)%Q) by (rewrite <- Qle_bool_iff; congruence).
    split; [lra |]. by constructor.
  - destruct (IH first) as [Hf Hrest]. unfold Qgt_bool in E.
    apply negb_false_iff, Qle_bool_iff in E.
    split; [done |]. constructor; [lra | done].
Qed.

Lemma py_max_attained first rest :
  py_max first rest = first ∨ py_max first rest ∈ rest.
Proof.
  unfold py_max. revert first. induction rest as [| v rest IH]; intros first.
  { by left. }
  cbn [foldl]. destruct (Qgt_bool v first).
  - destruct (IH v) as [-> | Hin]; right; [left | by right].
  - destruct (IH first) as [-> | Hin]; [by left | right; by right].
Qed.

Lemma py_slice_from_sublist {A} start (l : list A) :
  ∃ k, py_slice_from start l = drop k l
       ∧ (start < 0 → (length (py_slice_from start l) ≤ Z.to_nat (- start))%nat)
       ∧ (start < 0 → py_slice_from start l = [] → l = []).
Proof.
  unfold py_slice_from, len. destruct (Z.ltb_spec start 0).
  - eexists. split; [done |]. split.
    + intros _. rewrite length_drop. lia.
    + intros _ Hnil. apply drop_nil_inv in Hnil.
      apply length_zero_iff_nil. lia.
  - eexists. split; [done |]. split; lia.
Qed.

Lemma py_trunc_int (n : Z) : py_trunc (inject_Z n) = n.
Proof. unfold py_trunc. rewrite Qfloor_Z, Qceiling_Z. by destruct (Qle_bool _ _). Qed.

Lemma py_trunc_comp x y : (x == y)%Q → py_trunc x = py_trunc y.
Proof.
  intros Hxy. unfold py_trunc.
  rewrite (Qfloor_comp _ _ Hxy), (Qceiling_comp _ _ Hxy).
  assert (Qle_bool 0 x = Qle_bool 0 y) as ->; [| done].
  apply eq_true_iff_eq. rewrite !Qle_bool_iff. by rewrite Hxy.
Qed.

Lemma py_trunc_mono x y : (x <= y)%Q → py_trunc x ≤ py_trunc y.
Proof.
  intros Hxy. unfold py_trunc.
  destruct (Qle_bool 0 x) eqn:Ex, (Qle_bool 0 y) eqn:Ey.
  - by apply Qfloor_resp_le.
  - apply Qle_bool_iff in Ex.
    assert (¬ (0 <= y)%Q) by (rewrite <- Qle_bool_iff; congruence). lra.
  - apply Qle_bool_iff in Ey.
    assert (¬ (0 <= x)%Q) as Hx by (rewrite <- Qle_bool_iff; congruence).
    transitivity 0.
    + apply (Qceiling_resp_le x 0). lra.
    + by apply (Qfloor_resp_le 0 y).
  - by apply Qceiling_resp_le.
Qed.

End bar_chart.

Section bar_chart_rows.

Context {K V : Type} `{Countable K}.

Lemma rmapM_total {A B} (f : A → result B) (g : A → B) (l : list A) :
  Forall (λ x, f x = Ok (g x)) l → rmapM f l = Ok (g <$> l).
Proof.
  induction 1 as [| x l Hx _ IH]; [done |].
  cbn [rmapM]. by rewrite Hx, IH.
Qed.

Lemma bar_length_bound (q : Q) (width : Z) :
  (0 < q <= 1)%Q →
  len (repeat_cell FullBlock (py_trunc (q * inject_Z width))) ≤ Z.max 0 width.
Proof.
  intros [Hq0 Hq1]. unfold repeat_cell, len. rewrite length_replicate.
  destruct (Z.le_gt_cases 0 width) as [Hw | Hw].
  - assert (0 <= inject_Z width)%Q as Hw'
      by (change 0%Q with (inject_Z 0); by rewrite <- Zle_Qle).
    pose proof (py_trunc_mono (q * inject_Z width) (inject_Z width)) as Hm.
    rewrite py_trunc_int in Hm. specialize (Hm ltac:(nra)). lia.
  - assert (inject_Z width < 0)%Q as Hw'
      by (change 0%Q with (inject_Z 0); by rewrite <- Zlt_Qlt).
    pose proof (py_trunc_nonpos (q * inject_Z width) ltac:(nra)). lia.
Qed.

Lemma bar_length_full (q : Q) (width : Z) :
  (q == 1)%Q →
  len (repeat_cell FullBlock (py_trunc (q * inject_Z width))) = Z.max 0 width.
Proof.
  intros Hq. unfold repeat_cell, len. rewrite length_replicate.
  rewrite (py_trunc_comp _ (inject_Z width)) by (rewrite Hq; ring).
  rewrite py_trunc_int. lia.
Qed.

(** X21. [render_bar_chart] never divides by zero.  It reports that
    there is no data only if no label has a positive value (for a
    positive [max_bars]); otherwise every bar belongs to a label with a
    positive value, is at most [width] cells long, a bar of the largest
    value is exactly [width] cells long, and no more than [max_bars] bars
    are drawn. *)
Theorem bar_chart_is_scaled (data : gmap K V) (value : V → Q) (labels : list K)
    (max_bars width : Z) :
  ∃ c, render_bar_chart data value labels max_bars width = Ok c
       ∧ match c with
         | NoData =>
             0 < max_bars →
             Forall (λ lbl, (from_option value 0 (data !! lbl) <= 0)%Q) labels
         | Bars rows =>
             rows ≠ []
             ∧ Forall (λ row,
                         bar_label row ∈ labels
                         ∧ bar_value row = from_option value 0%Q (data !! bar_label row)
                         ∧ (0 < bar_value row)%Q
                         ∧ len (bar row) ≤ Z.max 0 width) rows
             ∧ Exists (λ row,
                         len (bar row) = Z.max 0 width
                         ∧ Forall (λ other, (bar_value other <= bar_value row)%Q) rows)
                      rows
             ∧ (0 < max_bars → len rows ≤ max_bars)
         end.
Proof.
  unfold render_bar_chart. cbv zeta.
  pose (val := λ lbl, from_option value 0%Q (data !! lbl)).
  set (items0 := _ <$> filter _ labels).
  assert (Forall (λ item : K * Q, item.1 ∈ labels ∧ item.2 = val item.1
                                  ∧ (0 < item.2)%Q) items0) as Hitems0.
  { subst items0. apply Forall_fmap, Forall_forall. intros lbl Hin.
    cbv beta in Hin.
    apply list_elem_of_filter in Hin as [Hpos Hin]. cbn.
    split; [done |]. split; [done |].
    unfold Qgt_bool in Hpos. apply negb_true_iff in Hpos.
    apply Qnot_le_lt. rewrite <- Qle_bool_iff. congruence. }
  destruct (py_slice_from_sublist (- max_bars) items0) as (k & Hslice & Hlen & Hall).
  assert (Forall (λ item : K * Q, item.1 ∈ labels ∧ item.2 = val item.1
                                  ∧ (0 < item.2)%Q)
                 (py_slice_from (- max_bars) items0)) as Hitems
    by (rewrite Hslice; by apply Forall_drop).
  destruct (py_slice_from (- max_bars) items0) as [| first rest] eqn:Eitems.
  { exists NoData. split; [done |]. intros Hmax.
    specialize (Hall ltac:(lia) eq_refl). subst items0.
    apply fmap_nil_inv in Hall. apply Forall_forall. intros lbl Hin.
    destruct (Qlt_le_dec 0 (val lbl)) as [Hpos | Hle]; [| done].
    exfalso. eapply (filter_nil_not_elem_of _ _ lbl Hall); [| exact Hin].
    cbv beta. unfold Qgt_bool. apply negb_true_iff.
    destruct (Qle_bool (val lbl) 0) eqn:E; [| done].
    apply Qle_bool_iff in E. lra. }
  set (items := first :: rest) in *.
  set (max_val := py_max first.2 rest.*2).
  destruct (py_max_upper first.2 rest.*2) as [Hfirst Hrest].
  fold max_val in Hfirst, Hrest.
  assert (Forall (λ item : K * Q, (item.2 <= max_val)%Q) items) as Hupper.
  { subst items. constructor; [done |].
    pose proof (proj1 (Forall_forall (λ v, (v <= max_val)%Q) rest.*2) Hrest) as Hall'.
    apply Forall_forall. intros item Hin. apply Hall', list_elem_of_fmap.
    by exists item. }
  assert (∃ top, top ∈ items ∧ top.2 = max_val) as (top & Htop & Hval).
  { destruct (py_max_attained first.2 rest.*2) as [Hm | Hm].
    - exists first. split; [left | done].
    - apply list_elem_of_fmap in Hm as (top & Hm & Hin).
      exists top. split; [by right | done]. }
  assert (0 < max_val)%Q as Hmax.
  { apply Forall_inv in Hitems as (_ & _ & Hpos). lra. }
  assert (Qgt_bool max_val 0 = true) as Hgt.
  { unfold Qgt_bool. apply negb_true_iff.
    destruct (Qle_bool max_val 0) eqn:E; [| done]. apply Qle_bool_iff in E. lra. }
  assert (Qeq_bool max_val 0 = false) as Hne.
  { destruct (Qeq_bool max_val 0) eqn:E; [| done]. apply Qeq_bool_iff in E. lra. }
  set (row_of := λ item : K * Q,
         {| bar_label := item.1;
            bar := repeat_cell FullBlock
                     (py_trunc (item.2 / max_val * inject_Z width));
            bar_value := item.2 |}).
  rewrite (rmapM_total _ row_of).
  2:{ apply Forall_forall. intros item _. rewrite Hgt. unfold py_truediv.
      by rewrite Hne. }
  cbn [rbind]. eexists. split; [reflexivity |].
  split; [done |]. split; [| split].
  - apply Forall_fmap, Forall_forall. intros item Hitem.
    pose proof (proj1 (Forall_forall _ _) Hitems item Hitem) as (Hin & Hv & Hpos).
    pose proof (proj1 (Forall_forall _ _) Hupper item Hitem) as Hle.
    cbv beta in Hle. cbn.
    split; [done |]. split; [done |]. split; [done |].
    apply bar_length_bound. split.
    + apply Qlt_shift_div_l; lra.
    + apply Qle_shift_div_r; lra.
  - apply Exists_exists. exists (row_of top). split.
    { apply list_elem_of_fmap. by exists top. }
    split.
    + apply bar_length_full. rewrite Hval. field. lra.
    + apply Forall_forall. intros row Hrow.
      apply list_elem_of_fmap in Hrow as (item & -> & Hitem).
      pose proof (proj1 (Forall_forall _ _) Hupper item Hitem) as Hle.
      cbv beta in Hle. cbn. by rewrite Hval.
  - intros Hpos. unfold len. rewrite length_fmap.
    specialize (Hlen ltac:(lia)). cbn in Hlen |- *. lia.
Qed.

End bar_chart_rows.

Section hourly_chart.

Lemma build_hourly_snoc l s :
  build_hourly (l ++ [s]) = hourly_step (build_hourly l) s.
Proof. unfold build_hourly. by rewrite foldl_app. Qed.

Lemma build_hourly_keys l :
  (∀ h b, build_hourly l !! h = Some b → 1 ≤ h_sessions b)
  ∧ (∀ s, s ∈ l → is_Some (build_hourly l !! dt_hour (started_at s))).
Proof.
  induction l as [| s l [IHb IHk]] using rev_ind.
  { split; [intros h b Hb; change (build_hourly []) with (∅ : gmap Z HourlyBucket) in Hb;
            by rewrite lookup_empty in Hb |].
    intros s Hs. by apply elem_of_nil in Hs. }
  rewrite build_hourly_snoc. unfold hourly_step. split.
  - intros h b. destruct (decide (dt_hour (started_at s) = h)) as [<- | Hne].
    + rewrite lookup_insert_eq. intros [= <-]. cbn.
      destruct (build_hourly l !! dt_hour (started_at s)) as [b' |] eqn:E; cbn.
      * specialize (IHb _ _ E). lia.
      * lia.
    + rewrite lookup_insert_ne by done. apply IHb.
  - intros s' Hin.
    destruct (decide (dt_hour (started_at s) = dt_hour (started_at s'))) as [<- | Hne].
    + by rewrite lookup_insert_eq.
    + rewrite lookup_insert_ne by done. apply elem_of_app in Hin as [Hin | Hin].
      * by apply IHk.
      * apply list_elem_of_singleton in Hin. by subst.
Qed.

Lemma render_hourly_chart_empty hourly : render_hourly_chart hourly = Ok NoData.
Proof.
  unfold render_hourly_chart, render_bar_chart. cbv zeta.
  set (labels := _ <$> seqZ 0 24).
  assert (filter (λ lbl : Z + string,
                    Qgt_bool (from_option h_minutes 0%Q (kmap inl hourly !! lbl)) 0 = true)
                 labels = []) as ->; [| done].
  assert (Forall (λ lbl : Z + string, ∃ name, lbl = inr name) labels) as Hstr.
  { subst labels. apply Forall_fmap, Forall_forall. intros h _. by eexists. }
  induction Hstr as [| lbl labels' [name ->] _ IH]; [done |].
  rewrite filter_cons_False; [exact IH |]. cbv beta.
  match goal with |- context [?m !! inr name] =>
    assert (m !! inr name = None) as -> end.
  { apply lookup_kmap_None; [apply _ |]. intros i Hi. discriminate Hi. }
  by cbn.
Qed.

End hourly_chart.

(** X22. The chart of productivity by hour never shows a bar.
    [compute_stats] files the focus sessions under the hour as an integer,
    [render_hourly_chart] looks the buckets up under the strings "00:00"
    to "23:00": every focus session of the log has its hourly bucket in
    the report, and still the chart drawn from the report is [NoData]. *)
Theorem hourly_chart_never_shows_data sessions today s :
  s ∈ sessions →
  is_focus s →
  ∃ r b, compute_stats sessions today = Ok (Report r)
         ∧ hourly r !! dt_hour (started_at s) = Some b
         ∧ 1 ≤ h_sessions b
         ∧ render_hourly_chart (hourly r) = Ok NoData.
Proof.
  intros Hin Hfocus.
  destruct (compute_stats_returns sessions today) as (r & Hr & _ & Hh & _).
  { intros ->. by apply elem_of_nil in Hin. }
  destruct (build_hourly_keys (focus_of sessions)) as [Hb Hk].
  destruct (Hk s) as [b Hsb].
  { apply list_elem_of_filter. by split. }
  exists r, b. split; [done |]. rewrite Hh. split; [done |].
  split; [by eapply Hb | apply render_hourly_chart_empty].
Qed.

Lemma hourly_chart_never_shows_data_witness :
  ∃ r b, compute_stats january_log (ymd2ord 2024 1 8) = Ok (Report r)
         ∧ hourly r !! 9 = Some b
         ∧ render_hourly_chart (hourly r) = Ok NoData.
Proof.
  destruct (hourly_chart_never_shows_data january_log (ymd2ord 2024 1 8)
              (sample_record "focus" (ymd2ord 2024 1 1) 9 25 true))
    as (r & b & Hr & Hb & _ & Hchart).
  - left.
  - reflexivity.
  - by exists r, b.
Defined.

(** * Screens and main loop *)

Section screens_frame.

Lemma compute_stats_total sessions today :
  ∃ stats, compute_stats sessions today = Ok stats
           ∧ (sessions = [] → stats = EmptyStats)
           ∧ (sessions ≠ [] → ∃ r, stats = Report r).
Proof.
  destruct sessions as [| first rest].
  - exists EmptyStats. by repeat split.
  - destruct (compute_stats_returns (first :: rest) today) as (r & Hr & _); [done |].
    exists (Report r). split; [done |]. split; [done |]. intros _. by exists r.
Qed.

Lemma screen_stats_result w :
  screen_stats w = Done tt (set_stdin (tail (stdin w)) w).
Proof.
  unfold screen_stats, bind at 1, load_sessions.
  unfold bind at 1, date_today.
  destruct (compute_stats_total (sessions_json w) (dt_date (datetime_now (clock w))))
    as (stats & Hstats & _).
  unfold bind at 1, lift. rewrite Hstats. destruct stats as [| r].
  - by rewrite (bind_Done _ _ _ _ _ (input_prompt_eq w)).
  - unfold bind at 1, lift. rewrite render_hourly_chart_empty.
    by rewrite (bind_Done _ _ _ _ _ (input_prompt_eq w)).
Qed.









End screens_frame.

(** X23. The statistics screen only reads: on every log it computes the
    report and its charts without raising, reads one line of input and
    leaves session log and configuration as they are. *)
Theorem stats_screen_only_reads w :
  ∃ w', screen_stats w = Done tt w'
        ∧ sessions_json w' = sessions_json w
        ∧ config_json w' = config_json w
        ∧ stdin w' = tail (stdin w).
Proof. rewrite screen_stats_result. by eexists. Qed.

